(** * Weighted aggregation and categorical association of cultura2.py

    A shallow embedding of the statistical core of [src/cultura2.py]:
    the cleaning stage ([limpiar_datos_categoricos]), the weight repair and
    the age buckets of [load_and_process_data], the weighted rate
    ([weighted_percentage]), the weighted mean of the ethnicity report
    ([np.average]) and the Cramér's V association matrix ([cramers_v],
    [calculate_association_matrix]).

    Numbers.  The program computes with IEEE doubles inside pandas and
    numpy.  They are modelled by the exact rationals they denote, extended
    with NaN and the two infinities; the special values follow IEEE 754
    (0/0 is NaN, a comparison with NaN is false, ...), rounding and the
    sign of zero are not modelled.

    Library code.  pandas, numpy and scipy are not part of the repository;
    the functions the source calls are modelled from their documented
    behaviour in the modules [Pd], [Xtab], [Np], [Scipy] and [Py] below. *)

From stdpp Require Import base list.
From Stdlib Require Import QArith Qreduction Qround Qabs Lqa Lia ZArith String Ascii Bool.
From Stdlib Require Import Sorted Decimal DecimalNat DecimalString.
Import ListNotations.

Local Open Scope string_scope.
Local Open Scope Q_scope.

(* ===================================================================== *)
(** ** Floating-point values *)
(* ===================================================================== *)

Inductive float : Type :=
| NaN
| NInf
| Fin (q : Q)
| PInf.

Module Fl.

Definition Qltb (a b : Q) : bool :=
  match a ?= b with Lt => true | _ => false end.

(** [x < y] *)
Definition ltb (x y : float) : bool :=
  match x, y with
  | NaN, _ => false
  | _, NaN => false
  | NInf, NInf => false
  | NInf, _ => true
  | Fin _, NInf => false
  | Fin a, Fin b => Qltb a b
  | Fin _, PInf => true
  | PInf, _ => false
  end.

(** [x <= y] *)
Definition leb (x y : float) : bool :=
  match x, y with
  | NaN, _ => false
  | _, NaN => false
  | NInf, _ => true
  | Fin _, NInf => false
  | Fin a, Fin b => Qle_bool a b
  | Fin _, PInf => true
  | PInf, PInf => true
  | PInf, _ => false
  end.

(** [x > y] and [x >= y] *)
Definition gtb (x y : float) : bool := ltb y x.
Definition geb (x y : float) : bool := leb y x.

(** [x == y] *)
Definition eqb (x y : float) : bool :=
  match x, y with
  | NInf, NInf => true
  | PInf, PInf => true
  | Fin a, Fin b => Qeq_bool a b
  | _, _ => false
  end.

Definition is_nan (x : float) : bool :=
  match x with NaN => true | _ => false end.

Definition is_finite (x : float) : bool :=
  match x with Fin _ => true | _ => false end.

Definition sign_inf (negative : bool) : float :=
  if negative then NInf else PInf.

Definition add (x y : float) : float :=
  match x, y with
  | NaN, _ => NaN
  | _, NaN => NaN
  | PInf, NInf => NaN
  | NInf, PInf => NaN
  | PInf, _ => PInf
  | _, PInf => PInf
  | NInf, _ => NInf
  | _, NInf => NInf
  | Fin a, Fin b => Fin (Qred (a + b))
  end.

Definition opp (x : float) : float :=
  match x with
  | NaN => NaN
  | NInf => PInf
  | PInf => NInf
  | Fin a => Fin (Qred (- a))
  end.

Definition sub (x y : float) : float := add x (opp y).

(** an infinity times the finite [a]: NaN for [a = 0], else the sign rule *)
Definition mul_inf (negative : bool) (a : Q) : float :=
  if Qeq_bool a 0 then NaN
  else sign_inf (xorb negative (Qltb a 0)).

Definition mul (x y : float) : float :=
  match x, y with
  | NaN, _ => NaN
  | _, NaN => NaN
  | PInf, PInf => PInf
  | NInf, NInf => PInf
  | PInf, NInf => NInf
  | NInf, PInf => NInf
  | PInf, Fin a => mul_inf false a
  | Fin a, PInf => mul_inf false a
  | NInf, Fin a => mul_inf true a
  | Fin a, NInf => mul_inf true a
  | Fin a, Fin b => Fin (Qred (a * b))
  end.

(** numpy's true division: a zero divisor gives NaN or an infinity (with a
    warning), never an exception *)
Definition div (x y : float) : float :=
  match x, y with
  | NaN, _ => NaN
  | _, NaN => NaN
  | Fin _, PInf => Fin 0
  | Fin _, NInf => Fin 0
  | Fin a, Fin b =>
      if Qeq_bool b 0 then
        if Qeq_bool a 0 then NaN else sign_inf (Qltb a 0)
      else Fin (Qred (a / b))
  | PInf, Fin b => sign_inf (Qltb b 0)
  | NInf, Fin b => sign_inf (negb (Qltb b 0))
  | _, _ => NaN
  end.

Definition of_nat (n : nat) : float := Fin (inject_Z (Z.of_nat n)).

Definition of_bool (b : bool) : float := if b then Fin 1 else Fin 0.

(** the sum of a numpy array: NaN propagates *)
Definition sum (l : list float) : float := fold_left add l (Fin 0).

End Fl.

(** the finite values that arithmetic returns are reduced fractions *)
Definition canon (x : float) : Prop :=
  match x with
  | Fin q => Qred q = q
  | _ => True
  end.

(* ===================================================================== *)
(** ** Exceptions *)
(* ===================================================================== *)

Inductive exn : Type :=
| KeyError
| TypeError
| ValueError
| ZeroDivisionError.

(** The outcome of a Python call: a value, or a raised exception. *)
Inductive result (A : Type) : Type :=
| Ok (a : A)
| Raise (e : exn).

Arguments Ok {A} a.
Arguments Raise {A} e.

Definition bind {A B : Type} (r : result A) (k : A -> result B) : result B :=
  match r with
  | Ok a => k a
  | Raise e => Raise e
  end.

Notation "'let*' x ':=' r 'in' k" := (bind r (fun x => k))
  (at level 10, x name, r at level 100, k at level 200).

(* ===================================================================== *)
(** ** Tables *)
(* ===================================================================== *)

(** A cell of a DataFrame: a number or a text.  A missing cell is the
    number NaN, as pandas has it. *)
Inductive cell : Type :=
| Num (x : float)
| Str (s : string).

Inductive dtype : Type :=
| DNumeric
| DObject
| DCategory (categories : list string)
| DOther.

Record Column : Type := mkColumn {
  col_name : string;
  col_dtype : dtype;
  col_values : list cell
}.

(** A DataFrame: its index length and its columns, in order.  pandas keeps
    every column as long as the index and, read from a spreadsheet, the
    column names distinct. *)
Record DataFrame : Type := mkDataFrame {
  nrows : nat;
  columns : list Column
}.

Definition wf_df (df : DataFrame) : Prop :=
  Forall (fun c => List.length (col_values c) = nrows df) (columns df).

Module Pd.

(** [isnull] / [notna] on one cell *)
Definition isnull (c : cell) : bool :=
  match c with Num NaN => true | _ => false end.

Definition notna (c : cell) : bool := negb (isnull c).

(** [series.isnull().sum()] *)
Definition count_na (values : list cell) : nat :=
  List.length (List.filter isnull values).

(** [series.fillna(v)] *)
Definition fillna (v : cell) (values : list cell) : list cell :=
  List.map (fun c => if isnull c then v else c) values.

(** [df.shape] *)
Definition shape (df : DataFrame) : nat * nat :=
  (nrows df, List.length (columns df)).

(** [df.drop(columns=names)] *)
Definition drop (names : list string) (df : DataFrame) : DataFrame :=
  {| nrows := nrows df;
     columns :=
       List.filter (fun c => negb (existsb (String.eqb (col_name c)) names))
                   (columns df) |}.

(** [name in df.columns] *)
Definition has_column (df : DataFrame) (name : string) : bool :=
  existsb (fun c => String.eqb (col_name c) name) (columns df).

(** [df[name]]: a [KeyError] for a name that is no column *)
Definition get_column (df : DataFrame) (name : string) : result Column :=
  match List.find (fun c => String.eqb (col_name c) name) (columns df) with
  | Some c => Ok c
  | None => Raise KeyError
  end.

(** [df[name] = values]: the column is replaced where it stands, a new one
    is appended *)
Definition set_column (df : DataFrame) (name : string) (d : dtype)
  (values : list cell) : DataFrame :=
  let nueva := {| col_name := name; col_dtype := d; col_values := values |} in
  {| nrows := nrows df;
     columns :=
       if has_column df name
       then List.map (fun c => if String.eqb (col_name c) name then nueva else c)
                     (columns df)
       else columns df ++ [nueva] |}.

(** [bins.searchsorted(x, side='left')]: the number of edges below [x];
    NaN sorts after every edge *)
Definition searchsorted_left (bins : list float) (x : float) : nat :=
  if Fl.is_nan x then List.length bins
  else List.length (List.filter (fun b => Fl.ltb b x) bins).

(** [pd.cut(x, bins, labels=labels, include_lowest=...)] on one value, with
    the default [right=True]: bin [i] is [(bins[i-1], bins[i]]], and
    [include_lowest] puts [bins[0]] itself into the first bin.  [None] is
    the missing category. *)
Definition cut (x : float) (bins : list float) (labels : list string)
  (include_lowest : bool) : option string :=
  let ids0 := searchsorted_left bins x in
  let ids := if include_lowest && Fl.eqb x (List.hd NaN bins) then 1%nat else ids0 in
  if Fl.is_nan x || Nat.eqb ids (List.length bins) || Nat.eqb ids 0
  then None
  else nth_error labels (ids - 1).

(** a category as a cell of the table *)
Definition categoria (o : option string) : cell :=
  match o with
  | Some s => Str s
  | None => Num NaN
  end.

(** [series.dropna()] *)
Definition dropna (values : list cell) : list cell := List.filter notna values.

(** [series[mask]]: the entries at the positions where the mask holds *)
Fixpoint mask_filter {A : Type} (mask : list bool) (l : list A) : list A :=
  match mask, l with
  | b :: mask', x :: l' => if b then x :: mask_filter mask' l' else mask_filter mask' l'
  | _, _ => []
  end.

(** [mask.sum()] *)
Definition count_true (mask : list bool) : nat :=
  List.length (List.filter (fun b => b) mask).

(** [df[mask]] / [df.loc[mask]]: the rows where the mask holds *)
Definition loc_rows (mask : list bool) (df : DataFrame) : DataFrame :=
  {| nrows := count_true (firstn (nrows df) mask);
     columns :=
       List.map (fun c => {| col_name := col_name c; col_dtype := col_dtype c;
                             col_values := mask_filter mask (col_values c) |})
                (columns df) |}.

(** [series.sum()]: missing values are skipped *)
Definition sum (values : list float) : float :=
  Fl.sum (List.filter (fun x => negb (Fl.is_nan x)) values).

(** the numbers of a numeric series handed to numpy; a text among them
    makes the arithmetic fail *)
Fixpoint as_floats (values : list cell) : result (list float) :=
  match values with
  | [] => Ok []
  | Num x :: rest => let* xs := as_floats rest in Ok (x :: xs)
  | Str _ :: _ => Raise TypeError
  end.

(** [series.isin(names)] and [series == name] on one cell *)
Definition cell_is (name : string) (c : cell) : bool :=
  match c with
  | Str s => String.eqb s name
  | Num _ => false
  end.

Definition isin (names : list string) (c : cell) : bool :=
  existsb (fun name => cell_is name c) names.

End Pd.

(* ===================================================================== *)
(** ** Cleaning stage: [limpiar_datos_categoricos] *)
(* ===================================================================== *)

(** The entries of [info_limpieza['observaciones']], before formatting. *)
Inductive observacion : Type :=
| ObsEliminadas (n : nat) (umbral_pct : float)
| ObsImputadas (n : nat).

Record info_limpieza : Type := mkInfo {
  forma_original : nat * nat;
  columnas_eliminadas : list string;
  columnas_imputadas_categoricas : list string;
  observaciones : list observacion;
  forma_final : nat * nat
}.

Definition NO_INFORMACION : string := "NO INFORMACION".

(** [(na_por_columna / len(df_limpio)) * 100] for one column *)
Definition porcentaje_na (df : DataFrame) (c : Column) : float :=
  Fl.mul (Fl.div (Fl.of_nat (Pd.count_na (col_values c))) (Fl.of_nat (nrows df)))
         (Fin 100).

(** [porcentaje_na[porcentaje_na > (umbral_na * 100)].index.tolist()] *)
Definition columnas_a_eliminar (df : DataFrame) (umbral_na : float) : list string :=
  List.map col_name
    (List.filter (fun c => Fl.gtb (porcentaje_na df c) (Fl.mul umbral_na (Fin 100)))
                 (columns df)).

(** [select_dtypes(include=['object', 'category'])] *)
Definition es_categorica (c : Column) : bool :=
  match col_dtype c with
  | DObject => true
  | DCategory _ => true
  | _ => false
  end.

(** the body of the imputation loop for a column that has missing values *)
Definition imputar (c : Column) : Column :=
  match col_dtype c with
  | DCategory cats =>
      {| col_name := col_name c;
         col_dtype :=
           DCategory (if existsb (String.eqb NO_INFORMACION) cats
                      then cats else cats ++ [NO_INFORMACION]);
         col_values := Pd.fillna (Str NO_INFORMACION) (col_values c) |}
  | d =>
      {| col_name := col_name c;
         col_dtype := d;
         col_values := Pd.fillna (Str NO_INFORMACION) (col_values c) |}
  end.

(** a categorical column that still has a missing value *)
Definition pendiente (c : Column) : bool :=
  es_categorica c && (0 <? Pd.count_na (col_values c))%nat.

(** PASO 2: the loop over the categorical columns, threading the columns
    and the list of imputed names *)
Fixpoint imputar_categoricas (cols : list Column) : list Column * list string :=
  match cols with
  | [] => ([], [])
  | c :: rest =>
      let (rest', imputadas) := imputar_categoricas rest in
      if pendiente c
      then (imputar c :: rest', col_name c :: imputadas)
      else (c :: rest', imputadas)
  end.

Definition limpiar_datos_categoricos (df : DataFrame) (umbral_na : float)
  : DataFrame * info_limpieza :=
  let eliminar := columnas_a_eliminar df umbral_na in
  let hay_eliminadas := negb (Nat.eqb (List.length eliminar) 0) in
  let df1 := if hay_eliminadas then Pd.drop eliminar df else df in
  let obs1 :=
    if hay_eliminadas
    then [ObsEliminadas (List.length eliminar) (Fl.mul umbral_na (Fin 100))]
    else [] in
  let (cols2, imputadas) := imputar_categoricas (columns df1) in
  let df2 := {| nrows := nrows df1; columns := cols2 |} in
  (df2,
   {| forma_original := Pd.shape df;
      columnas_eliminadas := eliminar;
      columnas_imputadas_categoricas := imputadas;
      observaciones := obs1 ++ [ObsImputadas (List.length imputadas)];
      forma_final := Pd.shape df2 |}).

(** The missing-value fraction of a column, [na / len(df)]. *)
Definition fraccion_na (df : DataFrame) (c : Column) : float :=
  Fl.div (Fl.of_nat (Pd.count_na (col_values c))) (Fl.of_nat (nrows df)).

(** The order of the dropped columns as the specification words it:
    descending missing fraction, ties in original column order (a stable
    insertion sort of the columns over the threshold). *)
Fixpoint insert_desc (key : Column -> float) (c : Column) (l : list Column)
  : list Column :=
  match l with
  | [] => [c]
  | d :: r => if Fl.leb (key d) (key c) then c :: d :: r
              else d :: insert_desc key c r
  end.

Definition sort_desc (key : Column -> float) (l : list Column) : list Column :=
  fold_right (insert_desc key) [] l.

Definition dropped_columns_spec (df : DataFrame) (umbral_na : float) : list string :=
  List.map col_name
    (sort_desc (fraccion_na df)
       (List.filter (fun c => Fl.gtb (fraccion_na df c) umbral_na) (columns df))).

(** Two rows; column A misses one value, column B both. *)
Definition df_orden : DataFrame :=
  {| nrows := 2;
     columns :=
       [ {| col_name := "A"; col_dtype := DObject;
            col_values := [Num NaN; Str "x"] |};
         {| col_name := "B"; col_dtype := DObject;
            col_values := [Num NaN; Num NaN] |};
         {| col_name := "C"; col_dtype := DNumeric;
            col_values := [Num (Fin 1); Num NaN] |};
         {| col_name := "D"; col_dtype := DCategory ["u"];
            col_values := [Str "u"; Str "u"] |} ] |}.

(* ===================================================================== *)
(** ** Derivation stage: [load_and_process_data] *)
(* ===================================================================== *)

Definition FACTOR_DE_EXPANSION : string := "FACTOR DE EXPANSION".
Definition EDAD : string := "EDAD".
Definition GRUPO_EDAD : string := "grupo_edad".

(** The [st.warning] messages of the weight validation, before formatting. *)
Inductive aviso : Type :=
| AvisoNoValidos (valores_nulos : nat)
| AvisoNoPositivos (valores_invalidos : nat)
| AvisoFactorAusente.

Definition bins_edad : list float :=
  [Fin 0; Fin 12; Fin 18; Fin 28; Fin 40; Fin 60; Fin 100].

Definition labels_edad : list string :=
  ["Niñez (0-12)"; "Adolescencia (13-18)"; "Juventud (19-28)";
   "Adultez temprana (29-40)"; "Adultez media (41-60)"; "Adulto mayor (60+)"].

Section Derivacion.

(** The number [pd.to_numeric] reads from a text cell; NaN for a text that
    is no number ([errors='coerce']). *)
Variable str_to_float : string -> float.

(** [pd.to_numeric(series, errors='coerce')] on one cell *)
Definition to_numeric (c : cell) : float :=
  match c with
  | Num x => x
  | Str s => str_to_float s
  end.

(** [series.fillna(1)] and [series[series <= 0] = 1] on one weight *)
Definition fillna_1 (x : float) : float := if Fl.is_nan x then Fin 1 else x.
Definition no_positivo_1 (x : float) : float := if Fl.leb x (Fin 0) then Fin 1 else x.

(** the two repairs in sequence *)
Definition reparar (x : float) : float := no_positivo_1 (fillna_1 x).

(** "Validar factor de expansión": the table with the repaired weight
    column, and the warnings shown.  [Pd.get_column] answers the test
    ['FACTOR DE EXPANSION' in df.columns].  The chained
    [df[col].fillna(1, inplace=True)] updates the table, as it does in
    pandas without copy-on-write. *)
Definition validar_factor_expansion (df : DataFrame) : DataFrame * list aviso :=
  match Pd.get_column df FACTOR_DE_EXPANSION with
  | Ok col =>
      let v0 := List.map to_numeric (col_values col) in
      let valores_nulos := List.length (List.filter Fl.is_nan v0) in
      let hay_nulos := (0 <? valores_nulos)%nat in
      let v1 := if hay_nulos then List.map fillna_1 v0 else v0 in
      let valores_invalidos :=
        List.length (List.filter (fun x => Fl.leb x (Fin 0)) v1) in
      let hay_invalidos := (0 <? valores_invalidos)%nat in
      let v2 := if hay_invalidos then List.map no_positivo_1 v1 else v1 in
      (Pd.set_column df FACTOR_DE_EXPANSION DNumeric (List.map Num v2),
       ((if hay_nulos then [AvisoNoValidos valores_nulos] else [])
        ++ (if hay_invalidos then [AvisoNoPositivos valores_invalidos] else []))%list)
  | Raise _ =>
      (Pd.set_column df FACTOR_DE_EXPANSION DNumeric
         (List.repeat (Num (Fin 1)) (nrows df)),
       [AvisoFactorAusente])
  end.

(** the age bucket of one coerced age *)
Definition grupo_edad (x : float) : option string :=
  Pd.cut x bins_edad labels_edad true.

(** "Crear grupos de edad" *)
Definition crear_grupos_edad (df : DataFrame) : DataFrame :=
  match Pd.get_column df EDAD with
  | Ok col =>
      let edad := List.map to_numeric (col_values col) in
      let df1 := Pd.set_column df EDAD DNumeric (List.map Num edad) in
      Pd.set_column df1 GRUPO_EDAD (DCategory labels_edad)
        (List.map (fun x => Pd.categoria (grupo_edad x)) edad)
  | Raise _ => df
  end.

End Derivacion.

(** The age buckets as the specification words them: left-inclusive bins
    [[0,12)], [[12,18)], ..., the last one closed at 100. *)
Definition age_group_left_inclusive (x : float) : option string :=
  if Fl.leb (Fin 0) x && Fl.ltb x (Fin 12) then Some "Niñez (0-12)"
  else if Fl.leb (Fin 12) x && Fl.ltb x (Fin 18) then Some "Adolescencia (13-18)"
  else if Fl.leb (Fin 18) x && Fl.ltb x (Fin 28) then Some "Juventud (19-28)"
  else if Fl.leb (Fin 28) x && Fl.ltb x (Fin 40) then Some "Adultez temprana (29-40)"
  else if Fl.leb (Fin 40) x && Fl.ltb x (Fin 60) then Some "Adultez media (41-60)"
  else if Fl.leb (Fin 60) x && Fl.leb x (Fin 100) then Some "Adulto mayor (60+)"
  else None.

(** The buckets of the source, interval by interval. *)
Definition grupo_edad_intervalos (x : float) : option string :=
  if Fl.leb (Fin 0) x && Fl.leb x (Fin 12) then Some "Niñez (0-12)"
  else if Fl.ltb (Fin 12) x && Fl.leb x (Fin 18) then Some "Adolescencia (13-18)"
  else if Fl.ltb (Fin 18) x && Fl.leb x (Fin 28) then Some "Juventud (19-28)"
  else if Fl.ltb (Fin 28) x && Fl.leb x (Fin 40) then Some "Adultez temprana (29-40)"
  else if Fl.ltb (Fin 40) x && Fl.leb x (Fin 60) then Some "Adultez media (41-60)"
  else if Fl.ltb (Fin 60) x && Fl.leb x (Fin 100) then Some "Adulto mayor (60+)"
  else None.

(** a parser for the examples: the text "inf" is read as +infinity, as
    [pd.to_numeric] does, every other text as NaN *)
Definition parse_inf (s : string) : float :=
  if String.eqb s "inf" then PInf else NaN.

Definition df_edades : DataFrame :=
  {| nrows := 4;
     columns :=
       [ {| col_name := "EDAD"; col_dtype := DNumeric;
            col_values := [Num (Fin 10); Num (Fin 25); Num (Fin 45); Num (Fin 70)] |} ] |}.

Definition df_factor : DataFrame :=
  {| nrows := 5;
     columns :=
       [ {| col_name := "FACTOR DE EXPANSION"; col_dtype := DObject;
            col_values := [Num (Fin (5 # 2)); Num NaN; Str "x"; Num (Fin 0);
                           Num (Fin (-3))] |} ] |}.

Definition df_factor_inf : DataFrame :=
  {| nrows := 2;
     columns :=
       [ {| col_name := "FACTOR DE EXPANSION"; col_dtype := DObject;
            col_values := [Num (Fin 2); Str "inf"] |} ] |}.

(* ===================================================================== *)
(** ** numpy *)
(* ===================================================================== *)

Module Np.

(** elementwise product of two arrays of one length *)
Fixpoint multiply (a w : list float) : list float :=
  match a, w with
  | x :: a', y :: w' => Fl.mul x y :: multiply a' w'
  | _, _ => []
  end.

(** two arrays combined element by element *)
Fixpoint multiply_with (f : float -> float -> float) (a w : list float)
  : list float :=
  match a, w with
  | x :: a', y :: w' => f x y :: multiply_with f a' w'
  | _, _ => []
  end.

(** [np.average(a, weights=w)]: arrays of different shapes are refused,
    weights that sum to zero cannot be normalised *)
Definition average (a w : list float) : result float :=
  if negb (Nat.eqb (List.length a) (List.length w)) then Raise TypeError
  else
    let scl := Fl.sum w in
    if Fl.eqb scl (Fin 0) then Raise ZeroDivisionError
    else Ok (Fl.div (Fl.sum (multiply a w)) scl).

(** [np.sqrt] on a non-negative rational: the root rounded down to 52
    binary places stands for the correctly rounded double *)
Definition sqrt_down (q : Q) : Q :=
  Z.sqrt (Qfloor (q * inject_Z (2 ^ 104))) # (2 ^ 52).

Definition sqrt (x : float) : float :=
  match x with
  | NaN => NaN
  | NInf => NaN
  | PInf => PInf
  | Fin q => if Fl.Qltb q 0 then NaN else Fin (Qred (sqrt_down q))
  end.

(** [np.sign], [np.abs] and [np.minimum]; each propagates NaN *)
Definition sign (x : float) : float :=
  match x with
  | NaN => NaN
  | NInf => Fin (-1)
  | PInf => Fin 1
  | Fin q => if Fl.Qltb q 0 then Fin (-1) else if Fl.Qltb 0 q then Fin 1 else Fin 0
  end.

Definition abs (x : float) : float :=
  match x with
  | NaN => NaN
  | NInf => PInf
  | PInf => PInf
  | Fin q => Fin (Qred (Qabs q))
  end.

Definition minimum (x y : float) : float :=
  if Fl.is_nan x || Fl.is_nan y then NaN
  else if Fl.ltb y x then y else x.

End Np.

(* ===================================================================== *)
(** ** Weighted rate: [weighted_percentage] *)
(* ===================================================================== *)

(** [((df_valid[column] == value) * df_valid['FACTOR DE EXPANSION'])] *)
Fixpoint producto_indicador (value : string) (valores : list cell)
  (pesos : list float) : list float :=
  match valores, pesos with
  | c :: valores', w :: pesos' =>
      Fl.mul (Fl.of_bool (Pd.cell_is value c)) w
      :: producto_indicador value valores' pesos'
  | _, _ => []
  end.

Definition weighted_percentage (df : DataFrame) (column value : string)
  : result float :=
  let* col := Pd.get_column df column in
  let mask := List.map (Pd.isin ["SI"; "NO"]) (col_values col) in
  let df_valid := Pd.loc_rows mask df in
  if Nat.eqb (nrows df_valid) 0 then Ok (Fin 0)
  else
    let* col_valid := Pd.get_column df_valid column in
    let* factor := Pd.get_column df_valid FACTOR_DE_EXPANSION in
    let* pesos := Pd.as_floats (col_values factor) in
    Ok (Fl.div (Pd.sum (producto_indicador value (col_values col_valid) pesos))
               (Pd.sum pesos)).

(* ===================================================================== *)
(** ** Weighted mean of the cultural index by ethnicity *)
(* ===================================================================== *)

Definition INDICE_CULTURAL : string := "indice_cultural".
Definition ETNIA : string := "ETNIA".

(** The weighted mean of [np.average] as the ethnicity loop calls it, on
    the column [columna] of a group of rows: the test [dropna().empty]
    comes first, then the two arguments of [np.average]. *)
Definition weighted_mean (df : DataFrame) (columna : string) : result float :=
  let* valores := Pd.get_column df columna in
  if Nat.eqb (List.length (Pd.dropna (col_values valores))) 0 then Ok (Fin 0)
  else
    let* a := Pd.as_floats (Pd.dropna (col_values valores)) in
    let* factor := Pd.get_column df FACTOR_DE_EXPANSION in
    let* w := Pd.as_floats (Pd.dropna (col_values factor)) in
    Np.average a w.

(** [avg_participation] for the rows of one ethnicity *)
Definition avg_participation (ethnicity_df : DataFrame) : result float :=
  weighted_mean ethnicity_df INDICE_CULTURAL.

(** [series.unique()]: the distinct values in order of first appearance *)
Definition cell_eqb (c d : cell) : bool :=
  match c, d with
  | Num x, Num y => Fl.eqb x y
  | Str s, Str t => String.eqb s t
  | _, _ => false
  end.

Fixpoint unique (values : list cell) : list cell :=
  match values with
  | [] => []
  | c :: rest => c :: List.filter (fun d => negb (cell_eqb c d)) (unique rest)
  end.

(** the loop [for ethnicity in df['ETNIA'].dropna().unique()] *)
Fixpoint participation_loop (df : DataFrame) (etnia : list cell)
  (ethnicities : list cell) : result (list (cell * float)) :=
  match ethnicities with
  | [] => Ok []
  | ethnicity :: rest =>
      let ethnicity_df := Pd.loc_rows (List.map (cell_eqb ethnicity) etnia) df in
      let* avg := avg_participation ethnicity_df in
      let* tail := participation_loop df etnia rest in
      Ok ((ethnicity, avg) :: tail)
  end.

Definition ethnicity_participation (df : DataFrame)
  : result (list (cell * float)) :=
  let* etnia := Pd.get_column df ETNIA in
  participation_loop df (col_values etnia) (unique (Pd.dropna (col_values etnia))).

(** The weighted mean as the specification words it: over the rows whose
    value is present, in numerator and denominator alike; undefined
    ([None]) when no row is eligible. *)
Fixpoint filas_elegibles (valores pesos : list float) : list (float * float) :=
  match valores, pesos with
  | x :: valores', w :: pesos' =>
      if Fl.is_nan x then filas_elegibles valores' pesos'
      else (x, w) :: filas_elegibles valores' pesos'
  | _, _ => []
  end.

Definition weighted_mean_spec (valores pesos : list float) : option float :=
  match filas_elegibles valores pesos with
  | [] => None
  | filas =>
      Some (Fl.div (Fl.sum (List.map (fun f => Fl.mul (fst f) (snd f)) filas))
                   (Fl.sum (List.map snd filas)))
  end.

Definition df_indice (indice factor : list cell) : DataFrame :=
  {| nrows := List.length indice;
     columns :=
       [ {| col_name := "indice_cultural"; col_dtype := DNumeric;
            col_values := indice |};
         {| col_name := "FACTOR DE EXPANSION"; col_dtype := DNumeric;
            col_values := factor |} ] |}.

Definition df_actividad (valores factor : list cell) : DataFrame :=
  {| nrows := List.length valores;
     columns :=
       [ {| col_name := "LECTURA LIBROS"; col_dtype := DObject;
            col_values := valores |};
         {| col_name := "FACTOR DE EXPANSION"; col_dtype := DNumeric;
            col_values := factor |} ] |}.

(** six rows of uniform weight 1, three of them "SI" *)
Definition df_seis : DataFrame :=
  df_actividad [Str "SI"; Str "NO"; Str "SI"; Str "NO"; Str "SI"; Str "NO"]
               [Num (Fin 1); Num (Fin 1); Num (Fin 1); Num (Fin 1); Num (Fin 1);
                Num (Fin 1)].

(* ===================================================================== *)
(** ** Python strings *)
(* ===================================================================== *)

(** A Python [str] is modelled by its UTF-8 bytes.  [strip], [upper] and
    [lower] cover Basic Latin and the Latin-1 Supplement, and the letters
    outside them whose upper case is an ASCII letter; other characters are
    left as they are. *)
Module Py.

Definition code (c : ascii) : nat := nat_of_ascii c.

Definition between (lo n hi : nat) : bool := (lo <=? n)%nat && (n <=? hi)%nat.

(** one-byte white space: TAB..CR, FS..US and the space *)
Definition is_space (c : ascii) : bool :=
  between 9 (code c) 13 || between 28 (code c) 32.

(** the second byte of U+0085 and U+00A0, after the byte C2 *)
Definition is_space2 (c d : ascii) : bool :=
  Nat.eqb (code c) 194 && (Nat.eqb (code d) 133 || Nat.eqb (code d) 160).

Fixpoint lstrip (s : string) : string :=
  match s with
  | EmptyString => EmptyString
  | String c r =>
      if is_space c then lstrip r
      else match r with
           | String d r' => if is_space2 c d then lstrip r' else s
           | EmptyString => s
           end
  end.

Fixpoint rstrip (s : string) : string :=
  match s with
  | EmptyString => EmptyString
  | String c r =>
      match rstrip r with
      | EmptyString => if is_space c then EmptyString else String c EmptyString
      | String d EmptyString =>
          if is_space2 c d then EmptyString else String c (String d EmptyString)
      | r' => String c r'
      end
  end.

(** [s.strip()] *)
Definition strip (s : string) : string := rstrip (lstrip s).

(** [s.upper()] *)
Fixpoint upper (s : string) : string :=
  match s with
  | EmptyString => EmptyString
  | String c r =>
      let n := code c in
      if between 97 n 122 then String (ascii_of_nat (n - 32)) (upper r)
      else
        match r with
        | EmptyString => String c EmptyString
        | String d r' =>
            let m := code d in
            if Nat.eqb n 195 && Nat.eqb m 159 then          (* ß *)
              String "S" (String "S" (upper r'))
            else if Nat.eqb n 195 && Nat.eqb m 191 then     (* ÿ *)
              String (ascii_of_nat 197) (String (ascii_of_nat 184) (upper r'))
            else if Nat.eqb n 195 && between 160 m 190 && negb (Nat.eqb m 183) then
              String c (String (ascii_of_nat (m - 32)) (upper r'))
            else if Nat.eqb n 194 && Nat.eqb m 181 then     (* µ *)
              String (ascii_of_nat 206) (String (ascii_of_nat 156) (upper r'))
            else if Nat.eqb n 196 && Nat.eqb m 177 then     (* dotless i *)
              String "I" (upper r')
            else if Nat.eqb n 197 && Nat.eqb m 191 then     (* long s *)
              String "S" (upper r')
            else String c (upper r)
        end
  end.

(** [s.lower()] *)
Fixpoint lower (s : string) : string :=
  match s with
  | EmptyString => EmptyString
  | String c r =>
      let n := code c in
      if between 65 n 90 then String (ascii_of_nat (n + 32)) (lower r)
      else
        match r with
        | EmptyString => String c EmptyString
        | String d r' =>
            let m := code d in
            if Nat.eqb n 195 && between 128 m 158 && negb (Nat.eqb m 151) then
              String c (String (ascii_of_nat (m + 32)) (lower r'))
            else String c (lower r)
        end
  end.

(** [s.replace(" ", "_")] *)
Fixpoint replace_space (s : string) : string :=
  match s with
  | EmptyString => EmptyString
  | String c r =>
      String (if Nat.eqb (code c) 32 then "_"%char else c) (replace_space r)
  end.

End Py.

(* ===================================================================== *)
(** ** Derivation stage: SI/NO columns *)
(* ===================================================================== *)

(** [astype(str).str.strip().str.upper()] on one cell.  The text of a
    number (digits, a point, an exponent, "nan", "inf") is never one of SI, NO
    and SÍ, and is left out as [None]. *)
Definition texto_normalizado (c : cell) : option string :=
  match c with
  | Str s => Some (Py.upper (Py.strip s))
  | Num _ => None
  end.

(** [unique_vals.issubset({'SI', 'NO', 'SÍ'})] on the present values *)
Definition es_si_no (c : Column) : bool :=
  match col_dtype c with
  | DObject =>
      forallb (fun v => match texto_normalizado v with
                        | Some t => existsb (String.eqb t) ["SI"; "NO"; "SÍ"]
                        | None => false
                        end)
              (Pd.dropna (col_values c))
  | _ => false
  end.

(** [.map({'SI': 1, 'SÍ': 1, 'NO': 0})] then [.fillna(0).astype(int)] *)
Definition valor_num (c : cell) : cell :=
  match texto_normalizado c with
  | Some t =>
      if String.eqb t "SI" || String.eqb t "SÍ" then Num (Fin 1)
      else Num (Fin 0)
  | None => Num (Fin 0)
  end.

(** [f'{col.lower().replace(" ", "_")}_num'] *)
Definition col_num (col : string) : string :=
  (Py.replace_space (Py.lower col) ++ "_num")%string.

(** "Convertir variables SI/NO a numéricas": the loop over the columns the
    table has when it starts *)
Definition convertir_si_no (df : DataFrame) : DataFrame * list (string * string) :=
  fold_left
    (fun (st : DataFrame * list (string * string)) (c : Column) =>
       let (df', convertidas) := st in
       match Pd.get_column df' (col_name c) with
       | Ok col =>
           if es_si_no col then
             (Pd.set_column df' (col_num (col_name c)) DNumeric
                (List.map valor_num (col_values col)),
              (convertidas ++ [(col_name c, col_num (col_name c))])%list)
           else st
       | Raise _ => st
       end)
    (columns df) (df, []).



(** a yes, an accented yes, a no *)
Definition df_tres : DataFrame :=
  df_actividad [Str "SI"; Str "SÍ"; Str "NO"]
               [Num (Fin 2); Num (Fin 5); Num (Fin 3)].

(* ===================================================================== *)
(** ** Contingency tables *)
(* ===================================================================== *)

(** The frame [pd.crosstab] returns: the row labels, the column labels and
    the cells, row by row. *)
Record Crosstab : Type := mkCrosstab {
  ct_index : list cell;
  ct_columns : list cell;
  ct_values : list (list float)
}.

(** Python's builtin [min(a, b)]: [b] when [b < a], else [a] *)
Definition py_min (a b : float) : float := if Fl.ltb b a then b else a.

Module Xtab.

(** the observations: the positions where both labels are present, each
    with its weight when weights are given *)
Fixpoint filas (x y : list cell) (w : option (list float))
  : list (cell * cell * option float) :=
  match x, y with
  | a :: x', b :: y' =>
      match w with
      | None =>
          if Pd.notna a && Pd.notna b
          then (a, b, None) :: filas x' y' None else filas x' y' None
      | Some (p :: w') =>
          if Pd.notna a && Pd.notna b
          then (a, b, Some p) :: filas x' y' (Some w') else filas x' y' (Some w')
      | Some [] => []
      end
  | _, _ => []
  end.

(** the observations of the cell [(r, c)] *)
Definition en_celda (r c : cell) (f : cell * cell * option float) : bool :=
  cell_eqb r (fst (fst f)) && cell_eqb c (snd (fst f)).

(** One cell.  Counting ([aggfunc=len, fill_value=0]) gives the number of
    observations, 0 for a pair that never occurs.  With [values] and
    [aggfunc='sum'] no fill value is passed: the cell is the sum of the
    weights of its observations, and NaN for a pair that never occurs. *)
Definition celda (weighted : bool) (obs : list (cell * cell * option float))
  (r c : cell) : float :=
  let aqui := List.filter (en_celda r c) obs in
  if weighted then
    match aqui with
    | [] => NaN
    | _ => Pd.sum (List.map (fun f => match snd f with
                                      | Some p => p
                                      | None => NaN
                                      end) aqui)
    end
  else Fl.of_nat (List.length aqui).

(** [pd.crosstab(x, y)] and [pd.crosstab(x, y, weights, aggfunc='sum')].
    pandas sorts the labels; they are kept in order of first appearance
    here, which changes neither the shape nor the totals nor chi-square. *)
Definition crosstab (x y : list cell) (weights : option (list cell))
  : result Crosstab :=
  let* w := match weights with
            | Some ws => let* ps := Pd.as_floats ws in Ok (Some ps)
            | None => Ok None
            end in
  let obs := filas x y w in
  let index := unique (List.map (fun f => fst (fst f)) obs) in
  let cols := unique (List.map (fun f => snd (fst f)) obs) in
  let weighted := match w with Some _ => true | None => false end in
  Ok {| ct_index := index;
        ct_columns := cols;
        ct_values :=
          List.map (fun r => List.map (fun c => celda weighted obs r c) cols) index |}.

(** [crosstab.empty] *)
Definition empty (ct : Crosstab) : bool :=
  Nat.eqb (List.length (ct_index ct)) 0 || Nat.eqb (List.length (ct_columns ct)) 0.

(** [crosstab.sum()]: the sum of each column, missing cells skipped *)
Definition column_sums (ct : Crosstab) : list float :=
  List.map (fun j => Pd.sum (List.map (fun row => List.nth j row NaN) (ct_values ct)))
           (List.seq 0 (List.length (ct_columns ct))).

(** [crosstab.sum().sum()] *)
Definition total (ct : Crosstab) : float := Pd.sum (column_sums ct).

(** [crosstab.shape] *)
Definition shape (ct : Crosstab) : nat * nat :=
  (List.length (ct_index ct), List.length (ct_columns ct)).

End Xtab.

(* ===================================================================== *)
(** ** scipy *)
(* ===================================================================== *)

Module Scipy.

Definition row_sums (observed : list (list float)) : list float :=
  List.map Fl.sum observed.

Definition col_sums (observed : list (list float)) : list float :=
  List.map (fun j => Fl.sum (List.map (fun row => List.nth j row NaN) observed))
           (List.seq 0 (List.length (List.hd [] observed))).

Definition grand_total (observed : list (list float)) : float :=
  Fl.sum (List.concat observed).

(** [expected_freq]: the products of the margins over the total (numpy
    sums: a NaN cell makes its margins and the total NaN) *)
Definition expected_freq (observed : list (list float)) : list (list float) :=
  List.map (fun r => List.map (fun c => Fl.div (Fl.mul r c) (grand_total observed))
                              (col_sums observed))
           (row_sums observed).

(** Yates' correction for one cell: half a unit towards the expected value,
    never past it *)
Definition yates (o e : float) : float :=
  let diff := Fl.sub e o in
  Fl.add o (Fl.mul (Np.minimum (Fin (1 # 2)) (Np.abs diff)) (Np.sign diff)).

(** one term [(o - e)^2 / e] of Pearson's statistic *)
Definition term (o e : float) : float :=
  Fl.div (Fl.mul (Fl.sub o e) (Fl.sub o e)) e.

Fixpoint zip_with_rows (f : float -> float -> float) (a b : list (list float))
  : list (list float) :=
  match a, b with
  | r :: a', s :: b' => Np.multiply_with f r s :: zip_with_rows f a' b'
  | _, _ => []
  end.

(** The statistic of [chi2_contingency(observed)] (first component of its
    result), with the default continuity correction.  A negative cell, an
    empty table and a zero expected frequency are a [ValueError]. *)
Definition chi2_contingency (observed : list (list float)) : result float :=
  let cells := List.concat observed in
  if existsb (fun o => Fl.ltb o (Fin 0)) cells then Raise ValueError
  else if Nat.eqb (List.length cells) 0 then Raise ValueError
  else
    let expected := expected_freq observed in
    if existsb (fun e => Fl.eqb e (Fin 0)) (List.concat expected) then Raise ValueError
    else
      let r := List.length observed in
      let c := List.length (List.hd [] observed) in
      let dof := ((r - 1) * (c - 1))%nat in
      if Nat.eqb dof 0 then Ok (Fin 0)
      else
        let observed' :=
          if Nat.eqb dof 1 then zip_with_rows yates observed expected else observed in
        Ok (Fl.sum (List.concat (zip_with_rows term observed' expected))).

End Scipy.

(* ===================================================================== *)
(** ** Cramér's V: [cramers_v] *)
(* ===================================================================== *)

(** the body of the [try] block *)
Definition cramers_v_try (x y : list cell) (weights : option (list cell))
  : result float :=
  let* crosstab := Xtab.crosstab x y weights in
  if Xtab.empty crosstab || Fl.eqb (Xtab.total crosstab) (Fin 0)
  then Ok (Fin 0)
  else
    let* chi2 := Scipy.chi2_contingency (ct_values crosstab) in
    let n := Xtab.total crosstab in
    let min_dim := Nat.min (fst (Xtab.shape crosstab) - 1)
                           (snd (Xtab.shape crosstab) - 1) in
    if Nat.eqb min_dim 0 then Ok (Fin 0)
    else
      let cramers_v := Np.sqrt (Fl.div chi2 (Fl.mul n (Fl.of_nat min_dim))) in
      Ok (py_min cramers_v (Fin 1)).

(** [try: ... except: return 0.0] *)
Definition cramers_v (x y : list cell) (weights : option (list cell)) : float :=
  match cramers_v_try x y weights with
  | Ok v => v
  | Raise _ => Fin 0
  end.

(** two respondents, no category pair shared *)
Definition x_ab : list cell := [Str "a"; Str "b"].
Definition y_cd : list cell := [Str "c"; Str "d"].
Definition w_11 : list cell := [Num (Fin 1); Num (Fin 1)].

(** four respondents, every pair of categories observed *)
Definition x_aabb : list cell := [Str "a"; Str "a"; Str "b"; Str "b"].
Definition y_cdcd : list cell := [Str "c"; Str "d"; Str "c"; Str "d"].
Definition w_10_1 : list cell := [Num (Fin 10); Num (Fin 1); Num (Fin 1); Num (Fin 10)].

(* ===================================================================== *)
(** ** Association matrix: [calculate_association_matrix] *)
(* ===================================================================== *)

(** A numpy matrix, row by row. *)
Abbreviation matrix := (list (list float)).

(** [np.zeros((n, n))] *)
Definition zeros (n : nat) : matrix := replicate n (replicate n (Fin 0)).

(** an [n] by [n] matrix *)
Definition cuadrada (n : nat) (m : matrix) : Prop :=
  List.length m = n /\ forall a row, m !! a = Some row -> List.length row = n.

(** [m[i, j] = v]; the loops below only write inside the matrix *)
Definition set_entry (m : matrix) (i j : nat) (v : float) : matrix :=
  match m !! i with
  | Some row => <[i := <[j := v]> row]> m
  | None => m
  end.

(** [m[i, j]] *)
Definition entry (m : matrix) (i j : nat) : option float :=
  match m !! i with
  | Some row => row !! j
  | None => None
  end.

Fixpoint zip_and (a b : list bool) : list bool :=
  match a, b with
  | p :: a', q :: b' => (p && q) :: zip_and a' b'
  | _, _ => []
  end.

(** The work of one pair [i < j]: the mask of the rows where both
    variables (and the weight) are present and, when a row is left, the
    Cramér's V of the pair on those rows. *)
Definition asociacion (df : DataFrame) (var1 var2 : string)
  (weights : option string) : result (option float) :=
  let* c1 := Pd.get_column df var1 in
  let* c2 := Pd.get_column df var2 in
  let mask0 := zip_and (List.map Pd.notna (col_values c1))
                       (List.map Pd.notna (col_values c2)) in
  let* wcol := match weights with
               | Some w => let* c := Pd.get_column df w in Ok (Some c)
               | None => Ok None
               end in
  let valid_mask :=
    match wcol with
    | Some c => zip_and mask0 (List.map Pd.notna (col_values c))
    | None => mask0
    end in
  if (0 <? Pd.count_true valid_mask)%nat then
    let x := Pd.mask_filter valid_mask (col_values c1) in
    let y := Pd.mask_filter valid_mask (col_values c2) in
    let w := match wcol with
             | Some c => Some (Pd.mask_filter valid_mask (col_values c))
             | None => None
             end in
    Ok (Some (cramers_v x y w))
  else Ok None.

(** [enumerate(variables)] *)
Fixpoint enumerate_from {A : Type} (k : nat) (l : list A) : list (nat * A) :=
  match l with
  | [] => []
  | x :: r => (k, x) :: enumerate_from (S k) r
  end.

Definition enumerate {A : Type} (l : list A) : list (nat * A) := enumerate_from 0 l.

(** a [for] loop whose body may raise *)
Fixpoint for_each {A St : Type} (body : St -> A -> result St) (l : list A)
  (s : St) : result St :=
  match l with
  | [] => Ok s
  | x :: r => let* s' := body s x in for_each body r s'
  end.

(** the body of the inner loop *)
Definition paso (df : DataFrame) (weights : option string) (i : nat)
  (var1 : string) (m : matrix) (jv : nat * string) : result matrix :=
  let (j, var2) := jv in
  if Nat.eqb i j then Ok (set_entry m i j (Fin 1))
  else if Nat.ltb i j then
    let* a := asociacion df var1 var2 weights in
    match a with
    | Some assoc_value => Ok (set_entry (set_entry m i j assoc_value) j i assoc_value)
    | None => Ok m
    end
  else Ok m.

Definition calculate_association_matrix (df : DataFrame) (variables : list string)
  (weights : option string) : result matrix :=
  let n_vars := List.length variables in
  for_each
    (fun m (iv : nat * string) =>
       for_each (paso df weights (fst iv) (snd iv)) (enumerate variables) m)
    (enumerate variables) (zeros n_vars).

(** The value the loops leave for the pair [i < j]: the Cramér's V of the
    two variables on the rows where both are present, 0.0 (the cell of
    [np.zeros]) when no row is. *)
Definition valor_par (df : DataFrame) (variables : list string)
  (weights : option string) (i j : nat) : float :=
  match variables !! i, variables !! j with
  | Some var1, Some var2 =>
      match asociacion df var1 var2 weights with
      | Ok (Some v) => v
      | _ => Fin 0
      end
  | _, _ => Fin 0
  end.

(** the matrix, entry by entry *)
Definition entrada_esperada (df : DataFrame) (variables : list string)
  (weights : option string) (a b : nat) : float :=
  if Nat.eqb a b then Fin 1
  else if Nat.ltb a b then valor_par df variables weights a b
  else valor_par df variables weights b a.

(** the iterations [(a, b)] that ran before the iteration [(i, j)] *)
Definition hecho (i j a b : nat) : bool :=
  Nat.ltb a i || (Nat.eqb a i && Nat.ltb b j).

(** the matrix when the loops stand at [(i, j)] *)
Definition entrada_parcial (df : DataFrame) (variables : list string)
  (weights : option string) (i j a b : nat) : float :=
  if Nat.eqb a b then (if hecho i j a a then Fin 1 else Fin 0)
  else if Nat.ltb a b
       then (if hecho i j a b then valor_par df variables weights a b else Fin 0)
       else (if hecho i j b a then valor_par df variables weights b a else Fin 0).

(** every variable, and the weight column when one is named, is a column
    of the table *)
Definition columnas_presentes (df : DataFrame) (variables : list string)
  (weights : option string) : Prop :=
  Forall (fun v => Pd.has_column df v = true) variables
  /\ match weights with
     | Some w => Pd.has_column df w = true
     | None => True
     end.

(** the state of the loops at iteration [(i, j)] *)
Definition estado (df : DataFrame) (variables : list string)
  (weights : option string) (i j : nat) (m : matrix) : Prop :=
  cuadrada (List.length variables) m
  /\ forall a b, (a < List.length variables)%nat -> (b < List.length variables)%nat ->
       entry m a b = Some (entrada_parcial df variables weights i j a b).

Definition df_asociacion : DataFrame :=
  {| nrows := 4;
     columns :=
       [ {| col_name := "P3"; col_dtype := DObject; col_values := x_aabb |};
         {| col_name := "P4"; col_dtype := DObject; col_values := y_cdcd |};
         {| col_name := "P5"; col_dtype := DObject;
            col_values := [Str "u"; Str "u"; Str "u"; Num NaN] |};
         {| col_name := "FACTOR DE EXPANSION"; col_dtype := DNumeric;
            col_values := w_10_1 |} ] |}.

(* ===================================================================== *)
(** ** Missing-value report of the cleaning page *)
(* ===================================================================== *)

Section ValoresFaltantes.

(** [sort_values('Porcentaje_Faltante', ascending=False)] on the rows of
    the report.  pandas sorts with quicksort here, which fixes no order
    among rows of equal percentage, so the sort is left open. *)
Variable sort_values : (Column -> float) -> list Column -> list Column.

(** [missing_data]: one row per column of the table, the row stood for by
    the column; its ['Porcentaje_Faltante'] is [(isnull().sum() / len(df)) * 100],
    the percentage of the cleaning stage. *)
Definition missing_data (df : DataFrame) : list Column :=
  sort_values (porcentaje_na df) (columns df).

(** [missing_data[missing_data['Porcentaje_Faltante'] > 0]] *)
Definition missing_data_filtered (df : DataFrame) : list Column :=
  List.filter (fun c => Fl.gtb (porcentaje_na df c) (Fin 0)) (missing_data df).

Definition criticas (df : DataFrame) : list Column :=
  List.filter (fun c => Fl.gtb (porcentaje_na df c) (Fin 50))
              (missing_data_filtered df).

Definition moderadas (df : DataFrame) : list Column :=
  List.filter (fun c => Fl.gtb (porcentaje_na df c) (Fin 20)
                        && Fl.leb (porcentaje_na df c) (Fin 50))
              (missing_data_filtered df).

Definition leves (df : DataFrame) : list Column :=
  List.filter (fun c => Fl.leb (porcentaje_na df c) (Fin 20))
              (missing_data_filtered df).

End ValoresFaltantes.

(* ===================================================================== *)
(** ** Duplicates: [analizar_duplicados] *)
(* ===================================================================== *)

(** row [i] of the table over the columns [cols] *)
Definition fila (cols : list Column) (i : nat) : list (option cell) :=
  List.map (fun c => nth_error (col_values c) i) cols.

(** two cells count as equal for [duplicated] when they hold the same
    value; two missing cells are equal to each other *)
Definition celda_igual (a b : option cell) : bool :=
  match a, b with
  | Some (Num NaN), Some (Num NaN) => true
  | Some c, Some d => cell_eqb c d
  | None, None => true
  | _, _ => false
  end.

Fixpoint fila_igual (r s : list (option cell)) : bool :=
  match r, s with
  | [], [] => true
  | a :: r', b :: s' => celda_igual a b && fila_igual r' s'
  | _, _ => false
  end.

(** [df.duplicated(subset=subset)] with the default [keep='first']: a row
    is marked when an earlier row agrees with it on the columns looked at.
    A frame with no row or no column is empty and gets an empty answer; a
    name of the subset that is no column is a [KeyError]. *)
Definition duplicated (df : DataFrame) (subset : option (list string))
  : result (list bool) :=
  if Nat.eqb (nrows df) 0 || Nat.eqb (List.length (columns df)) 0 then Ok []
  else
    let marcar (cols : list Column) :=
      List.map (fun i => existsb (fun j => fila_igual (fila cols j) (fila cols i))
                                 (seq 0 i))
               (seq 0 (nrows df)) in
    match subset with
    | None => Ok (marcar (columns df))
    | Some names =>
        if forallb (Pd.has_column df) names
        then Ok (marcar (List.filter
                           (fun c => existsb (String.eqb (col_name c)) names)
                           (columns df)))
        else Raise KeyError
    end.

(** The entries of [info_duplicados['recomendaciones']], before formatting. *)
Inductive recomendacion : Type :=
| RecCritico (n : nat) (porcentaje : float)
| RecSinCompletos
| RecAtencion (n : nat) (porcentaje : float)
| RecInfo (n : nat) (porcentaje : float)
| RecSinParciales.

Record info_duplicados : Type := mkInfoDuplicados {
  duplicados_completos : nat;
  duplicados_parciales : nat;
  variables_clave_encontradas : list string;
  recomendaciones : list recomendacion
}.

Definition variables_clave_posibles : list string :=
  ["EDAD"; "SEXO"; "NIVEL EDUCATIVO"; "ETNIA"; "ESTRATO";
   "DEPARTAMENTO"; "MUNICIPIO"; "ZONA"; "P2"].

(** [(duplicados / len(df)) * 100] *)
Definition porcentaje_duplicados (df : DataFrame) (duplicados : nat) : float :=
  Fl.mul (Fl.div (Fl.of_nat duplicados) (Fl.of_nat (nrows df))) (Fin 100).

Definition analizar_duplicados (df : DataFrame) : result info_duplicados :=
  let* completos := duplicated df None in
  let duplicados_completos := Pd.count_true completos in
  let rec1 :=
    if (0 <? duplicados_completos)%nat
    then [RecCritico duplicados_completos
                     (porcentaje_duplicados df duplicados_completos)]
    else [RecSinCompletos] in
  let variables_clave_existentes :=
    List.filter (Pd.has_column df) variables_clave_posibles in
  if (2 <=? List.length variables_clave_existentes)%nat then
    let* parciales := duplicated df (Some variables_clave_existentes) in
    let duplicados_parciales := Pd.count_true parciales in
    let rec2 :=
      if (0 <? duplicados_parciales)%nat then
        let porcentaje := porcentaje_duplicados df duplicados_parciales in
        if Fl.gtb porcentaje (Fin 20)
        then [RecAtencion duplicados_parciales porcentaje]
        else [RecInfo duplicados_parciales porcentaje]
      else [RecSinParciales] in
    Ok {| duplicados_completos := duplicados_completos;
          duplicados_parciales := duplicados_parciales;
          variables_clave_encontradas := variables_clave_existentes;
          recomendaciones := rec1 ++ rec2 |}
  else
    Ok {| duplicados_completos := duplicados_completos;
          duplicados_parciales := 0;
          variables_clave_encontradas := variables_clave_existentes;
          recomendaciones := rec1 |}.

(** three rows: the third repeats the first, the second agrees with the
    first on the two key variables only *)
Definition df_duplicados : DataFrame :=
  {| nrows := 3;
     columns :=
       [ {| col_name := "EDAD"; col_dtype := DNumeric;
            col_values := [Num (Fin 30); Num (Fin 30); Num (Fin 30)] |};
         {| col_name := "SEXO"; col_dtype := DObject;
            col_values := [Str "M"; Str "M"; Str "M"] |};
         {| col_name := "P3"; col_dtype := DObject;
            col_values := [Num NaN; Str "SI"; Num NaN] |} ] |}.

(* ===================================================================== *)
(** ** Weighted figures of the pages *)
(* ===================================================================== *)

Definition LECTURA_LIBROS : string := "LECTURA LIBROS".

(** "Resumen Ejecutivo": [reading_rate], the share of SI among the rows
    that answer SI or NO, times 100; the page tests nothing before it
    divides. *)
Definition reading_rate (df : DataFrame) : result float :=
  let* col := Pd.get_column df LECTURA_LIBROS in
  let df_reading := Pd.loc_rows (List.map (Pd.isin ["SI"; "NO"]) (col_values col)) df in
  let* col_reading := Pd.get_column df_reading LECTURA_LIBROS in
  let* factor := Pd.get_column df_reading FACTOR_DE_EXPANSION in
  let* pesos := Pd.as_floats (col_values factor) in
  Ok (Fl.mul (Fl.div (Pd.sum (producto_indicador "SI" (col_values col_reading) pesos))
                     (Pd.sum pesos))
             (Fin 100)).

(** "Resumen Ejecutivo": [avg_age],
    [(df['EDAD'] * df['FACTOR DE EXPANSION']).sum() / df['FACTOR DE EXPANSION'].sum()] *)
Definition avg_age (df : DataFrame) : result float :=
  let* edad := Pd.get_column df EDAD in
  let* a := Pd.as_floats (col_values edad) in
  let* factor := Pd.get_column df FACTOR_DE_EXPANSION in
  let* w := Pd.as_floats (col_values factor) in
  Ok (Fl.div (Pd.sum (Np.multiply a w)) (Pd.sum w)).

(** The weighted share of the rows that answer SI, as the pages compute it
    for the whole table and for the rows of one gender, age group or
    education level:
    [yes_weight = df[df[col] == 'SI']['FACTOR DE EXPANSION'].sum()],
    [total_weight = df['FACTOR DE EXPANSION'].sum()],
    [(yes_weight / total_weight * 100) if total_weight > 0 else 0]. *)
Definition tasa_ponderada (df : DataFrame) (activity_col : string) : result float :=
  let* col := Pd.get_column df activity_col in
  let df_si := Pd.loc_rows (List.map (Pd.cell_is "SI") (col_values col)) df in
  let* factor_si := Pd.get_column df_si FACTOR_DE_EXPANSION in
  let* pesos_si := Pd.as_floats (col_values factor_si) in
  let yes_weight := Pd.sum pesos_si in
  let* factor := Pd.get_column df FACTOR_DE_EXPANSION in
  let* pesos := Pd.as_floats (col_values factor) in
  let total_weight := Pd.sum pesos in
  Ok (if Fl.gtb total_weight (Fin 0)
      then Fl.mul (Fl.div yes_weight total_weight) (Fin 100)
      else Fin 0).

(** [participation_rate] of the activity page: the weighted share when the
    table has the weight column, else [(df[col] == 'SI').mean() * 100] *)
Definition participation_rate (df : DataFrame) (activity_col : string)
  : result float :=
  if Pd.has_column df FACTOR_DE_EXPANSION then tasa_ponderada df activity_col
  else
    let* col := Pd.get_column df activity_col in
    let si := List.map (Pd.cell_is "SI") (col_values col) in
    Ok (Fl.mul (Fl.div (Fl.of_nat (Pd.count_true si)) (Fl.of_nat (List.length si)))
               (Fin 100)).

(** the share for the rows of one group: [gender_df = df[df['SEXO'] == gender]]
    and the like *)
Definition participation_pct (df : DataFrame) (grupo : string) (valor : cell)
  (activity_col : string) : result float :=
  let* g := Pd.get_column df grupo in
  tasa_ponderada (Pd.loc_rows (List.map (cell_eqb valor) (col_values g)) df)
                 activity_col.

(** the share of every group of a grouping column: the loop
    [for age in df['grupo_edad'].dropna().unique()] of the activity page
    and its twins for the education level and the gender, each entry of the
    dictionary as a pair *)
Fixpoint tasas_por_grupo (df : DataFrame) (grupo activity_col : string)
  (valores : list cell) : result (list (cell * float)) :=
  match valores with
  | [] => Ok []
  | valor :: resto =>
      let* rate := participation_pct df grupo valor activity_col in
      let* tail := tasas_por_grupo df grupo activity_col resto in
      Ok ((valor, rate) :: tail)
  end.

Definition age_participation (df : DataFrame) (activity_col : string)
  : result (list (cell * float)) :=
  let* g := Pd.get_column df GRUPO_EDAD in
  tasas_por_grupo df GRUPO_EDAD activity_col (unique (Pd.dropna (col_values g))).

(** ages and answers of four rows of weight 1 *)
Definition df_edad_actividad : DataFrame :=
  {| nrows := 4;
     columns :=
       [ {| col_name := "EDAD"; col_dtype := DNumeric;
            col_values := [Num (Fin 10); Num (Fin 25); Num (Fin 11); Num NaN] |};
         {| col_name := "P3"; col_dtype := DObject;
            col_values := [Str "SI"; Str "NO"; Str "NO"; Str "SI"] |};
         {| col_name := "FACTOR DE EXPANSION"; col_dtype := DNumeric;
            col_values := [Num (Fin 1); Num (Fin 1); Num (Fin 1); Num (Fin 1)] |} ] |}.

(** the rational sum of the finite entries of a list *)
Definition qsum (l : list float) : Q :=
  fold_right (fun w acc => match w with Fin q => q + acc | _ => acc end) 0 l.

(** two rows of weight 1, the second without an age *)
Definition df_edad_faltante : DataFrame :=
  {| nrows := 2;
     columns :=
       [ {| col_name := "EDAD"; col_dtype := DNumeric;
            col_values := [Num (Fin 30); Num NaN] |};
         {| col_name := "FACTOR DE EXPANSION"; col_dtype := DNumeric;
            col_values := [Num (Fin 1); Num (Fin 1)] |} ] |}.

(* ===================================================================== *)
(** ** Strong associations of the association page *)
(* ===================================================================== *)

(** [np.triu(m, k=1)]: the entries above the diagonal, 0 elsewhere *)
Definition triu (m : matrix) : matrix :=
  imap (fun i row => imap (fun j v => if (i <? j)%nat then v else Fin 0) row) m.

(** one entry of [strong_associations] *)
Record asociacion_fuerte : Type := mkFuerte {
  variable_1 : string;
  variable_2 : string;
  valor_cramers : float
}.

(** a [for] loop whose body may fail on an index ([None] stands for the
    [IndexError]) *)
Fixpoint for_each_o {A St : Type} (body : St -> A -> option St) (l : list A)
  (s : St) : option St :=
  match l with
  | [] => Some s
  | x :: r => match body s x with
              | Some s' => for_each_o body r s'
              | None => None
              end
  end.

(** the double that the literal [0.3] denotes *)
Definition UMBRAL_FUERTE : float :=
  Fin (5404319552844595 # 18014398509481984).

(** "Mostrar las asociaciones más fuertes": the two loops over [i < j] *)
Definition strong_associations (n_vars : nat) (readable_names : list string)
  (association_matrix : matrix) : option (list asociacion_fuerte) :=
  let upper_triangle := triu association_matrix in
  for_each_o
    (fun strong i =>
       for_each_o
         (fun strong j =>
            match entry upper_triangle i j with
            | Some v =>
                if Fl.gtb v UMBRAL_FUERTE then
                  match readable_names !! i, readable_names !! j with
                  | Some name1, Some name2 =>
                      Some (strong ++ [ {| variable_1 := name1;
                                           variable_2 := name2;
                                           valor_cramers := v |} ])%list
                  | _, _ => None
                  end
                else Some strong
            | None => None
            end)
         (seq (S i) (n_vars - S i)) strong)
    (seq 0 n_vars) [].

(* ===================================================================== *)
(** ** Variables of the association page *)
(* ===================================================================== *)

(** [series.nunique()]: the number of distinct present values *)
Definition nunique (values : list cell) : nat :=
  List.length (unique (Pd.dropna values)).

(** [[(var, df[var].nunique()) for var in valid_vars]] *)
Fixpoint var_info (df : DataFrame) (valid_vars : list string)
  : result (list (string * nat)) :=
  match valid_vars with
  | [] => Ok []
  | var :: rest =>
      let* c := Pd.get_column df var in
      let* info := var_info df rest in
      Ok ((var, nunique (col_values c)) :: info)
  end.

(** Python's [list.sort(key=key, reverse=True)]: descending and stable,
    entries of equal key keep their order *)
Fixpoint insert_reverse {A : Type} (key : A -> nat) (x : A) (l : list A) : list A :=
  match l with
  | [] => [x]
  | y :: r => if (key x <? key y)%nat then y :: insert_reverse key x r
              else x :: y :: r
  end.

Definition sort_reverse {A : Type} (key : A -> nat) (l : list A) : list A :=
  fold_right (insert_reverse key) [] l.

(** "Limitar a máximo 10 variables": beyond ten, the ten variables with the
    most distinct values *)
Definition limitar_variables (df : DataFrame) (valid_vars : list string)
  : result (list string) :=
  if (10 <? List.length valid_vars)%nat then
    let* info := var_info df valid_vars in
    Ok (List.map fst (firstn 10 (sort_reverse snd info)))
  else Ok valid_vars.

(** the number of distinct values of a variable of the table *)
Definition nunique_de (df : DataFrame) (var : string) : nat :=
  match Pd.get_column df var with
  | Ok c => nunique (col_values c)
  | Raise _ => 0
  end.

(** twelve variables; [V03] and [V07] have a single value *)
Definition df_doce : DataFrame :=
  let dos := [Str "SI"; Str "NO"] in
  let una := [Str "SI"; Str "SI"] in
  {| nrows := 2;
     columns :=
       List.map (fun nv => {| col_name := fst nv; col_dtype := DObject;
                              col_values := snd nv |})
                [("V01", dos); ("V02", dos); ("V03", una); ("V04", dos);
                 ("V05", dos); ("V06", dos); ("V07", una); ("V08", dos);
                 ("V09", dos); ("V10", dos); ("V11", dos); ("V12", dos)] |}.

(* ===================================================================== *)
(** ** Readable names of the association page *)
(* ===================================================================== *)

(** [str(counter)] *)
Definition str_nat (n : nat) : string :=
  NilEmpty.string_of_uint (Nat.to_uint n).

(** [f"{original_name} ({counter})"] *)
Definition nombre_numerado (original_name : string) (counter : nat) : string :=
  (original_name ++ " (" ++ str_nat counter ++ ")")%string.

(** The loop [while name in name_counts], entered with the current [name]
    and [counter]; [fuel] bounds the number of turns.  The keys of the
    dictionary [name_counts] are kept as a list. *)
Fixpoint nombre_libre (fuel : nat) (name_counts : list string)
  (original_name name : string) (counter : nat) : option string :=
  if existsb (String.eqb name) name_counts then
    match fuel with
    | O => None
    | S fuel' =>
        nombre_libre fuel' name_counts original_name
                     (nombre_numerado original_name counter) (S counter)
    end
  else Some name.

(** "Asegurar nombres únicos": the loop over the variables, each with the
    name that the chain of tests on the variable proposes *)
Fixpoint asegurar_unicos (fuel : nat) (nombres : list string)
  (name_counts readable_names : list string) : option (list string) :=
  match nombres with
  | [] => Some readable_names
  | original_name :: resto =>
      match nombre_libre fuel name_counts original_name original_name 1 with
      | Some name =>
          asegurar_unicos fuel resto (name_counts ++ [name])%list
                          (readable_names ++ [name])%list
      | None => None
      end
  end.

(** the names the loop tries for [original_name], in order *)
Definition candidato (original_name : string) (k : nat) : string :=
  match k with
  | O => original_name
  | S _ => nombre_numerado original_name k
  end.

(* ===================================================================== *)
(** ** Derivation stage: cultural index *)
(* ===================================================================== *)

Definition cultural_vars_base : list string :=
  ["P3"; "P4"; "P5"; "ASISTENCIA BIBLIOTECA"; "ASISTENCIA CASAS DE CULTURA";
   "ASISTENCIA CENTROS CUTURALES"; "ASISTENCIA MUSEOS"; "ASISTENCIA EXPOSICIONES";
   "ASISTENCIA MONUMENTOS"; "ASISTENCIA CURSOS"; "PRACTICA CULTURAL";
   "LECTURA LIBROS"].

(** [pd.api.types.is_numeric_dtype(df[var])] *)
Definition is_numeric_dtype (c : Column) : bool :=
  match col_dtype c with
  | DNumeric => true
  | _ => false
  end.

(** the loop that collects [cultural_vars_numeric]: a base variable that is
    numeric, else its [_num] twin when the table has one *)
Definition cultural_vars_numeric (df : DataFrame) : list string :=
  flat_map
    (fun var =>
       match Pd.get_column df var with
       | Ok c =>
           if is_numeric_dtype c then [var]
           else if Pd.has_column df (col_num var) then [col_num var] else []
       | Raise _ => []
       end)
    cultural_vars_base.

(** the doubles that the literals [-0.1], [0.7] and [0.3] denote *)
Definition MENOS_0_1 : float := Fin (-3602879701896397 # 36028797018963968).
Definition D_0_7 : float := Fin (3152519739159347 # 4503599627370496).
Definition D_0_3 : float := Fin (5404319552844595 # 18014398509481984).

(** [nivel_participacion] for one value of the index, [max_possible]
    being the number of variables of the index: ['Sin datos'] without
    variables, [pd.cut] into thirds from three variables on, the two
    thresholds of the [lambda] for one or two.  The edges [m / 3] and
    [2 m / 3] are the exact thirds; the source has their doubles, which
    separate the same whole-number indices and the same indices when [m]
    is a multiple of 3, and may label differently an index that is no
    whole number and lies within a rounding of an edge. *)
Definition nivel_participacion (max_possible : nat) (x : float) : cell :=
  if Nat.eqb max_possible 0 then Str "Sin datos"
  else if (3 <=? max_possible)%nat then
    let tercio_1 := Fl.div (Fl.of_nat max_possible) (Fin 3) in
    let tercio_2 := Fl.div (Fl.mul (Fin 2) (Fl.of_nat max_possible)) (Fin 3) in
    Pd.categoria
      (Pd.cut x [MENOS_0_1; tercio_1; tercio_2; Fl.of_nat max_possible]
              ["Bajo"; "Medio"; "Alto"] true)
  else
    if Fl.geb x (Fl.mul (Fl.of_nat max_possible) D_0_7) then Str "Alto"
    else if Fl.geb x (Fl.mul (Fl.of_nat max_possible) D_0_3) then Str "Medio"
    else Str "Bajo".

Section Indice.

Variable str_to_float : string -> float.

(** [pd.to_numeric(df[col], errors='coerce').fillna(0)] on one cell *)
Definition coercion_0 (c : cell) : float :=
  let x := to_numeric str_to_float c in
  if Fl.is_nan x then Fin 0 else x.

(** [df[cultural_vars_numeric].sum(axis=1, skipna=True)] on one row, given
    the cells of the row in the variables of the index before the coercion;
    without variables the index is the constant 0 *)
Definition indice_cultural_fila (fila : list cell) : float :=
  match fila with
  | [] => Fin 0
  | _ => Pd.sum (List.map coercion_0 fila)
  end.

(** the level of one row *)
Definition nivel_fila (fila : list cell) : cell :=
  nivel_participacion (List.length fila) (indice_cultural_fila fila).

End Indice.

(** an answer column with a padded, a missing and an accented answer *)
Definition df_respuestas : DataFrame :=
  {| nrows := 3;
     columns := [ {| col_name := "LECTURA LIBROS"; col_dtype := DObject;
                     col_values := [Str " si "; Num NaN; Str "SÍ"] |} ] |}.

(* ===================================================================== *)
(** ** Box plots of the income page: [expanded_data] *)
(* ===================================================================== *)

(** Python's [round(x)] on a finite float: the nearest integer, a tie
    going to the even one *)
Definition py_round (q : Q) : Z :=
  let f := Qfloor q in
  let r := q - inject_Z f in
  if Fl.Qltb r (1 # 2) then f
  else if Fl.Qltb (1 # 2) r then (f + 1)%Z
  else if Z.even f then f else (f + 1)%Z.

(** [sys.maxsize] of a 64-bit CPython, the longest a list can be *)
Definition MAXSIZE : Z := (2 ^ 63 - 1)%Z.

(** [max(1, round(weight / 10))]; [round] raises on an infinity and on
    NaN ([None]) *)
Definition scaled_weight (weight : float) : option Z :=
  match Fl.div weight (Fin 10) with
  | Fin q => Some (Z.max 1 (py_round q))
  | _ => None
  end.

(** [[val] * n]: a count beyond [sys.maxsize] is an [OverflowError]
    ([None]), a count below 1 the empty list.  Whether the machine has the
    memory for the list is not modelled. *)
Definition repetir (val : cell) (n : Z) : option (list cell) :=
  if (MAXSIZE <? n)%Z then None else Some (List.repeat val (Z.to_nat n)).

(** the loop [for val, weight in zip(data, weights)] with
    [expanded_data.extend([val] * scaled_weight)] *)
Fixpoint expanded_data (data : list cell) (weights : list float)
  : option (list cell) :=
  match data, weights with
  | val :: data', weight :: weights' =>
      match scaled_weight weight with
      | Some n =>
          match repetir val n, expanded_data data' weights' with
          | Some veces, Some resto => Some (veces ++ resto)%list
          | _, _ => None
          end
      | None => None
      end
  | _, _ => Some []
  end.

(** the data of one box: [data = group['P2'].dropna()],
    [weights = group['FACTOR DE EXPANSION'].dropna()], and the expansion
    when neither is empty; a weight that is a text makes the division
    fail ([None]) *)
Definition datos_caja (valores pesos : list cell) : option (list cell) :=
  let data := Pd.dropna valores in
  let weights := Pd.dropna pesos in
  if Nat.eqb (List.length data) 0 || Nat.eqb (List.length weights) 0 then Some []
  else
    match Pd.as_floats weights with
    | Ok ws => expanded_data data ws
    | Raise _ => None
    end.

(* ===================================================================== *)
(** * Properties *)
(* ===================================================================== *)

(** ** Arithmetic of the float model *)

Lemma Qltb_lt (a b : Q) : Fl.Qltb a b = true <-> a < b.
Proof.
  unfold Fl.Qltb. rewrite Qlt_alt. destruct (a ?= b); split; congruence.
Qed.

Lemma Qltb_ge (a b : Q) : Fl.Qltb a b = false <-> b <= a.
Proof.
  rewrite <- not_true_iff_false, Qltb_lt. split; intros H.
  - apply Qnot_lt_le, H.
  - apply Qle_not_lt, H.
Qed.

Lemma Qeqb_false (a b : Q) : Qeq_bool a b = false <-> ~ a == b.
Proof. rewrite <- not_true_iff_false, Qeq_bool_iff. tauto. Qed.

Lemma ltb_irrefl (x : float) : Fl.ltb x x = false.
Proof.
  destruct x; simpl; trivial. apply Qltb_ge, Qle_refl.
Qed.

(** Scaling both sides by 100 does not change a comparison. *)
Lemma ltb_mul_100 (x y : float) :
  Fl.ltb (Fl.mul x (Fin 100)) (Fl.mul y (Fin 100)) = Fl.ltb x y.
Proof.
  destruct x as [| |a|], y as [| |b|]; try reflexivity.
  simpl. apply eq_iff_eq_true. rewrite !Qltb_lt, !Qred_correct.
  split; intros H; lra.
Qed.

Lemma of_nat_nonneg (n : nat) : 0 <= inject_Z (Z.of_nat n).
Proof.
  change 0 with (inject_Z 0). rewrite <- Zle_Qle. lia.
Qed.

Lemma of_nat_pos (n : nat) : (0 < n)%nat -> 0 < inject_Z (Z.of_nat n).
Proof.
  intros H. change 0 with (inject_Z 0). rewrite <- Zlt_Qlt. lia.
Qed.

Lemma of_nat_eq0 (n : nat) : Qeq_bool (inject_Z (Z.of_nat n)) 0 = Nat.eqb n 0.
Proof.
  destruct n as [|n].
  - reflexivity.
  - simpl Nat.eqb. apply Qeqb_false. intros H.
    pose proof (of_nat_pos (S n) ltac:(lia)) as Hp. rewrite H in Hp.
    apply (Qlt_irrefl 0), Hp.
Qed.

(** ** Cleaning stage *)

Lemma filter_none {A : Type} (f : A -> bool) (l : list A) :
  (forall x, In x l -> f x = false) -> List.filter f l = [].
Proof.
  induction l as [|x l IH]; intros H; [reflexivity|].
  cbn [List.filter]. rewrite (H x (or_introl eq_refl)).
  apply IH. intros y Hy. apply H. right. exact Hy.
Qed.

Lemma count_na_le (values : list cell) :
  (Pd.count_na values <= List.length values)%nat.
Proof. apply List.filter_length_le. Qed.

(** The percentage test of the source is the test of the missing fraction
    against the threshold itself. *)
Lemma porcentaje_gtb (df : DataFrame) (umbral_na : float) (c : Column) :
  Fl.gtb (porcentaje_na df c) (Fl.mul umbral_na (Fin 100))
  = Fl.gtb (fraccion_na df c) umbral_na.
Proof. unfold Fl.gtb, porcentaje_na, fraccion_na. apply ltb_mul_100. Qed.

Lemma columnas_a_eliminar_fraccion (df : DataFrame) (umbral_na : float) :
  columnas_a_eliminar df umbral_na
  = List.map col_name
      (List.filter (fun c => Fl.gtb (fraccion_na df c) umbral_na) (columns df)).
Proof.
  unfold columnas_a_eliminar. f_equal.
  apply List.filter_ext. intros c. apply porcentaje_gtb.
Qed.

Lemma fraccion_gtb_1 (a n : nat) :
  (a <= n)%nat ->
  Fl.gtb (Fl.div (Fl.of_nat a) (Fl.of_nat n)) (Fin 1) = false.
Proof.
  intros Han. unfold Fl.gtb, Fl.div, Fl.of_nat. rewrite !of_nat_eq0.
  destruct n as [|n].
  - assert (a = 0)%nat as -> by lia. reflexivity.
  - simpl Nat.eqb. cbv iota. simpl Fl.ltb. apply Qltb_ge.
    rewrite Qred_correct. apply Qle_shift_div_r.
    + apply of_nat_pos. lia.
    + rewrite Qmult_1_l, <- Zle_Qle. lia.
Qed.

Lemma fraccion_gtb_0 (a n : nat) :
  Fl.gtb (Fl.div (Fl.of_nat a) (Fl.of_nat n)) (Fin 0) = (0 <? a)%nat.
Proof.
  unfold Fl.gtb, Fl.div, Fl.of_nat. rewrite !of_nat_eq0.
  destruct (Nat.eqb_spec n 0) as [Hn|Hn]; destruct (Nat.eqb_spec a 0) as [Ha|Ha].
  - subst. reflexivity.
  - assert (Fl.Qltb (inject_Z (Z.of_nat a)) 0 = false) as ->.
    { apply Qltb_ge, of_nat_nonneg. }
    simpl. symmetry. apply Nat.ltb_lt. lia.
  - subst a. simpl. apply Qltb_ge. rewrite Qred_correct.
    unfold Qdiv. rewrite Qmult_0_l. apply Qle_refl.
  - simpl. transitivity true; [|symmetry; apply Nat.ltb_lt; lia].
    apply Qltb_lt. rewrite Qred_correct. apply Qlt_shift_div_l.
    + apply of_nat_pos. lia.
    + rewrite Qmult_0_l. apply of_nat_pos. lia.
Qed.

Lemma limpiar_eliminadas (df : DataFrame) (umbral_na : float) :
  columnas_eliminadas (snd (limpiar_datos_categoricos df umbral_na))
  = columnas_a_eliminar df umbral_na.
Proof.
  unfold limpiar_datos_categoricos.
  destruct (imputar_categoricas _) as [cols2 imputadas]. reflexivity.
Qed.

Lemma limpiar_imputadas (df : DataFrame) (umbral_na : float) :
  columnas_imputadas_categoricas (snd (limpiar_datos_categoricos df umbral_na))
  = snd (imputar_categoricas
           (columns (if negb (Nat.eqb (List.length (columnas_a_eliminar df umbral_na)) 0)
                     then Pd.drop (columnas_a_eliminar df umbral_na) df else df))).
Proof.
  unfold limpiar_datos_categoricos.
  destruct (imputar_categoricas _) as [cols2 imputadas]. reflexivity.
Qed.

Lemma limpiar_fst (df : DataFrame) (umbral_na : float) :
  fst (limpiar_datos_categoricos df umbral_na)
  = let df1 := if negb (Nat.eqb (List.length (columnas_a_eliminar df umbral_na)) 0)
               then Pd.drop (columnas_a_eliminar df umbral_na) df else df in
    {| nrows := nrows df1; columns := fst (imputar_categoricas (columns df1)) |}.
Proof.
  unfold limpiar_datos_categoricos.
  destruct (imputar_categoricas _) as [cols2 imputadas]. reflexivity.
Qed.

(** C9: the comparison is the strict [>] against [umbral_na * 100]: the
    dropped columns are those whose percentage is strictly above it (a
    column exactly at the threshold stays); with threshold 1 nothing is
    dropped whatever the missingness, and with threshold 0 the dropped
    columns are exactly those with a missing value. *)
Theorem C9_strict_threshold (df : DataFrame) (Hwf : wf_df df) :
  (forall umbral_na,
      columnas_eliminadas (snd (limpiar_datos_categoricos df umbral_na))
      = List.map col_name
          (List.filter
             (fun c => Fl.ltb (Fl.mul umbral_na (Fin 100)) (porcentaje_na df c))
             (columns df)))
  /\ (forall x, Fl.ltb x x = false)
  /\ columnas_eliminadas (snd (limpiar_datos_categoricos df (Fin 1))) = []
  /\ columns (fst (limpiar_datos_categoricos df (Fin 1)))
     = fst (imputar_categoricas (columns df))
  /\ columnas_eliminadas (snd (limpiar_datos_categoricos df (Fin 0)))
     = List.map col_name
         (List.filter (fun c => (0 <? Pd.count_na (col_values c))%nat) (columns df))
  /\ (forall c, In c (columns df) ->
        (0 < Pd.count_na (col_values c))%nat ->
        In (col_name c)
           (columnas_eliminadas (snd (limpiar_datos_categoricos df (Fin 0))))
        /\ ~ In (col_name c)
             (List.map col_name
                (columns (fst (limpiar_datos_categoricos df (Fin 0)))))).
Proof.
  assert (H1 : columnas_a_eliminar df (Fin 1) = []).
  { rewrite columnas_a_eliminar_fraccion.
    rewrite filter_none; [reflexivity|].
    intros c Hc. unfold fraccion_na. apply fraccion_gtb_1.
    unfold wf_df in Hwf. rewrite List.Forall_forall in Hwf.
    rewrite <- (Hwf c Hc). apply count_na_le. }
  assert (H0 : columnas_a_eliminar df (Fin 0)
               = List.map col_name
                   (List.filter (fun c => (0 <? Pd.count_na (col_values c))%nat)
                                (columns df))).
  { rewrite columnas_a_eliminar_fraccion. f_equal.
    apply List.filter_ext. intros c. apply fraccion_gtb_0. }
  repeat split.
  - intros umbral_na. rewrite limpiar_eliminadas. reflexivity.
  - apply ltb_irrefl.
  - rewrite limpiar_eliminadas. exact H1.
  - rewrite limpiar_fst, H1. reflexivity.
  - rewrite limpiar_eliminadas. exact H0.
  - rewrite limpiar_eliminadas, H0. apply List.in_map, List.filter_In.
    split; [assumption|]. apply Nat.ltb_lt. assumption.
  - intros Hin. rewrite limpiar_fst in Hin. cbv zeta in Hin.
    assert (Hc : In (col_name c) (columnas_a_eliminar df (Fin 0))).
    { rewrite H0. apply List.in_map, List.filter_In.
      split; [assumption|]. apply Nat.ltb_lt. assumption. }
    assert (Hlen : negb (Nat.eqb (List.length (columnas_a_eliminar df (Fin 0))) 0)
                   = true).
    { destruct (columnas_a_eliminar df (Fin 0)); [destruct Hc | reflexivity]. }
    rewrite Hlen in Hin. unfold Pd.drop in Hin. cbn [columns nrows] in Hin.
    assert (Hnames : forall cols,
               List.map col_name (fst (imputar_categoricas cols))
               = List.map col_name cols).
    { induction cols as [|d ds IH]; [reflexivity|].
      simpl. destruct (imputar_categoricas ds) as [r i]. simpl in IH.
      destruct (pendiente d); simpl; rewrite IH; [|reflexivity].
      unfold imputar. destruct (col_dtype d); reflexivity. }
    rewrite Hnames in Hin. apply List.in_map_iff in Hin.
    destruct Hin as [d [Hd Hf]]. apply List.filter_In in Hf.
    destruct Hf as [_ Hf]. apply negb_true_iff in Hf.
    rewrite Hd in Hf.
    assert (existsb (String.eqb (col_name c)) (columnas_a_eliminar df (Fin 0)) = true).
    { apply List.existsb_exists. exists (col_name c). split; [assumption|].
      apply String.eqb_refl. }
    congruence.
Qed.

Lemma wf_df_orden : wf_df df_orden.
Proof. unfold wf_df, df_orden. cbn [columns nrows]. repeat constructor. Qed.

(** on the example table: threshold 1 drops nothing, threshold 0 drops the
    three columns with a missing value, and threshold 0.5 keeps the columns
    A and C, which miss exactly half of their values *)
Lemma C9_strict_threshold_witness :
  wf_df df_orden
  /\ columnas_eliminadas (snd (limpiar_datos_categoricos df_orden (Fin 1))) = []
  /\ columnas_eliminadas (snd (limpiar_datos_categoricos df_orden (Fin 0)))
     = ["A"; "B"; "C"]
  /\ columnas_eliminadas (snd (limpiar_datos_categoricos df_orden (Fin (1 # 2))))
     = ["B"].
Proof.
  split; [exact wf_df_orden|].
  destruct (C9_strict_threshold df_orden wf_df_orden) as (Hs & _ & H1 & _ & H0 & _).
  split; [exact H1|]. split; [rewrite H0; reflexivity|].
  rewrite Hs. reflexivity.
Defined.

Lemma sublist_map_filter {A B : Type} (f : A -> B) (p : A -> bool) (l : list A) :
  sublist (List.map f (List.filter p l)) (List.map f l).
Proof.
  induction l as [|x l IH]; [constructor|]. cbn [List.filter List.map].
  destruct (p x); cbn [List.map]; constructor; exact IH.
Qed.

(** C5 (amended): the dropped-column list holds exactly the columns whose
    missing percentage, [(missing / rows) * 100], is strictly above
    [threshold * 100], the test the source makes, and it holds them in the
    original column order (the source filters the per-column percentages
    and never sorts). *)
Theorem C5_dropped_columns (df : DataFrame) (umbral_na : float) :
  columnas_eliminadas (snd (limpiar_datos_categoricos df umbral_na))
  = List.map col_name
      (List.filter
         (fun c => Fl.gtb (porcentaje_na df c) (Fl.mul umbral_na (Fin 100)))
         (columns df))
  /\ sublist (columnas_eliminadas (snd (limpiar_datos_categoricos df umbral_na)))
             (List.map col_name (columns df))
  /\ (forall name,
        In name (columnas_eliminadas (snd (limpiar_datos_categoricos df umbral_na)))
        <-> exists c, In c (columns df) /\ col_name c = name
                      /\ Fl.gtb (porcentaje_na df c)
                                (Fl.mul umbral_na (Fin 100)) = true).
Proof.
  rewrite limpiar_eliminadas. unfold columnas_a_eliminar.
  split; [reflexivity|]. split; [apply sublist_map_filter|].
  intros name. rewrite List.in_map_iff. split.
  - intros [c [Hn Hc]]. apply List.filter_In in Hc. destruct Hc as [Hin Hgt].
    exists c. auto.
  - intros [c (Hin & Hn & Hgt)]. exists c. split; [assumption|].
    apply List.filter_In. auto.
Qed.

(** C5, as stated: the order of the dropped list is not the descending
    missing fraction.  With threshold 0.3 the source lists A (half missing)
    before B (all missing). *)
Lemma C5_order_counterexample :
  columnas_eliminadas (snd (limpiar_datos_categoricos df_orden (Fin (3 # 10))))
  = ["A"; "B"; "C"]
  /\ dropped_columns_spec df_orden (Fin (3 # 10)) = ["B"; "A"; "C"]
  /\ columnas_eliminadas (snd (limpiar_datos_categoricos df_orden (Fin (3 # 10))))
     <> dropped_columns_spec df_orden (Fin (3 # 10)).
Proof.
  assert (H1 : columnas_eliminadas
                 (snd (limpiar_datos_categoricos df_orden (Fin (3 # 10))))
               = ["A"; "B"; "C"]) by (vm_compute; reflexivity).
  assert (H2 : dropped_columns_spec df_orden (Fin (3 # 10)) = ["B"; "A"; "C"])
    by (vm_compute; reflexivity).
  repeat split; try assumption. rewrite H1, H2. discriminate.
Qed.

(** *** Idempotence *)

Lemma count_na_fillna (s : string) (values : list cell) :
  Pd.count_na (Pd.fillna (Str s) values) = 0%nat.
Proof.
  unfold Pd.count_na, Pd.fillna. induction values as [|v vs IH]; [reflexivity|].
  cbn [List.map List.filter]. destruct (Pd.isnull v) eqn:Hv.
  - cbn [Pd.isnull]. exact IH.
  - rewrite Hv. exact IH.
Qed.

Lemma imputar_sin_na (c : Column) : Pd.count_na (col_values (imputar c)) = 0%nat.
Proof.
  unfold imputar. destruct (col_dtype c); cbn [col_values]; apply count_na_fillna.
Qed.

Lemma imputar_categoricas_names (cols : list Column) :
  List.map col_name (fst (imputar_categoricas cols)) = List.map col_name cols.
Proof.
  induction cols as [|d ds IH]; [reflexivity|].
  cbn [imputar_categoricas]. destruct (imputar_categoricas ds) as [r i].
  cbn [fst] in IH.
  destruct (pendiente d); cbn [fst List.map]; rewrite IH; [|reflexivity].
  unfold imputar. destruct (col_dtype d); reflexivity.
Qed.

Lemma imputar_categoricas_in (cols : list Column) (c2 : Column) :
  In c2 (fst (imputar_categoricas cols)) ->
  In c2 cols
  \/ exists c1, In c1 cols /\ c2 = imputar c1
                /\ (0 < Pd.count_na (col_values c1))%nat.
Proof.
  induction cols as [|d ds IH]; [intros []|].
  cbn [imputar_categoricas]. destruct (imputar_categoricas ds) as [r i].
  cbn [fst] in IH. destruct (pendiente d) eqn:Hd; cbn [fst].
  - intros [<-|Hin].
    + right. exists d. split; [left; reflexivity|]. split; [reflexivity|].
      unfold pendiente in Hd. apply andb_true_iff in Hd. destruct Hd as [_ Hd].
      apply Nat.ltb_lt. exact Hd.
    + destruct (IH Hin) as [H|[c1 (H1 & H2 & H3)]].
      * left. right. exact H.
      * right. exists c1. split; [right; exact H1|]. auto.
  - intros [<-|Hin].
    + left. left. reflexivity.
    + destruct (IH Hin) as [H|[c1 (H1 & H2 & H3)]].
      * left. right. exact H.
      * right. exists c1. split; [right; exact H1|]. auto.
Qed.

Lemma imputar_categoricas_done (cols : list Column) :
  Forall (fun c => pendiente c = false) (fst (imputar_categoricas cols)).
Proof.
  induction cols as [|d ds IH]; [constructor|].
  cbn [imputar_categoricas]. destruct (imputar_categoricas ds) as [r i].
  cbn [fst] in IH. destruct (pendiente d) eqn:Hd; cbn [fst].
  - constructor; [|exact IH]. unfold pendiente.
    rewrite imputar_sin_na. apply andb_false_r.
  - constructor; [exact Hd|exact IH].
Qed.

Lemma imputar_categoricas_fixed (cols : list Column) :
  Forall (fun c => pendiente c = false) cols ->
  imputar_categoricas cols = (cols, []).
Proof.
  induction 1 as [|d ds Hd _ IH]; [reflexivity|].
  cbn [imputar_categoricas]. rewrite IH, Hd. reflexivity.
Qed.

(** A column kept by the threshold test stays kept once its missing values
    are filled. *)
Lemma fraccion_gtb_filled (a n : nat) (t : float) :
  Fl.gtb (Fl.div (Fl.of_nat a) (Fl.of_nat n)) t = false ->
  Fl.gtb (Fl.div (Fl.of_nat 0) (Fl.of_nat n)) t = false.
Proof.
  unfold Fl.gtb, Fl.div, Fl.of_nat. rewrite !of_nat_eq0.
  destruct (Nat.eqb_spec n 0) as [Hn|Hn]; destruct (Nat.eqb_spec a 0) as [Ha|Ha];
    cbn [Nat.eqb]; try (subst; tauto).
  - intros _. destruct t; reflexivity.
  - destruct t as [| |t|]; cbn [Fl.ltb]; try tauto.
    rewrite !Qltb_ge, !Qred_correct. intros H.
    apply Qle_trans with (2 := H).
    unfold Qdiv. rewrite Qmult_0_l.
    apply Qle_shift_div_l.
    + apply of_nat_pos. lia.
    + rewrite Qmult_0_l. apply of_nat_nonneg.
Qed.

Lemma drop_survivors (df : DataFrame) (umbral_na : float) (c : Column) :
  In c (columns (if negb (Nat.eqb (List.length (columnas_a_eliminar df umbral_na)) 0)
                 then Pd.drop (columnas_a_eliminar df umbral_na) df else df)) ->
  Fl.gtb (fraccion_na df c) umbral_na = false.
Proof.
  destruct (negb _) eqn:Hlen.
  - unfold Pd.drop. cbn [columns]. intros Hin.
    apply List.filter_In in Hin. destruct Hin as [Hin Hex].
    apply negb_true_iff in Hex.
    destruct (Fl.gtb (fraccion_na df c) umbral_na) eqn:Hgt; [|reflexivity].
    rewrite <- Hex. symmetry. apply List.existsb_exists.
    exists (col_name c). split; [|apply String.eqb_refl].
    rewrite columnas_a_eliminar_fraccion. apply List.in_map.
    apply List.filter_In. auto.
  - intros Hin. apply negb_false_iff, Nat.eqb_eq in Hlen.
    rewrite columnas_a_eliminar_fraccion, List.length_map in Hlen.
    destruct (Fl.gtb (fraccion_na df c) umbral_na) eqn:Hgt; [|reflexivity].
    assert (Hc : In c (List.filter (fun c => Fl.gtb (fraccion_na df c) umbral_na)
                                   (columns df))).
    { apply List.filter_In. auto. }
    destruct (List.filter _ (columns df)); [destruct Hc | discriminate].
Qed.

Lemma nrows_after_drop (df : DataFrame) (b : bool) (names : list string) :
  nrows (if b then Pd.drop names df else df) = nrows df.
Proof. destruct b; reflexivity. Qed.

(** C4: cleaning is idempotent.  Cleaning the cleaned table with the same
    threshold returns the same table, and the second report lists no
    dropped and no imputed column. *)
Theorem C4_cleaning_idempotent (df : DataFrame) (umbral_na : float) :
  let limpio := fst (limpiar_datos_categoricos df umbral_na) in
  fst (limpiar_datos_categoricos limpio umbral_na) = limpio
  /\ columnas_eliminadas (snd (limpiar_datos_categoricos limpio umbral_na)) = []
  /\ columnas_imputadas_categoricas
       (snd (limpiar_datos_categoricos limpio umbral_na)) = [].
Proof.
  intros limpio.
  assert (Hnone : columnas_a_eliminar limpio umbral_na = []).
  { rewrite columnas_a_eliminar_fraccion.
    rewrite filter_none; [reflexivity|].
    intros c2 Hc2. subst limpio. rewrite limpiar_fst in Hc2 |- *.
    cbv zeta in Hc2 |- *. cbn [columns] in Hc2.
    unfold fraccion_na. cbn [nrows]. rewrite nrows_after_drop.
    apply imputar_categoricas_in in Hc2.
    destruct Hc2 as [Hin | [c1 (Hin & -> & Hna)]].
    - apply (drop_survivors df umbral_na c2 Hin).
    - rewrite imputar_sin_na.
      apply fraccion_gtb_filled with (a := Pd.count_na (col_values c1)).
      apply (drop_survivors df umbral_na c1 Hin). }
  assert (Hdone : imputar_categoricas (columns limpio) = (columns limpio, [])).
  { apply imputar_categoricas_fixed. subst limpio. rewrite limpiar_fst.
    cbv zeta. cbn [columns]. apply imputar_categoricas_done. }
  rewrite limpiar_fst, limpiar_eliminadas, limpiar_imputadas, Hnone.
  cbn [List.length Nat.eqb negb]. cbv zeta. rewrite Hdone. cbn [fst snd].
  repeat split. destruct limpio; reflexivity.
Qed.

(** ** Column access *)

Lemma has_column_get (df : DataFrame) (name : string) :
  Pd.has_column df name = true <-> exists c, Pd.get_column df name = Ok c.
Proof.
  unfold Pd.has_column, Pd.get_column. induction (columns df) as [|d ds IH].
  - cbn. split; [discriminate | intros [c Hc]; discriminate].
  - cbn [existsb List.find]. destruct (String.eqb (col_name d) name).
    + split; [eauto | reflexivity].
    + exact IH.
Qed.

Lemma get_column_name (df : DataFrame) (name : string) (c : Column) :
  Pd.get_column df name = Ok c -> col_name c = name /\ In c (columns df).
Proof.
  unfold Pd.get_column.
  destruct (List.find _ (columns df)) as [d|] eqn:Hf; [|discriminate].
  intros [= <-]. apply List.find_some in Hf. destruct Hf as [Hin Heq].
  apply String.eqb_eq in Heq. auto.
Qed.

Lemma get_set_column (df : DataFrame) (name : string) (d : dtype)
  (values : list cell) :
  Pd.get_column (Pd.set_column df name d values) name
  = Ok {| col_name := name; col_dtype := d; col_values := values |}.
Proof.
  unfold Pd.set_column, Pd.get_column, Pd.has_column. cbn [columns].
  induction (columns df) as [|c cs IH].
  - cbn. rewrite String.eqb_refl. reflexivity.
  - cbn [existsb]. destruct (String.eqb (col_name c) name) eqn:Hc.
    + cbn. rewrite Hc. cbn. rewrite String.eqb_refl. reflexivity.
    + cbn [orb]. destruct (existsb _ cs).
      * cbn. rewrite Hc. cbn. rewrite Hc. exact IH.
      * cbn. rewrite Hc. exact IH.
Qed.

Lemma get_set_column_other (df : DataFrame) (name other : string) (d : dtype)
  (values : list cell) :
  other <> name ->
  Pd.get_column (Pd.set_column df name d values) other = Pd.get_column df other.
Proof.
  intros Hne. unfold Pd.set_column, Pd.get_column, Pd.has_column. cbn [columns].
  assert (Hnew : String.eqb name other = false).
  { apply String.eqb_neq. congruence. }
  destruct (existsb _ (columns df)).
  - induction (columns df) as [|c cs IH]; [reflexivity|].
    cbn. destruct (String.eqb (col_name c) name) eqn:Hc.
    + cbn. rewrite Hnew. apply String.eqb_eq in Hc. rewrite Hc, Hnew. exact IH.
    + destruct (String.eqb (col_name c) other); [reflexivity | exact IH].
  - induction (columns df) as [|c cs IH].
    + cbn. rewrite Hnew. reflexivity.
    + cbn. destruct (String.eqb (col_name c) other); [reflexivity | exact IH].
Qed.

(** ** Weight repair *)

Lemma ltb_0_reparar (x : float) : Fl.ltb (Fin 0) (reparar x) = true.
Proof.
  unfold reparar, no_positivo_1, fillna_1.
  destruct x as [| |q|]; try reflexivity.
  cbn [Fl.is_nan]. destruct (Fl.leb (Fin q) (Fin 0)) eqn:Hq; [reflexivity|].
  cbn in Hq |- *. apply Qltb_lt. apply Qnot_le_lt. intros H.
  apply Qle_bool_iff in H. congruence.
Qed.

Lemma finite_reparar (x : float) :
  Fl.is_finite (reparar x) = negb (Fl.eqb x PInf).
Proof.
  unfold reparar, no_positivo_1, fillna_1.
  destruct x as [| |q|]; try reflexivity.
  cbn [Fl.is_nan]. destruct (Fl.leb (Fin q) (Fin 0)); reflexivity.
Qed.

Lemma map_if_none {A : Type} (p : A -> bool) (f : A -> A) (l : list A) :
  (forall x, p x = false -> f x = x) ->
  (if (0 <? List.length (List.filter p l))%nat then List.map f l else l)
  = List.map (fun x => if p x then f x else x) l.
Proof.
  intros Hf. destruct (0 <? _)%nat eqn:Hlen.
  - apply List.map_ext. intros x. destruct (p x) eqn:Hp; [reflexivity|].
    apply Hf, Hp.
  - apply Nat.ltb_ge in Hlen.
    assert (Hnil : List.filter p l = []).
    { destruct (List.filter p l); [reflexivity | cbn in Hlen; lia]. }
    clear Hlen. induction l as [|x l IH]; [reflexivity|].
    cbn in Hnil |- *. destruct (p x); [discriminate|]. rewrite <- IH; auto.
Qed.

Lemma filter_leb_fillna (l : list float) :
  List.filter (fun x => Fl.leb x (Fin 0)) (List.map fillna_1 l)
  = List.filter (fun x => Fl.leb x (Fin 0)) l.
Proof.
  induction l as [|x l IH]; [reflexivity|].
  cbn [List.map List.filter]. rewrite IH.
  destruct x; reflexivity.
Qed.

(** C3 (amended): after the weight repair the weight column exists and
    every row's weight is present (not missing) and strictly positive; a
    weight is finite unless the coerced input was +infinity, which no test
    of the repair catches.  An absent column is created with the constant 1
    and the assumption is flagged.  A present column is coerced to numbers,
    then the missing values become 1, then the non-positive ones become 1;
    the two repairs are counted and reported separately. *)
Theorem C3_weight_repair (str_to_float : string -> float) (df : DataFrame) :
  let df' := fst (validar_factor_expansion str_to_float df) in
  let avisos := snd (validar_factor_expansion str_to_float df) in
  exists col,
    Pd.get_column df' FACTOR_DE_EXPANSION = Ok col
    /\ Forall (fun c => exists w, c = Num w /\ Fl.ltb (Fin 0) w = true
                                  /\ Fl.is_nan w = false)
              (col_values col)
    /\ (Pd.has_column df FACTOR_DE_EXPANSION = false ->
        col_values col = List.repeat (Num (Fin 1)) (nrows df)
        /\ avisos = [AvisoFactorAusente])
    /\ (forall col0, Pd.get_column df FACTOR_DE_EXPANSION = Ok col0 ->
        let v0 := List.map (to_numeric str_to_float) (col_values col0) in
        let valores_nulos := List.length (List.filter Fl.is_nan v0) in
        let valores_invalidos :=
          List.length (List.filter (fun x => Fl.leb x (Fin 0)) v0) in
        col_values col = List.map (fun x => Num (reparar x)) v0
        /\ avisos
           = ((if (0 <? valores_nulos)%nat
               then [AvisoNoValidos valores_nulos] else [])
              ++ (if (0 <? valores_invalidos)%nat
                  then [AvisoNoPositivos valores_invalidos] else []))%list
        /\ Forall (fun x => Fl.is_finite (reparar x) = negb (Fl.eqb x PInf)) v0).
Proof.
  intros df' avisos. subst df' avisos. unfold validar_factor_expansion.
  destruct (Pd.get_column df FACTOR_DE_EXPANSION) as [col0|e] eqn:Hget.
  - cbv zeta. cbn [fst snd]. rewrite get_set_column.
    eexists. split; [reflexivity|]. cbn [col_values].
    set (v0 := List.map (to_numeric str_to_float) (col_values col0)).
    assert (Hv1 : (if (0 <? List.length (List.filter Fl.is_nan v0))%nat
                   then List.map fillna_1 v0 else v0) = List.map fillna_1 v0).
    { rewrite (map_if_none Fl.is_nan fillna_1).
      - apply List.map_ext. intros x. destruct x; reflexivity.
      - intros x Hx. unfold fillna_1. rewrite Hx. reflexivity. }
    rewrite Hv1.
    assert (Hv2 : (if (0 <? List.length
                              (List.filter (fun x => Fl.leb x (Fin 0))
                                           (List.map fillna_1 v0)))%nat
                   then List.map no_positivo_1 (List.map fillna_1 v0)
                   else List.map fillna_1 v0)
                  = List.map reparar v0).
    { rewrite (map_if_none (fun x => Fl.leb x (Fin 0)) no_positivo_1).
      - rewrite List.map_map. apply List.map_ext. intros x.
        unfold reparar, no_positivo_1.
        destruct (Fl.leb (fillna_1 x) (Fin 0)); reflexivity.
      - intros x Hx. unfold no_positivo_1. rewrite Hx. reflexivity. }
    rewrite Hv2, filter_leb_fillna, List.map_map.
    split; [|split].
    + apply List.Forall_forall. intros c Hc. apply List.in_map_iff in Hc.
      destruct Hc as [x [<- _]]. exists (reparar x).
      split; [reflexivity|]. split; [apply ltb_0_reparar|].
      pose proof (ltb_0_reparar x) as H. destruct (reparar x); try reflexivity.
      discriminate.
    + intros Hhas. exfalso.
      assert (Pd.has_column df FACTOR_DE_EXPANSION = true)
        by (apply has_column_get; eauto).
      congruence.
    + intros col1 [= <-]. cbv zeta. fold v0.
      split; [reflexivity|]. split; [reflexivity|].
      apply List.Forall_forall. intros x _. apply finite_reparar.
  - cbv zeta. cbn [fst snd]. rewrite get_set_column.
    eexists. split; [reflexivity|]. cbn [col_values].
    split; [|split].
    + apply List.Forall_forall. intros c Hc. apply List.repeat_spec in Hc.
      subst c. exists (Fin 1). auto.
    + intros _. split; reflexivity.
    + intros col1 Hcol1. discriminate.
Qed.

Lemma C3_weight_repair_witness :
  exists col,
    Pd.get_column (fst (validar_factor_expansion parse_inf df_factor))
                  FACTOR_DE_EXPANSION = Ok col
    /\ col_values col = [Num (Fin (5 # 2)); Num (Fin 1); Num (Fin 1); Num (Fin 1);
                         Num (Fin 1)]
    /\ snd (validar_factor_expansion parse_inf df_factor)
       = [AvisoNoValidos 2; AvisoNoPositivos 2].
Proof.
  destruct (C3_weight_repair parse_inf df_factor) as [col (Hcol & _ & _ & H)].
  exists col. split; [exact Hcol|].
  destruct (H _ eq_refl) as (Hval & Hav & _).
  split; [rewrite Hval; reflexivity | rewrite Hav; reflexivity].
Defined.

(** C3, as stated: a weight need not be finite after the repair.  The text
    "inf" is coerced to +infinity, which is neither missing nor [<= 0] and
    is kept. *)
Lemma C3_finite_counterexample :
  exists col,
    Pd.get_column (fst (validar_factor_expansion parse_inf df_factor_inf))
                  FACTOR_DE_EXPANSION = Ok col
    /\ col_values col = [Num (Fin 2); Num PInf]
    /\ ~ Forall (fun c => exists w, c = Num w /\ Fl.is_finite w = true
                                    /\ Fl.ltb (Fin 0) w = true)
                (col_values col).
Proof.
  eexists. split; [vm_compute; reflexivity|]. cbn [col_values].
  split; [reflexivity|]. intros H.
  apply List.Forall_inv_tail, List.Forall_inv in H.
  destruct H as [w [[= <-] [Hf _]]]. discriminate.
Qed.

(** the repair on a table with a fractional, a missing, a textual, a zero
    and a negative weight *)
Lemma validar_factor_ejemplo :
  validar_factor_expansion parse_inf df_factor
  = ({| nrows := 5;
        columns :=
          [ {| col_name := "FACTOR DE EXPANSION"; col_dtype := DNumeric;
               col_values := [Num (Fin (5 # 2)); Num (Fin 1); Num (Fin 1);
                              Num (Fin 1); Num (Fin 1)] |} ] |},
     [AvisoNoValidos 2; AvisoNoPositivos 2]).
Proof. vm_compute. reflexivity. Qed.

(** ** Age buckets *)

Ltac decide_q :=
  repeat match goal with
    | |- context [Fl.Qltb ?a ?b] =>
        let E := fresh "E" in
        destruct (Fl.Qltb a b) eqn:E;
        [apply Qltb_lt in E | apply Qltb_ge in E]; try (exfalso; lra)
    | |- context [Qle_bool ?a ?b] =>
        let E := fresh "E" in
        destruct (Qle_bool a b) eqn:E;
        [apply Qle_bool_iff in E
        | apply not_true_iff_false in E; rewrite Qle_bool_iff in E;
          apply Qnot_le_lt in E]; try (exfalso; lra)
    | |- context [Qeq_bool ?a ?b] =>
        let E := fresh "E" in
        destruct (Qeq_bool a b) eqn:E;
        [apply Qeq_bool_iff in E | apply Qeqb_false in E]; try (exfalso; lra)
    end.

Lemma grupo_edad_intervalos_eq (x : float) :
  grupo_edad x = grupo_edad_intervalos x.
Proof.
  destruct x as [| |q|]; try reflexivity.
  cbv [grupo_edad grupo_edad_intervalos Pd.cut Pd.searchsorted_left bins_edad
       labels_edad List.hd List.filter List.length Fl.is_nan Fl.eqb Fl.ltb Fl.leb
       andb orb].
  decide_q; reflexivity.
Qed.

Lemma grupo_edad_none (x : float) :
  grupo_edad x = None
  <-> Fl.is_nan x = true \/ Fl.ltb x (Fin 0) = true \/ Fl.ltb (Fin 100) x = true.
Proof.
  rewrite grupo_edad_intervalos_eq.
  destruct x as [| |q|]; cbn; try (split; [auto | reflexivity]).
  cbv [grupo_edad_intervalos Fl.ltb Fl.leb andb].
  decide_q;
    (split;
     [ intros H; try discriminate H; auto
     | intros [H|[H|H]]; try discriminate H; reflexivity ]).
Qed.

(** C6 (amended): the age bucket is one of six fixed buckets over the
    edges 0, 12, 18, 28, 40, 60, 100 with right-inclusive bins whose lowest
    edge is included, [[0,12]], [(12,18]], [(18,28]], [(28,40]], [(40,60]],
    [(60,100]]; an age that is missing, below 0 or above 100 has the missing
    category, and no other age has; the ages 10, 25, 45, 70 give Niñez,
    Juventud, Adultez media and Adulto mayor. *)
Theorem C6_age_groups (str_to_float : string -> float) :
  (forall c, grupo_edad (to_numeric str_to_float c)
             = grupo_edad_intervalos (to_numeric str_to_float c))
  /\ (forall x, grupo_edad x = None
                <-> Fl.is_nan x = true \/ Fl.ltb x (Fin 0) = true
                    \/ Fl.ltb (Fin 100) x = true)
  /\ (forall x l, grupo_edad x = Some l -> In l labels_edad)
  /\ List.length labels_edad = 6%nat
  /\ Pd.get_column (crear_grupos_edad str_to_float df_edades) GRUPO_EDAD
     = Ok {| col_name := GRUPO_EDAD;
             col_dtype := DCategory labels_edad;
             col_values := [Str "Niñez (0-12)"; Str "Juventud (19-28)";
                            Str "Adultez media (41-60)";
                            Str "Adulto mayor (60+)"] |}.
Proof.
  split; [intros c; apply grupo_edad_intervalos_eq|].
  split; [exact grupo_edad_none|].
  split; [|split; [reflexivity | vm_compute; reflexivity]].
  intros x l. unfold grupo_edad, Pd.cut.
  destruct (_ || _ || _); [discriminate|]. apply List.nth_error_In.
Qed.

Lemma C6_age_groups_witness :
  grupo_edad (Fin 12) = Some "Niñez (0-12)"
  /\ grupo_edad (Fin (25 # 2)) = Some "Adolescencia (13-18)"
  /\ grupo_edad (Fin 101) = None
  /\ In "Adulto mayor (60+)" labels_edad.
Proof.
  destruct (C6_age_groups parse_inf) as (Hint & Hnone & Hin & _).
  split; [apply (Hint (Num (Fin 12)))|].
  split; [apply (Hint (Num (Fin (25 # 2))))|].
  split; [apply Hnone; right; right; reflexivity|].
  apply (Hin (Fin 100)). reflexivity.
Defined.

(** C6, as stated: the binning is not left-inclusive.  The age 12 falls in
    the first bucket, not in the one that starts at 12. *)
Lemma C6_left_inclusive_counterexample :
  grupo_edad (Fin 12) = Some "Niñez (0-12)"
  /\ age_group_left_inclusive (Fin 12) = Some "Adolescencia (13-18)"
  /\ grupo_edad (Fin 12) <> age_group_left_inclusive (Fin 12).
Proof.
  assert (H1 : grupo_edad (Fin 12) = Some "Niñez (0-12)") by reflexivity.
  assert (H2 : age_group_left_inclusive (Fin 12) = Some "Adolescencia (13-18)")
    by reflexivity.
  repeat split; try assumption. rewrite H1, H2. discriminate.
Qed.

(** ** Sums of the float model *)

Lemma canon_add (x y : float) : canon (Fl.add x y).
Proof.
  destruct x, y; cbn; trivial. apply Qred_complete, Qred_correct.
Qed.

Lemma add_0_r (x : float) : canon x -> Fl.add x (Fin 0) = x.
Proof.
  destruct x as [| |q|]; cbn; trivial. intros Hq. f_equal.
  rewrite <- Hq at 2. apply Qred_complete. ring.
Qed.

Lemma add_mul_1 (acc w : float) : Fl.add acc (Fl.mul (Fin 1) w) = Fl.add acc w.
Proof.
  destruct w as [| |b|]; try reflexivity.
  destruct acc as [| |a|]; try reflexivity.
  cbn. f_equal. apply Qred_complete. rewrite Qred_correct. ring.
Qed.

Lemma is_nan_mul_1 (w : float) : Fl.is_nan (Fl.mul (Fin 1) w) = Fl.is_nan w.
Proof. destruct w; reflexivity. Qed.

Lemma mul_0_cases (w : float) :
  Fl.mul (Fin 0) w = NaN \/ Fl.mul (Fin 0) w = Fin 0.
Proof.
  destruct w as [| |b|]; cbn; auto.
Qed.

Lemma ltb_0_add (acc w : float) :
  Fl.leb (Fin 0) acc = true -> Fl.ltb (Fin 0) w = true ->
  Fl.ltb (Fin 0) (Fl.add acc w) = true.
Proof.
  destruct acc as [| |a|], w as [| |b|]; cbn; try discriminate; trivial.
  rewrite Qle_bool_iff, !Qltb_lt, Qred_correct. intros; lra.
Qed.

Lemma ltb_leb_0 (x : float) : Fl.ltb (Fin 0) x = true -> Fl.leb (Fin 0) x = true.
Proof.
  destruct x as [| |a|]; cbn; try discriminate; trivial.
  rewrite Qle_bool_iff, Qltb_lt. intros; lra.
Qed.

Lemma ltb_0_not_zero (x : float) :
  Fl.ltb (Fin 0) x = true -> Fl.eqb x (Fin 0) = false /\ Fl.is_nan x = false.
Proof.
  destruct x as [| |a|]; cbn; try discriminate; auto.
  rewrite Qltb_lt. intros H. split; [|reflexivity].
  apply Qeqb_false. intros E. rewrite E in H. apply (Qlt_irrefl 0), H.
Qed.

Lemma fold_add_pos (l : list float) (acc : float) :
  Forall (fun w => Fl.ltb (Fin 0) w = true) l ->
  Fl.ltb (Fin 0) acc = true ->
  Fl.ltb (Fin 0) (fold_left Fl.add l acc) = true.
Proof.
  intros Hl. revert acc. induction Hl as [|w l Hw _ IH]; intros acc Hacc.
  - exact Hacc.
  - cbn. apply IH. apply ltb_0_add; [apply ltb_leb_0, Hacc | exact Hw].
Qed.

Lemma filter_notnan_pos (l : list float) :
  Forall (fun w => Fl.ltb (Fin 0) w = true) l ->
  List.filter (fun x => negb (Fl.is_nan x)) l = l.
Proof.
  induction 1 as [|w l Hw _ IH]; [reflexivity|].
  cbn. destruct (ltb_0_not_zero w Hw) as [_ ->]. cbn. rewrite IH. reflexivity.
Qed.

(** a non-empty series of positive weights has a positive sum *)
Lemma sum_pos (l : list float) :
  Forall (fun w => Fl.ltb (Fin 0) w = true) l -> l <> [] ->
  Fl.ltb (Fin 0) (Pd.sum l) = true.
Proof.
  intros Hl Hne. unfold Pd.sum, Fl.sum. rewrite filter_notnan_pos by exact Hl.
  destruct Hl as [|w l Hw Hl]; [congruence|].
  cbn [fold_left]. apply fold_add_pos; [exact Hl|].
  apply ltb_0_add; [reflexivity | exact Hw].
Qed.

(** the sum of the indicator-weighted products is the sum of the weights of
    the matching rows *)
Lemma sum_producto_indicador (value : string) (valores : list cell)
  (pesos : list float) :
  Pd.sum (producto_indicador value valores pesos)
  = Pd.sum (Pd.mask_filter (List.map (Pd.cell_is value) valores) pesos).
Proof.
  unfold Pd.sum, Fl.sum.
  assert (H : forall acc, canon acc ->
    fold_left Fl.add
      (List.filter (fun x => negb (Fl.is_nan x))
                   (producto_indicador value valores pesos)) acc
    = fold_left Fl.add
        (List.filter (fun x => negb (Fl.is_nan x))
           (Pd.mask_filter (List.map (Pd.cell_is value) valores) pesos)) acc).
  { revert pesos. induction valores as [|c valores IH]; intros pesos acc Hacc;
      [reflexivity|].
    destruct pesos as [|w pesos]; [reflexivity|].
    cbn [producto_indicador List.map Pd.mask_filter List.filter].
    destruct (Pd.cell_is value c); cbn [Fl.of_bool].
    - rewrite is_nan_mul_1. cbn [List.filter].
      destruct (Fl.is_nan w); cbn [negb]; [apply IH, Hacc|].
      cbn [fold_left]. rewrite add_mul_1. apply IH, canon_add.
    - destruct (mul_0_cases w) as [-> | ->]; cbn [Fl.is_nan negb];
        [apply IH, Hacc|].
      cbn [fold_left]. rewrite add_0_r by exact Hacc. apply IH, Hacc. }
  apply H. reflexivity.
Qed.

(** ** Row selection *)

Lemma get_column_loc_rows (mask : list bool) (df : DataFrame) (name : string) :
  Pd.get_column (Pd.loc_rows mask df) name
  = match Pd.get_column df name with
    | Ok c => Ok {| col_name := col_name c; col_dtype := col_dtype c;
                    col_values := Pd.mask_filter mask (col_values c) |}
    | Raise e => Raise e
    end.
Proof.
  unfold Pd.get_column, Pd.loc_rows. cbn [columns].
  induction (columns df) as [|c cs IH]; [reflexivity|].
  cbn [List.map List.find col_name].
  destruct (String.eqb (col_name c) name); [reflexivity | exact IH].
Qed.

Lemma length_mask_filter {A : Type} (mask : list bool) (l : list A) :
  List.length mask = List.length l ->
  List.length (Pd.mask_filter mask l) = Pd.count_true mask.
Proof.
  unfold Pd.count_true. revert l.
  induction mask as [|b mask IH]; intros [|x l] Hlen; try discriminate;
    [reflexivity|].
  cbn in Hlen. injection Hlen as Hlen.
  cbn [Pd.mask_filter List.filter]. destruct b; cbn [List.length]; auto.
Qed.

Lemma mask_filter_nil {A : Type} (mask : list bool) :
  Pd.mask_filter mask (@nil A) = [].
Proof. destruct mask as [|[] mask]; reflexivity. Qed.

Lemma mask_filter_map {A B : Type} (f : A -> B) (mask : list bool) (l : list A) :
  Pd.mask_filter mask (List.map f l) = List.map f (Pd.mask_filter mask l).
Proof.
  revert l. induction mask as [|b mask IH]; intros [|x l]; try reflexivity.
  cbn. destruct b; cbn; rewrite IH; reflexivity.
Qed.

Lemma mask_filter_Forall {A : Type} (P : A -> Prop) (mask : list bool)
  (l : list A) :
  Forall P l -> Forall P (Pd.mask_filter mask l).
Proof.
  intros Hl. revert mask. induction Hl as [|x l Hx _ IH]; intros [|b mask];
    cbn; try constructor.
  destruct b; [constructor; auto | auto].
Qed.

Lemma as_floats_map_Num (l : list float) : Pd.as_floats (List.map Num l) = Ok l.
Proof.
  induction l as [|x l IH]; [reflexivity|]. cbn. rewrite IH. reflexivity.
Qed.

Lemma wf_length (df : DataFrame) (name : string) (c : Column) :
  wf_df df -> Pd.get_column df name = Ok c ->
  List.length (col_values c) = nrows df.
Proof.
  intros Hwf Hc. apply get_column_name in Hc. destruct Hc as [_ Hin].
  unfold wf_df in Hwf. rewrite List.Forall_forall in Hwf. auto.
Qed.

(** ** Weighted rate *)







(** ** Weighted mean *)

Lemma dropna_all_null (values : list cell) :
  Forall (fun c => Pd.isnull c = true) values -> Pd.dropna values = [].
Proof.
  induction 1 as [|c l Hc _ IH]; [reflexivity|].
  unfold Pd.dropna in *. cbn. unfold Pd.notna at 1. rewrite Hc. exact IH.
Qed.

Lemma dropna_no_null (l : list float) :
  Forall (fun x => Fl.is_nan x = false) l ->
  Pd.dropna (List.map Num l) = List.map Num l.
Proof.
  induction 1 as [|x l Hx _ IH]; [reflexivity|].
  unfold Pd.dropna in *. cbn [List.map List.filter].
  assert (Pd.notna (Num x) = true) as ->.
  { destruct x; try reflexivity. discriminate. }
  rewrite IH. reflexivity.
Qed.

Lemma filas_elegibles_no_null (a w : list float) :
  Forall (fun x => Fl.is_nan x = false) a ->
  List.length a = List.length w ->
  List.map (fun f => Fl.mul (fst f) (snd f)) (filas_elegibles a w)
  = Np.multiply a w
  /\ List.map snd (filas_elegibles a w) = w
  /\ (a <> [] -> filas_elegibles a w <> []).
Proof.
  intros Ha. revert w. induction Ha as [|x a Hx _ IH]; intros [|y w] Hlen;
    try discriminate; [repeat split; congruence|].
  cbn in Hlen. injection Hlen as Hlen. destruct (IH w Hlen) as (H1 & H2 & _).
  cbn [filas_elegibles Np.multiply]. rewrite Hx. cbn [List.map fst snd].
  rewrite H1, H2. repeat split. discriminate.
Qed.

(** C7 (amended): on a group whose index values and weights are all
    present, the weighted mean is the weight-sum-normalised mean over all
    its rows, the value the specification asks for; on a group with no
    present index value the source returns the number 0, not a marker of an
    undefined mean. *)
Theorem C7_weighted_mean (edf : DataFrame) (indice factor : Column)
  (Hindice : Pd.get_column edf INDICE_CULTURAL = Ok indice)
  (Hfactor : Pd.get_column edf FACTOR_DE_EXPANSION = Ok factor) :
  (Forall (fun c => Pd.isnull c = true) (col_values indice) ->
   avg_participation edf = Ok (Fin 0))
  /\ (forall a w,
        col_values indice = List.map Num a ->
        col_values factor = List.map Num w ->
        Forall (fun x => Fl.is_nan x = false) a ->
        Forall (fun x => Fl.is_nan x = false) w ->
        a <> [] ->
        List.length a = List.length w ->
        Fl.eqb (Fl.sum w) (Fin 0) = false ->
        avg_participation edf
        = Ok (Fl.div (Fl.sum (Np.multiply a w)) (Fl.sum w))
        /\ weighted_mean_spec a w
           = Some (Fl.div (Fl.sum (Np.multiply a w)) (Fl.sum w))).
Proof.
  split.
  - intros Hnull. unfold avg_participation, weighted_mean. rewrite Hindice. cbn [bind].
    rewrite dropna_all_null by exact Hnull. reflexivity.
  - intros a w Ha Hw Hna Hnw Hne Hlen Hsum. split.
    + unfold avg_participation, weighted_mean. rewrite Hindice, Hfactor. cbn [bind].
      rewrite Ha, Hw, !dropna_no_null by assumption.
      rewrite List.length_map.
      destruct a as [|x a']; [congruence|]. cbn [List.length Nat.eqb].
      rewrite !as_floats_map_Num. cbn [bind]. unfold Np.average.
      rewrite Hlen, Nat.eqb_refl. cbn [negb]. rewrite Hsum. reflexivity.
    + unfold weighted_mean_spec.
      destruct (filas_elegibles_no_null a w Hna Hlen) as (H1 & H2 & H3).
      specialize (H3 Hne). destruct (filas_elegibles a w) as [|f fs] eqn:Hf;
        [congruence|].
      rewrite H1, H2. reflexivity.
Qed.

Lemma C7_weighted_mean_witness :
  avg_participation (df_indice [Num (Fin 2); Num (Fin 5)]
                               [Num (Fin 1); Num (Fin 3)])
  = Ok (Fin (17 # 4))
  /\ avg_participation (df_indice [Num NaN; Num NaN] [Num (Fin 1); Num (Fin 3)])
     = Ok (Fin 0).
Proof.
  split.
  - destruct (C7_weighted_mean
                (df_indice [Num (Fin 2); Num (Fin 5)] [Num (Fin 1); Num (Fin 3)])
                _ _ eq_refl eq_refl) as [_ H].
    destruct (H [Fin 2; Fin 5] [Fin 1; Fin 3] eq_refl eq_refl) as [Hr _].
    + repeat constructor.
    + repeat constructor.
    + discriminate.
    + reflexivity.
    + reflexivity.
    + rewrite Hr. reflexivity.
  - destruct (C7_weighted_mean
                (df_indice [Num NaN; Num NaN] [Num (Fin 1); Num (Fin 3)])
                _ _ eq_refl eq_refl) as [H _].
    apply H. repeat constructor.
Defined.

(** C7, as stated: with no eligible row the source does not report an
    undefined mean.  It returns 0, where the mean of the specification is
    undefined. *)
Lemma C7_no_eligible_rows_counterexample :
  avg_participation (df_indice [Num NaN] [Num (Fin 1)]) = Ok (Fin 0)
  /\ weighted_mean_spec [NaN] [Fin 1] = None.
Proof. split; reflexivity. Qed.

(** a row whose index value is missing while its weight is present is not
    left out of the mean: the two [dropna] results differ in length and
    [np.average] refuses them *)
Lemma avg_participation_shape_mismatch :
  avg_participation (df_indice [Num (Fin 2); Num NaN] [Num (Fin 1); Num (Fin 3)])
  = Raise TypeError
  /\ weighted_mean_spec [Fin 2; NaN] [Fin 1; Fin 3] = Some (Fin 2).
Proof. split; reflexivity. Qed.

(** ** The accented affirmative *)








(** ** Cramér's V *)

Lemma sqrt_down_nonneg (q : Q) : 0 <= Np.sqrt_down q.
Proof.
  unfold Np.sqrt_down, Qle. cbn [Qnum Qden]. rewrite Z.mul_1_r.
  cbn [Z.mul]. apply Z.sqrt_nonneg.
Qed.

(** the clamp: a root that is a number ends in [[0, 1]] *)
Lemma py_min_sqrt_range (q : Q) :
  0 <= q ->
  exists v, py_min (Np.sqrt (Fin q)) (Fin 1) = Fin v /\ 0 <= v /\ v <= 1.
Proof.
  intros Hq. unfold Np.sqrt.
  assert (Fl.Qltb q 0 = false) as -> by (apply Qltb_ge, Hq).
  unfold py_min, Fl.ltb.
  destruct (Fl.Qltb 1 (Qred (Np.sqrt_down q))) eqn:H1.
  - exists 1. split; [reflexivity|]. lra.
  - exists (Qred (Np.sqrt_down q)). split; [reflexivity|].
    apply Qltb_ge in H1. split; [|exact H1].
    rewrite Qred_correct. apply sqrt_down_nonneg.
Qed.

Lemma div_mul_nonneg (c : Q) (n : float) (k : nat) :
  0 <= c -> Fl.ltb (Fin 0) n = true -> (0 < k)%nat ->
  exists q, Fl.div (Fin c) (Fl.mul n (Fl.of_nat k)) = Fin q /\ 0 <= q.
Proof.
  intros Hc Hn Hk. pose proof (of_nat_pos k Hk) as Hkq.
  destruct n as [| |n|]; try discriminate.
  - cbn in Hn. apply Qltb_lt in Hn. unfold Fl.of_nat, Fl.mul, Fl.div.
    assert (Hpos : 0 < Qred (n * inject_Z (Z.of_nat k))).
    { rewrite Qred_correct. apply Qmult_lt_0_compat; assumption. }
    assert (Qeq_bool (Qred (n * inject_Z (Z.of_nat k))) 0 = false) as ->.
    { apply Qeqb_false. intros E. rewrite E in Hpos. apply (Qlt_irrefl 0), Hpos. }
    eexists. split; [reflexivity|]. rewrite Qred_correct.
    apply Qle_shift_div_l; [exact Hpos|]. rewrite Qmult_0_l. exact Hc.
  - unfold Fl.of_nat, Fl.mul, Fl.mul_inf.
    assert (Qeq_bool (inject_Z (Z.of_nat k)) 0 = false) as ->.
    { apply Qeqb_false. intros E. rewrite E in Hkq. apply (Qlt_irrefl 0), Hkq. }
    assert (Fl.Qltb (inject_Z (Z.of_nat k)) 0 = false) as ->.
    { apply Qltb_ge, Qlt_le_weak, Hkq. }
    cbn. exists 0. split; [reflexivity | apply Qle_refl].
Qed.

(** [cramers_v] never raises (it is a total function to floats), and on
    every degenerate input it returns exactly 0.0. *)
Lemma cramers_v_degenerate (x y : list cell) (weights : option (list cell)) :
  (forall e, Xtab.crosstab x y weights = Raise e ->
             cramers_v x y weights = Fin 0)
  /\ (forall ct, Xtab.crosstab x y weights = Ok ct ->
        (Xtab.empty ct = true -> cramers_v x y weights = Fin 0)
        /\ (Fl.eqb (Xtab.total ct) (Fin 0) = true ->
            cramers_v x y weights = Fin 0)
        /\ (forall e, Scipy.chi2_contingency (ct_values ct) = Raise e ->
                      cramers_v x y weights = Fin 0)
        /\ (Nat.min (fst (Xtab.shape ct) - 1) (snd (Xtab.shape ct) - 1)
            = 0%nat -> cramers_v x y weights = Fin 0)).
Proof.
  unfold cramers_v, cramers_v_try. split.
  - intros e ->. reflexivity.
  - intros ct ->. cbn [bind]. repeat split.
    + intros ->. reflexivity.
    + intros ->. rewrite orb_true_r. reflexivity.
    + intros e ->. cbn [bind]. destruct (_ || _); reflexivity.
    + intros ->. destruct (_ || _); [reflexivity|].
      destruct (Scipy.chi2_contingency _); reflexivity.
Qed.

(** When the statistic that scipy returns is a non-negative number and the
    total weight is positive, the result lies in [[0, 1]]. *)
Lemma cramers_v_range (x y : list cell) (weights : option (list cell))
  (ct : Crosstab) (c : Q) :
  Xtab.crosstab x y weights = Ok ct ->
  Scipy.chi2_contingency (ct_values ct) = Ok (Fin c) ->
  0 <= c ->
  Fl.ltb (Fin 0) (Xtab.total ct) = true ->
  exists v, cramers_v x y weights = Fin v /\ 0 <= v /\ v <= 1.
Proof.
  intros Hct Hchi Hc Hn. unfold cramers_v, cramers_v_try.
  rewrite Hct. cbn [bind]. rewrite Hchi. cbn [bind].
  destruct (_ || _); [exists 0; split; [reflexivity | split; discriminate]|].
  destruct (Nat.eqb_spec
              (Nat.min (fst (Xtab.shape ct) - 1) (snd (Xtab.shape ct) - 1)) 0)
    as [Hk|Hk]; [exists 0; split; [reflexivity | split; discriminate]|].
  assert (Hk' : (0 < Nat.min (fst (Xtab.shape ct) - 1)
                           (snd (Xtab.shape ct) - 1))%nat) by lia.
  destruct (div_mul_nonneg c (Xtab.total ct) _ Hc Hn Hk') as [q [-> Hq]].
  apply py_min_sqrt_range, Hq.
Qed.

Lemma sqrt_cases (x : float) :
  Np.sqrt x = NaN \/ Np.sqrt x = PInf
  \/ exists q, Np.sqrt x = Fin q /\ 0 <= q.
Proof.
  destruct x as [| |q|]; cbn; auto.
  destruct (Fl.Qltb q 0); auto.
  right. right. eexists. split; [reflexivity|].
  rewrite Qred_correct. apply sqrt_down_nonneg.
Qed.

Lemma py_min_1_cases (x : float) :
  py_min (Np.sqrt x) (Fin 1) = NaN
  \/ exists v, py_min (Np.sqrt x) (Fin 1) = Fin v /\ 0 <= v /\ v <= 1.
Proof.
  destruct (sqrt_cases x) as [-> | [-> | [q [-> Hq]]]].
  - left. reflexivity.
  - right. exists 1. split; [reflexivity|]. split; discriminate.
  - right. unfold py_min, Fl.ltb. destruct (Fl.Qltb 1 q) eqn:H1.
    + exists 1. split; [reflexivity|]. split; discriminate.
    + exists q. split; [reflexivity|]. apply Qltb_ge in H1. auto.
Qed.

(** Whatever the libraries return, [cramers_v] gives NaN or a number of
    [[0, 1]]: the clamp bounds every number, and only NaN passes it. *)
Lemma cramers_v_nan_or_range (x y : list cell) (weights : option (list cell)) :
  cramers_v x y weights = NaN
  \/ exists v, cramers_v x y weights = Fin v /\ 0 <= v /\ v <= 1.
Proof.
  assert (H0 : exists v, Fin 0 = Fin v /\ 0 <= v /\ v <= 1).
  { exists 0. split; [reflexivity|]. split; discriminate. }
  unfold cramers_v, cramers_v_try.
  destruct (Xtab.crosstab x y weights) as [ct|e]; cbn [bind]; [|auto].
  destruct (_ || _); [auto|].
  destruct (Scipy.chi2_contingency _) as [chi2|e]; cbn [bind]; [|auto].
  destruct (Nat.eqb _ 0); [auto|].
  apply py_min_1_cases.
Qed.

(** *** A pair of categories that never occurs *)

Lemma fold_add_nan (l : list float) : fold_left Fl.add l NaN = NaN.
Proof. induction l as [|x l IH]; [reflexivity | exact IH]. Qed.

Lemma add_nan_r (x : float) : Fl.add x NaN = NaN.
Proof. destruct x; reflexivity. Qed.

Lemma div_nan_r (x : float) : Fl.div x NaN = NaN.
Proof. destruct x; reflexivity. Qed.

(** a numpy sum over an array that holds a NaN is NaN *)
Lemma sum_nan (l : list float) : In NaN l -> Fl.sum l = NaN.
Proof.
  unfold Fl.sum. generalize (Fin 0). induction l as [|x l IH]; intros acc [].
  - subst x. cbn [fold_left]. rewrite add_nan_r. apply fold_add_nan.
  - cbn [fold_left]. apply IH. assumption.
Qed.

Lemma sum_all_nan (l : list float) :
  l <> [] -> Forall (fun e => e = NaN) l -> Fl.sum l = NaN.
Proof.
  intros Hne Hall. destruct Hall as [|x l Hx _]; [congruence|].
  apply sum_nan. left. exact Hx.
Qed.

Lemma expected_freq_nan (observed : list (list float)) :
  Scipy.grand_total observed = NaN ->
  Forall (Forall (fun e => e = NaN)) (Scipy.expected_freq observed).
Proof.
  intros Ht. unfold Scipy.expected_freq. rewrite Ht.
  apply List.Forall_forall. intros row Hrow. apply List.in_map_iff in Hrow.
  destruct Hrow as [r [<- _]]. apply List.Forall_forall. intros e He.
  apply List.in_map_iff in He. destruct He as [c [<- _]]. apply div_nan_r.
Qed.

Lemma term_rows_nan (observed expected : list (list float)) :
  Forall (Forall (fun e => e = NaN)) expected ->
  Forall (Forall (fun e => e = NaN))
         (Scipy.zip_with_rows Scipy.term observed expected).
Proof.
  intros He. revert observed.
  induction He as [|erow expected Herow _ IH]; intros [|orow observed];
    cbn [Scipy.zip_with_rows]; try constructor; [|apply IH].
  clear IH. revert orow. induction Herow as [|e erow -> _ IH]; intros [|o orow];
    cbn [Np.multiply_with]; try constructor; [|apply IH].
  unfold Scipy.term. apply div_nan_r.
Qed.

Lemma forall_concat {A : Type} (P : A -> Prop) (ls : list (list A)) :
  Forall (Forall P) ls -> Forall P (List.concat ls).
Proof.
  induction 1 as [|l ls Hl _ IH]; cbn [List.concat]; [constructor|].
  apply List.Forall_app. auto.
Qed.

Lemma existsb_eqb_nan (l : list float) :
  Forall (fun e => e = NaN) l -> existsb (fun e => Fl.eqb e (Fin 0)) l = false.
Proof.
  induction 1 as [|e l -> _ IH]; [reflexivity | exact IH].
Qed.

(** the statistic of a table that has a missing cell, no negative cell and
    at least two rows and two columns: no exception, and NaN *)
Lemma chi2_contingency_nan (observed : list (list float)) :
  In NaN (List.concat observed) ->
  existsb (fun o => Fl.ltb o (Fin 0)) (List.concat observed) = false ->
  ((List.length observed - 1) * (List.length (List.hd [] observed) - 1))%nat
  <> 0%nat ->
  Scipy.chi2_contingency observed = Ok NaN.
Proof.
  intros Hnan Hneg Hdof. unfold Scipy.chi2_contingency. rewrite Hneg.
  destruct (List.concat observed) as [|c0 cells] eqn:Hcells; [destruct Hnan|].
  cbn [List.length Nat.eqb]. rewrite <- Hcells in Hnan.
  pose proof (expected_freq_nan observed (sum_nan _ Hnan)) as Hexp.
  rewrite (existsb_eqb_nan _ (forall_concat _ _ Hexp)).
  destruct (Nat.eqb_spec ((List.length observed - 1)
                          * (List.length (List.hd [] observed) - 1)) 0)
    as [E|_]; [contradiction|].
  f_equal. apply sum_all_nan; [|apply forall_concat, term_rows_nan, Hexp].
  destruct observed as [|[|o1 r1] rest]; cbn in Hdof; try lia.
  unfold Scipy.expected_freq, Scipy.row_sums, Scipy.col_sums.
  cbn [List.map List.hd List.length List.seq].
  destruct (Nat.eqb _ 1); cbn [Scipy.zip_with_rows Np.multiply_with List.concat];
    discriminate.
Qed.

Lemma crosstab_shape (x y : list cell) (weights : option (list cell))
  (ct : Crosstab) :
  Xtab.crosstab x y weights = Ok ct ->
  List.length (ct_values ct) = List.length (ct_index ct)
  /\ (ct_index ct <> [] ->
      List.length (List.hd [] (ct_values ct)) = List.length (ct_columns ct)).
Proof.
  unfold Xtab.crosstab.
  destruct (match weights with Some ws => _ | None => _ end) as [w|e];
    cbn [bind]; [|discriminate].
  intros [= <-]. cbn [ct_values ct_index ct_columns].
  split; [apply List.length_map|].
  destruct (unique _) as [|r index]; [congruence|]. intros _.
  cbn [List.map List.hd]. apply List.length_map.
Qed.

(** Whenever the crosstab has a missing cell, at least two rows and two
    columns, no negative cell and a non-zero total, [cramers_v] is NaN. *)
Lemma cramers_v_empty_cell (x y : list cell) (weights : option (list cell))
  (ct : Crosstab) :
  Xtab.crosstab x y weights = Ok ct ->
  In NaN (List.concat (ct_values ct)) ->
  existsb (fun o => Fl.ltb o (Fin 0)) (List.concat (ct_values ct)) = false ->
  Fl.eqb (Xtab.total ct) (Fin 0) = false ->
  (2 <= List.length (ct_index ct))%nat ->
  (2 <= List.length (ct_columns ct))%nat ->
  cramers_v x y weights = NaN.
Proof.
  intros Hct Hnan Hneg Htot Hr Hc.
  destruct (crosstab_shape x y weights ct Hct) as [Hrows Hcols].
  assert (Hcols' : List.length (List.hd [] (ct_values ct))
                   = List.length (ct_columns ct)).
  { apply Hcols. destruct (ct_index ct); [cbn in Hr; lia | discriminate]. }
  unfold cramers_v, cramers_v_try. rewrite Hct. cbn [bind].
  unfold Xtab.empty, Xtab.shape. cbn [fst snd].
  destruct (Nat.eqb_spec (List.length (ct_index ct)) 0) as [E|_]; [lia|].
  destruct (Nat.eqb_spec (List.length (ct_columns ct)) 0) as [E|_]; [lia|].
  rewrite Htot. cbn [orb].
  rewrite chi2_contingency_nan; [| assumption | assumption | rewrite Hrows, Hcols'; nia].
  cbn [bind].
  destruct (Nat.eqb_spec (Nat.min (List.length (ct_index ct) - 1)
                                  (List.length (ct_columns ct) - 1)) 0)
    as [E|_]; [lia|].
  reflexivity.
Qed.

(** C1: on two categorical columns whose crosstab has a pair of categories
    that never occurs together, the weighted Cramér's V is NaN, which is
    not a value of [[0, 1]]: the weighted crosstab leaves that cell missing,
    chi-square of the table is NaN, and neither the clamp [min(v, 1.0)] nor
    the [except] branch catches it.  The counting crosstab of the same
    columns fills the cell with 0 and gives 0.0. *)
Theorem C1_cramers_v_nan :
  Xtab.crosstab x_ab y_cd (Some w_11)
  = Ok {| ct_index := x_ab; ct_columns := y_cd;
          ct_values := [[Fin 1; NaN]; [NaN; Fin 1]] |}
  /\ Scipy.chi2_contingency [[Fin 1; NaN]; [NaN; Fin 1]] = Ok NaN
  /\ cramers_v x_ab y_cd (Some w_11) = NaN
  /\ Fl.leb (Fin 0) (cramers_v x_ab y_cd (Some w_11)) = false
  /\ Fl.leb (cramers_v x_ab y_cd (Some w_11)) (Fin 1) = false
  /\ cramers_v x_ab y_cd None = Fin 0.
Proof. repeat split; vm_compute; reflexivity. Qed.

(** three respondents in a 2-by-3 table (no continuity correction): four
    of the six pairs never occur *)
Lemma cramers_v_empty_cell_ejemplo :
  cramers_v [Str "a"; Str "a"; Str "b"] [Str "c"; Str "d"; Str "e"]
            (Some [Num (Fin 2); Num (Fin 3); Num (Fin 4)]) = NaN.
Proof.
  eapply cramers_v_empty_cell.
  - vm_compute. reflexivity.
  - cbn. auto.
  - reflexivity.
  - reflexivity.
  - cbn. lia.
  - cbn. lia.
Qed.

(** with every pair of categories observed the value is a number of
    [[0, 1]] *)
Lemma cramers_v_ejemplo :
  exists v, cramers_v x_aabb y_cdcd (Some w_10_1) = Fin v /\ 0 <= v /\ v <= 1.
Proof.
  eapply (cramers_v_range x_aabb y_cdcd (Some w_10_1) _ (128 # 11)).
  - vm_compute. reflexivity.
  - vm_compute. reflexivity.
  - discriminate.
  - vm_compute. reflexivity.
Qed.

(** ** Association matrix *)

Ltac nat_cases :=
  repeat (cbn [andb orb negb];
          match goal with
          | |- context [Nat.eqb ?x ?y] =>
              destruct (Nat.eqb_spec x y); try lia; try subst
          | |- context [Nat.ltb ?x ?y] =>
              destruct (Nat.ltb_spec x y); try lia
          end);
  cbn [andb orb negb].

Lemma entry_zeros (n a b : nat) :
  (a < n)%nat -> (b < n)%nat -> entry (zeros n) a b = Some (Fin 0).
Proof.
  intros Ha Hb. unfold entry, zeros.
  rewrite lookup_replicate_2 by exact Ha. apply lookup_replicate_2, Hb.
Qed.

Lemma cuadrada_zeros (n : nat) : cuadrada n (zeros n).
Proof.
  unfold cuadrada, zeros. split; [apply length_replicate|].
  intros a row Hrow. apply lookup_replicate in Hrow. destruct Hrow as [-> _].
  apply length_replicate.
Qed.

Lemma cuadrada_set_entry (n : nat) (m : matrix) (i j : nat) (v : float) :
  cuadrada n m -> cuadrada n (set_entry m i j v).
Proof.
  intros [Hlen Hrows]. unfold set_entry.
  destruct (m !! i) as [row|] eqn:Hi; [|split; assumption].
  split; [rewrite length_insert; exact Hlen|].
  intros a row' Ha. rewrite list_lookup_insert in Ha.
  destruct (decide _) as [[-> _]|_].
  - injection Ha as <-. rewrite length_insert. eapply Hrows, Hi.
  - eapply Hrows, Ha.
Qed.

Lemma entry_set_entry (n : nat) (m : matrix) (i j a b : nat) (v : float) :
  cuadrada n m -> (i < n)%nat -> (j < n)%nat ->
  entry (set_entry m i j v) a b
  = if Nat.eqb a i && Nat.eqb b j then Some v else entry m a b.
Proof.
  intros [Hlen Hrows] Hi Hj. unfold set_entry, entry.
  destruct (lookup_lt_is_Some_2 m i ltac:(lia)) as [row Hrow].
  rewrite Hrow. pose proof (Hrows i row Hrow) as Hlrow.
  destruct (Nat.eqb_spec a i) as [->|Hai]; cbn [andb].
  - rewrite list_lookup_insert_eq by lia. rewrite Hrow.
    destruct (Nat.eqb_spec b j) as [->|Hbj].
    + apply list_lookup_insert_eq. lia.
    + apply list_lookup_insert_ne. congruence.
  - rewrite list_lookup_insert_ne by congruence. reflexivity.
Qed.

Section Matriz.

Variable df : DataFrame.
Variable variables : list string.
Variable weights : option string.

Let parcial := entrada_parcial df variables weights.
Let valor := valor_par df variables weights.

Lemma parcial_init (a b : nat) : parcial 0 0 a b = Fin 0.
Proof.
  unfold parcial, entrada_parcial, hecho. nat_cases; reflexivity.
Qed.

Lemma parcial_diag (i a b : nat) :
  parcial i (S i) a b
  = if Nat.eqb a i && Nat.eqb b i then Fin 1 else parcial i i a b.
Proof.
  unfold parcial, entrada_parcial, hecho. nat_cases; reflexivity.
Qed.

Lemma parcial_upper (i j a b : nat) :
  (i < j)%nat ->
  parcial i (S j) a b
  = if Nat.eqb a j && Nat.eqb b i then valor i j
    else if Nat.eqb a i && Nat.eqb b j then valor i j
         else parcial i j a b.
Proof.
  intros Hij. unfold parcial, entrada_parcial, hecho. nat_cases; reflexivity.
Qed.

Lemma parcial_upper_zero (i j : nat) :
  (i < j)%nat -> parcial i j i j = Fin 0 /\ parcial i j j i = Fin 0.
Proof.
  intros Hij. unfold parcial, entrada_parcial, hecho.
  split; nat_cases; reflexivity.
Qed.

Lemma parcial_lower (i j a b : nat) :
  (j < i)%nat -> parcial i (S j) a b = parcial i j a b.
Proof.
  intros Hij. unfold parcial, entrada_parcial, hecho. nat_cases; reflexivity.
Qed.

Lemma parcial_next_row (n i a b : nat) :
  (a < n)%nat -> (b < n)%nat -> parcial i n a b = parcial (S i) 0 a b.
Proof.
  intros Ha Hb. unfold parcial, entrada_parcial, hecho. nat_cases; reflexivity.
Qed.

Lemma parcial_final (n a b : nat) :
  (a < n)%nat -> (b < n)%nat ->
  parcial n 0 a b = entrada_esperada df variables weights a b.
Proof.
  intros Ha Hb. unfold parcial, entrada_parcial, entrada_esperada, hecho.
  nat_cases; reflexivity.
Qed.

End Matriz.

Lemma esperada_sym (df : DataFrame) (variables : list string)
  (weights : option string) (a b : nat) :
  entrada_esperada df variables weights a b
  = entrada_esperada df variables weights b a.
Proof. unfold entrada_esperada. nat_cases; reflexivity. Qed.

Lemma for_each_enumerate {A St : Type} (P : nat -> St -> Prop)
  (body : St -> nat * A -> result St) (l : list A) :
  forall (k : nat) (s : St),
    P k s ->
    (forall d x s0, l !! d = Some x -> P (k + d)%nat s0 ->
                    exists s1, body s0 ((k + d)%nat, x) = Ok s1
                               /\ P (S (k + d)) s1) ->
    exists s', for_each body (enumerate_from k l) s = Ok s'
               /\ P (k + List.length l)%nat s'.
Proof.
  induction l as [|x r IH]; intros k s Hs Hstep.
  - exists s. cbn. rewrite Nat.add_0_r. auto.
  - cbn [enumerate_from for_each List.length].
    destruct (Hstep 0%nat x s eq_refl) as [s1 [Hb Hs1]].
    { rewrite Nat.add_0_r. exact Hs. }
    rewrite Nat.add_0_r in Hb, Hs1. rewrite Hb. cbn [bind].
    destruct (IH (S k) s1 Hs1) as [s' [Hf Hs']].
    { intros d y s0 Hd Hs0.
      destruct (Hstep (S d) y s0 Hd) as [s2 [Hb2 Hs2]].
      - rewrite Nat.add_succ_r. exact Hs0.
      - rewrite Nat.add_succ_r in Hb2, Hs2. eauto. }
    exists s'. split; [exact Hf|]. rewrite Nat.add_succ_r. exact Hs'.
Qed.

Lemma asociacion_ok (df : DataFrame) (var1 var2 : string)
  (weights : option string) :
  Pd.has_column df var1 = true -> Pd.has_column df var2 = true ->
  match weights with Some w => Pd.has_column df w = true | None => True end ->
  exists o, asociacion df var1 var2 weights = Ok o.
Proof.
  intros H1 H2 Hw. apply has_column_get in H1, H2.
  destruct H1 as [c1 H1], H2 as [c2 H2]. unfold asociacion.
  rewrite H1, H2. cbn [bind]. destruct weights as [w|].
  - apply has_column_get in Hw. destruct Hw as [c Hw]. rewrite Hw. cbn [bind].
    destruct (0 <? _)%nat; eauto.
  - cbn [bind]. destruct (0 <? _)%nat; eauto.
Qed.

Section Bucles.

Variable df : DataFrame.
Variable variables : list string.
Variable weights : option string.
Hypothesis Hpresentes : columnas_presentes df variables weights.

Let n := List.length variables.

Lemma variable_presente (i : nat) (var : string) :
  variables !! i = Some var -> Pd.has_column df var = true /\ (i < n)%nat.
Proof.
  intros Hi. split.
  - destruct Hpresentes as [Hall _]. rewrite List.Forall_forall in Hall.
    apply Hall. apply list_elem_of_In. eapply list_elem_of_lookup_2, Hi.
  - eapply lookup_lt_Some, Hi.
Qed.

Lemma paso_estado (i j : nat) (var1 var2 : string) (m : matrix) :
  variables !! i = Some var1 -> variables !! j = Some var2 ->
  estado df variables weights i j m ->
  exists m', paso df weights i var1 m (j, var2) = Ok m'
             /\ estado df variables weights i (S j) m'.
Proof.
  intros Hi Hj [Hsq Hent].
  destruct (variable_presente i var1 Hi) as [Hc1 Hin].
  destruct (variable_presente j var2 Hj) as [Hc2 Hjn].
  unfold paso. destruct (Nat.eqb_spec i j) as [<-|Hne].
  - eexists. split; [reflexivity|]. split; [apply cuadrada_set_entry, Hsq|].
    intros a b Ha Hb. rewrite (entry_set_entry n) by assumption.
    rewrite parcial_diag. destruct (_ && _); [reflexivity | apply Hent; assumption].
  - destruct (Nat.ltb_spec i j) as [Hlt|Hge].
    + destruct (asociacion_ok df var1 var2 weights Hc1 Hc2) as [o Ho].
      { apply Hpresentes. }
      rewrite Ho. cbn [bind].
      assert (Hval : valor_par df variables weights i j
                     = match o with Some v => v | None => Fin 0 end).
      { unfold valor_par. rewrite Hi, Hj, Ho. reflexivity. }
      destruct o as [v|].
      * eexists. split; [reflexivity|].
        split; [apply cuadrada_set_entry, cuadrada_set_entry, Hsq|].
        intros a b Ha Hb.
        rewrite (entry_set_entry n) by (try apply cuadrada_set_entry; assumption).
        rewrite (entry_set_entry n) by assumption.
        rewrite parcial_upper by exact Hlt. rewrite Hval.
        destruct (_ && _); [reflexivity|].
        destruct (_ && _); [reflexivity | apply Hent; assumption].
      * exists m. split; [reflexivity|]. split; [exact Hsq|].
        intros a b Ha Hb. rewrite parcial_upper by exact Hlt. rewrite Hval.
        destruct (parcial_upper_zero df variables weights i j Hlt) as [Hz1 Hz2].
        destruct (Nat.eqb_spec a j) as [->|Haj];
          destruct (Nat.eqb_spec b i) as [->|Hbi]; cbn [andb].
        -- rewrite Hent by assumption. f_equal. exact Hz2.
        -- destruct (_ && _) eqn:E; [|apply Hent; assumption].
           apply andb_true_iff in E. destruct E as [E1 E2].
           apply Nat.eqb_eq in E1, E2. subst. lia.
        -- destruct (_ && _) eqn:E; [|apply Hent; assumption].
           apply andb_true_iff in E. destruct E as [E1 E2].
           apply Nat.eqb_eq in E1, E2. subst.
           rewrite Hent by assumption. f_equal. exact Hz1.
        -- destruct (_ && _) eqn:E; [|apply Hent; assumption].
           apply andb_true_iff in E. destruct E as [E1 E2].
           apply Nat.eqb_eq in E1, E2. subst.
           rewrite Hent by assumption. f_equal. exact Hz1.
    + exists m. split; [reflexivity|]. split; [exact Hsq|].
      intros a b Ha Hb. rewrite parcial_lower by lia. apply Hent; assumption.
Qed.

Lemma fila_estado (i : nat) (var1 : string) (m : matrix) :
  variables !! i = Some var1 ->
  estado df variables weights i 0 m ->
  exists m', for_each (paso df weights i var1) (enumerate variables) m = Ok m'
             /\ estado df variables weights (S i) 0 m'.
Proof.
  intros Hi Hm.
  destruct (for_each_enumerate (fun j m => estado df variables weights i j m)
              (paso df weights i var1) variables 0%nat m Hm) as [m' [Hf Hm']].
  { intros j var2 m0 Hj Hm0. cbn [Nat.add] in *.
    apply paso_estado; assumption. }
  exists m'. split; [exact Hf|]. cbn [Nat.add] in Hm'.
  destruct Hm' as [Hsq Hent]. split; [exact Hsq|].
  intros a b Ha Hb. rewrite Hent by assumption. f_equal.
  apply parcial_next_row with (n := n); assumption.
Qed.

Lemma matriz_estado :
  exists m, calculate_association_matrix df variables weights = Ok m
            /\ estado df variables weights n 0 m.
Proof.
  unfold calculate_association_matrix.
  apply (for_each_enumerate (fun i m => estado df variables weights i 0 m)
           (fun m (iv : nat * string) =>
              for_each (paso df weights (fst iv) (snd iv)) (enumerate variables) m)
           variables 0%nat (zeros n)).
  - split; [apply cuadrada_zeros|]. intros a b Ha Hb.
    rewrite entry_zeros by assumption. f_equal. symmetry. apply parcial_init.
  - intros i var1 m Hi Hm. cbn [Nat.add fst snd] in *.
    apply fila_estado; assumption.
Qed.

End Bucles.

(** C2: when the variables (and the weight column) are columns of the
    table, [calculate_association_matrix] returns an n-by-n matrix that is
    symmetric and has 1.0 on its diagonal; for [i < j] the entry [(i, j)] is
    the pairwise value computed once for the pair (the Cramér's V of the two
    variables on the rows where both are present, 0.0 when no row is) and
    the entry [(j, i)] is that same value mirrored. *)
Theorem C2_association_matrix (df : DataFrame) (variables : list string)
  (weights : option string)
  (Hpresentes : columnas_presentes df variables weights) :
  exists m,
    calculate_association_matrix df variables weights = Ok m
    /\ cuadrada (List.length variables) m
    /\ (forall i j, (i < List.length variables)%nat ->
                    (j < List.length variables)%nat ->
                    entry m i j = Some (entrada_esperada df variables weights i j)
                    /\ entry m i j = entry m j i)
    /\ (forall i, (i < List.length variables)%nat -> entry m i i = Some (Fin 1))
    /\ (forall i j, (i < j)%nat -> (j < List.length variables)%nat ->
                    entry m i j = Some (valor_par df variables weights i j)
                    /\ entry m j i = Some (valor_par df variables weights i j)).
Proof.
  destruct (matriz_estado df variables weights Hpresentes) as [m [Hm [Hsq Hent]]].
  assert (Hfinal : forall a b, (a < List.length variables)%nat ->
                               (b < List.length variables)%nat ->
                               entry m a b
                               = Some (entrada_esperada df variables weights a b)).
  { intros a b Ha Hb. rewrite Hent by assumption. f_equal.
    apply parcial_final with (n := List.length variables); assumption. }
  exists m. split; [exact Hm|]. split; [exact Hsq|]. split; [|split].
  - intros i j Hi Hj. split; [apply Hfinal; assumption|].
    rewrite !Hfinal by assumption. f_equal. apply esperada_sym.
  - intros i Hi. rewrite Hfinal by assumption. unfold entrada_esperada.
    rewrite Nat.eqb_refl. reflexivity.
  - intros i j Hij Hj. rewrite !Hfinal by lia. unfold entrada_esperada.
    split; nat_cases; reflexivity.
Qed.

Lemma columnas_presentes_ejemplo :
  columnas_presentes df_asociacion ["P3"; "P4"; "P5"] (Some FACTOR_DE_EXPANSION).
Proof. split; [repeat constructor | reflexivity]. Qed.

Lemma C2_association_matrix_witness :
  columnas_presentes df_asociacion ["P3"; "P4"; "P5"] (Some FACTOR_DE_EXPANSION)
  /\ exists m,
       calculate_association_matrix df_asociacion ["P3"; "P4"; "P5"]
                                    (Some FACTOR_DE_EXPANSION) = Ok m
       /\ entry m 0 1 = entry m 1 0 /\ entry m 2 2 = Some (Fin 1).
Proof.
  split; [exact columnas_presentes_ejemplo|].
  destruct (C2_association_matrix df_asociacion ["P3"; "P4"; "P5"]
              (Some FACTOR_DE_EXPANSION) columnas_presentes_ejemplo)
    as [m (Hm & _ & Hent & Hdiag & _)].
  exists m. split; [exact Hm|]. split.
  - apply (Hent 0%nat 1%nat); cbn; lia.
  - apply (Hdiag 2%nat). cbn. lia.
Defined.

(** the matrix of the example: the pair P3, P4 has every category pair
    observed, the pairs with P5 (a single category) give 0.0 *)
Lemma association_matrix_ejemplo :
  calculate_association_matrix df_asociacion ["P3"; "P4"; "P5"]
                               (Some FACTOR_DE_EXPANSION)
  = Ok [[Fin 1; Fin (1637672591771089 # 2251799813685248); Fin 0];
        [Fin (1637672591771089 # 2251799813685248); Fin 1; Fin 0];
        [Fin 0; Fin 0; Fin 1]]
  /\ calculate_association_matrix df_asociacion ["P3"; "ZZ"]
                                  (Some FACTOR_DE_EXPANSION)
     = Raise KeyError.
Proof. split; vm_compute; reflexivity. Qed.

(* ===================================================================== *)
(** * Further properties of the code *)
(* ===================================================================== *)

(** ** Cleaning: what is changed and what is reported *)

Lemma imputar_categoricas_map (cols : list Column) :
  imputar_categoricas cols
  = (List.map (fun c => if pendiente c then imputar c else c) cols,
     List.map col_name (List.filter pendiente cols)).
Proof.
  induction cols as [|c cols IH]; [reflexivity|].
  cbn [imputar_categoricas List.map List.filter]. rewrite IH.
  destruct (pendiente c); reflexivity.
Qed.

Lemma drop_or_keep (df : DataFrame) (names : list string) :
  columns (if negb (Nat.eqb (List.length names) 0) then Pd.drop names df else df)
  = List.filter (fun c => negb (existsb (String.eqb (col_name c)) names))
                (columns df).
Proof.
  destruct names as [|name names].
  - cbn [List.length Nat.eqb negb]. symmetry.
    induction (columns df) as [|c cs IH]; [reflexivity|].
    cbn [List.filter existsb negb]. f_equal. exact IH.
  - reflexivity.
Qed.

(** the columns of the cleaned table: the kept columns in their order, the
    pending ones imputed *)
Lemma limpiar_columns (df : DataFrame) (umbral_na : float) :
  columns (fst (limpiar_datos_categoricos df umbral_na))
  = List.map (fun c => if pendiente c then imputar c else c)
      (List.filter
         (fun c => negb (existsb (String.eqb (col_name c))
                                 (columnas_a_eliminar df umbral_na)))
         (columns df)).
Proof.
  rewrite limpiar_fst. cbv zeta. cbn [columns].
  rewrite imputar_categoricas_map. cbn [fst]. rewrite drop_or_keep. reflexivity.
Qed.

Lemma es_categorica_imputar (c : Column) :
  es_categorica (imputar c) = es_categorica c.
Proof. unfold imputar, es_categorica. destruct (col_dtype c); reflexivity. Qed.

Lemma col_name_imputar (c : Column) : col_name (imputar c) = col_name c.
Proof. unfold imputar. destruct (col_dtype c); reflexivity. Qed.

Lemma col_values_imputar (c : Column) :
  col_values (imputar c) = Pd.fillna (Str NO_INFORMACION) (col_values c).
Proof. unfold imputar. destruct (col_dtype c); reflexivity. Qed.

Lemma fillna_sin_na (v : cell) (values : list cell) :
  Pd.count_na values = 0%nat -> Pd.fillna v values = values.
Proof.
  unfold Pd.count_na, Pd.fillna. induction values as [|c values IH];
    [reflexivity|].
  cbn [List.filter List.map]. destruct (Pd.isnull c); [discriminate|].
  intros H. rewrite IH by exact H. reflexivity.
Qed.

Lemma no_eliminada (names : list string) (d : Column) :
  negb (existsb (String.eqb (col_name d)) names) = true
  <-> ~ In (col_name d) names.
Proof.
  rewrite negb_true_iff, <- not_true_iff_false.
  rewrite List.existsb_exists. split; intros H H'; apply H.
  - exists (col_name d). split; [exact H' | apply String.eqb_refl].
  - destruct H' as [x [Hx Heq]]. apply String.eqb_eq in Heq. congruence.
Qed.

(** X1: cleaning keeps the number of rows and never touches a column that
    is not of type object or category: such a column is in the cleaned
    table exactly when it is in the original table and its name is not
    dropped, with the same type and the same values, missing ones
    included. *)
Theorem limpiar_numericas_intactas (df : DataFrame) (umbral_na : float)
  (c : Column) (Hc : es_categorica c = false) :
  nrows (fst (limpiar_datos_categoricos df umbral_na)) = nrows df
  /\ (In c (columns (fst (limpiar_datos_categoricos df umbral_na)))
      <-> In c (columns df)
          /\ ~ In (col_name c)
                  (columnas_eliminadas (snd (limpiar_datos_categoricos df umbral_na)))).
Proof.
  split.
  - rewrite limpiar_fst. cbv zeta. cbn [nrows]. apply nrows_after_drop.
  - rewrite limpiar_columns, limpiar_eliminadas.
    rewrite List.in_map_iff. split.
    + intros [d [Hd Hin]]. apply List.filter_In in Hin. destruct Hin as [Hin Hk].
      destruct (pendiente d) eqn:Hp.
      * exfalso. rewrite <- Hd, es_categorica_imputar in Hc.
        unfold pendiente in Hp. rewrite Hc in Hp. discriminate.
      * subst d. split; [exact Hin | apply no_eliminada, Hk].
    + intros [Hin Hk]. exists c. split.
      * unfold pendiente. rewrite Hc. reflexivity.
      * apply List.filter_In. split; [exact Hin | apply no_eliminada, Hk].
Qed.

Lemma limpiar_numericas_intactas_witness :
  In {| col_name := "C"; col_dtype := DNumeric;
        col_values := [Num (Fin 1); Num NaN] |}
     (columns (fst (limpiar_datos_categoricos df_orden (Fin (1 # 2))))).
Proof.
  apply (limpiar_numericas_intactas df_orden (Fin (1 # 2))); [reflexivity|].
  split.
  - cbn. auto.
  - vm_compute. intros [H|[]]. discriminate.
Defined.

(** X2: after cleaning no object or category column has a missing value,
    and such a column differs from the original one only in its missing
    cells, which hold the text NO INFORMACION. *)
Theorem limpiar_categoricas_completas (df : DataFrame) (umbral_na : float)
  (c : Column) :
  In c (columns (fst (limpiar_datos_categoricos df umbral_na))) ->
  es_categorica c = true ->
  Pd.count_na (col_values c) = 0%nat
  /\ exists c0, In c0 (columns df)
                /\ col_name c0 = col_name c
                /\ es_categorica c0 = true
                /\ col_values c = Pd.fillna (Str NO_INFORMACION) (col_values c0).
Proof.
  rewrite limpiar_columns, List.in_map_iff. intros [d [Hd Hin]] Hc.
  apply List.filter_In in Hin. destruct Hin as [Hin _].
  destruct (pendiente d) eqn:Hp; subst c.
  - split; [apply imputar_sin_na|]. exists d.
    rewrite col_name_imputar, col_values_imputar.
    rewrite es_categorica_imputar in Hc. auto.
  - assert (Hna : Pd.count_na (col_values d) = 0%nat).
    { unfold pendiente in Hp. rewrite Hc in Hp. cbn [andb] in Hp.
      apply Nat.ltb_ge in Hp. lia. }
    split; [exact Hna|]. exists d. rewrite fillna_sin_na by exact Hna. auto.
Qed.

Lemma limpiar_ejemplo_columnas :
  List.map col_values (columns (fst (limpiar_datos_categoricos df_orden (Fin (1 # 2)))))
  = [[Str "NO INFORMACION"; Str "x"]; [Num (Fin 1); Num NaN]; [Str "u"; Str "u"]].
Proof. vm_compute. reflexivity. Qed.

Lemma limpiar_categoricas_completas_witness :
  Pd.count_na [Str "NO INFORMACION"; Str "x"] = 0%nat.
Proof.
  apply (limpiar_categoricas_completas df_orden (Fin (1 # 2))
           {| col_name := "A"; col_dtype := DObject;
              col_values := [Str "NO INFORMACION"; Str "x"] |}).
  - vm_compute. left. reflexivity.
  - reflexivity.
Defined.

Lemma nombre_unico (cols : list Column) (a b : Column) :
  List.NoDup (List.map col_name cols) ->
  In a cols -> In b cols -> col_name a = col_name b -> a = b.
Proof.
  induction cols as [|c cols IH]; [intros _ []|].
  cbn [List.map]. intros Hnd Ha Hb Hab. apply List.NoDup_cons_iff in Hnd.
  destruct Hnd as [Hc Hnd]. destruct Ha as [<-|Ha], Hb as [<-|Hb].
  - reflexivity.
  - exfalso. apply Hc. rewrite Hab. apply List.in_map, Hb.
  - exfalso. apply Hc. rewrite <- Hab. apply List.in_map, Ha.
  - apply IH; assumption.
Qed.

Lemma filter_por_nombre (cols : list Column) (f : Column -> bool) :
  List.NoDup (List.map col_name cols) ->
  List.filter
    (fun c => negb (existsb (String.eqb (col_name c))
                            (List.map col_name (List.filter f cols)))) cols
  = List.filter (fun c => negb (f c)) cols.
Proof.
  intros Hnd. apply List.filter_ext_in. intros c Hc. f_equal.
  destruct (f c) eqn:Hf.
  - apply List.existsb_exists. exists (col_name c).
    split; [|apply String.eqb_refl]. apply List.in_map, List.filter_In. auto.
  - apply not_true_iff_false. intros H. apply List.existsb_exists in H.
    destruct H as [x [Hx Heq]]. apply String.eqb_eq in Heq. subst x.
    apply List.in_map_iff in Hx. destruct Hx as [d [Hname Hd]].
    apply List.filter_In in Hd. destruct Hd as [Hd Hfd].
    assert (d = c) by (eapply nombre_unico; eauto). congruence.
Qed.

Lemma filter_complement_length {A : Type} (f : A -> bool) (l : list A) :
  (List.length (List.filter (fun x => negb (f x)) l)
   + List.length (List.filter f l) = List.length l)%nat.
Proof.
  induction l as [|x l IH]; [reflexivity|].
  cbn [List.filter]. destruct (f x); cbn [negb List.length]; lia.
Qed.

(** X3: the cleaning report on a table with distinct column names.  The
    final shape has the original number of rows and the original number of
    columns less the dropped ones; an imputed column is never a dropped one
    and is a column of the cleaned table; a dropped name is no column of the
    cleaned table; the last note counts the imputed columns, and a note on
    dropped columns is there exactly when a column was dropped. *)
Theorem limpiar_reporte (df : DataFrame) (umbral_na : float)
  (Hnd : List.NoDup (List.map col_name (columns df))) :
  let limpio := fst (limpiar_datos_categoricos df umbral_na) in
  let info := snd (limpiar_datos_categoricos df umbral_na) in
  forma_original info = (nrows df, List.length (columns df))
  /\ forma_final info
     = (nrows df,
        (List.length (columns df) - List.length (columnas_eliminadas info))%nat)
  /\ (List.length (columnas_eliminadas info) <= List.length (columns df))%nat
  /\ (forall name, In name (columnas_imputadas_categoricas info) ->
                   ~ In name (columnas_eliminadas info)
                   /\ In name (List.map col_name (columns limpio)))
  /\ (forall name, In name (columnas_eliminadas info) ->
                   ~ In name (List.map col_name (columns limpio)))
  /\ observaciones info
     = ((if Nat.eqb (List.length (columnas_eliminadas info)) 0 then []
         else [ObsEliminadas (List.length (columnas_eliminadas info))
                             (Fl.mul umbral_na (Fin 100))])
        ++ [ObsImputadas (List.length (columnas_imputadas_categoricas info))])%list.
Proof.
  intros limpio info.
  assert (Hcols : columns limpio
                  = List.map (fun c => if pendiente c then imputar c else c)
                      (List.filter
                         (fun c => negb (Fl.gtb (porcentaje_na df c)
                                                (Fl.mul umbral_na (Fin 100))))
                         (columns df))).
  { subst limpio. rewrite limpiar_columns. unfold columnas_a_eliminar.
    rewrite filter_por_nombre by exact Hnd. reflexivity. }
  assert (Hnames : List.map col_name (columns limpio)
                   = List.map col_name
                       (List.filter
                          (fun c => negb (Fl.gtb (porcentaje_na df c)
                                                 (Fl.mul umbral_na (Fin 100))))
                          (columns df))).
  { rewrite Hcols, List.map_map. apply List.map_ext. intros c.
    destruct (pendiente c); [apply col_name_imputar | reflexivity]. }
  assert (Helim : columnas_eliminadas info = columnas_a_eliminar df umbral_na).
  { subst info. apply limpiar_eliminadas. }
  assert (Himp : columnas_imputadas_categoricas info
                 = List.map col_name
                     (List.filter pendiente
                        (List.filter
                           (fun c => negb (Fl.gtb (porcentaje_na df c)
                                                  (Fl.mul umbral_na (Fin 100))))
                           (columns df)))).
  { subst info. rewrite limpiar_imputadas, imputar_categoricas_map. cbn [snd].
    rewrite drop_or_keep. unfold columnas_a_eliminar.
    rewrite filter_por_nombre by exact Hnd. reflexivity. }
  assert (Hlen : (List.length (columns limpio)
                  + List.length (columnas_eliminadas info)
                  = List.length (columns df))%nat).
  { rewrite Helim, Hcols. unfold columnas_a_eliminar.
    rewrite !List.length_map. apply filter_complement_length. }
  assert (Hdisj : forall name, In name (columnas_eliminadas info) ->
                               ~ In name (List.map col_name (columns limpio))).
  { intros name He Hin. rewrite Helim in He. unfold columnas_a_eliminar in He.
    rewrite Hnames in Hin. apply List.in_map_iff in He, Hin.
    destruct He as [a [Ha Hfa]], Hin as [b [Hb Hfb]].
    apply List.filter_In in Hfa, Hfb. destruct Hfa as [Hia Hga], Hfb as [Hib Hgb].
    assert (a = b) by (eapply nombre_unico; eauto; congruence). subst b.
    rewrite Hga in Hgb. discriminate. }
  assert (Hshape : forma_final info = (nrows limpio, List.length (columns limpio))
                   /\ forma_original info = (nrows df, List.length (columns df))
                   /\ observaciones info
                      = ((if Nat.eqb (List.length (columnas_eliminadas info)) 0
                          then []
                          else [ObsEliminadas
                                  (List.length (columnas_eliminadas info))
                                  (Fl.mul umbral_na (Fin 100))])
                         ++ [ObsImputadas
                               (List.length (columnas_imputadas_categoricas info))])%list).
  { subst limpio info. unfold limpiar_datos_categoricos.
    destruct (imputar_categoricas _) as [cols2 imputadas]. cbn [fst snd].
    cbn [forma_final forma_original observaciones columnas_eliminadas
         columnas_imputadas_categoricas].
    destruct (Nat.eqb (List.length (columnas_a_eliminar df umbral_na)) 0);
      repeat split; reflexivity. }
  destruct Hshape as (Hff & Hfo & Hobs).
  assert (Hrows : nrows limpio = nrows df).
  { subst limpio. rewrite limpiar_fst. cbv zeta. cbn [nrows].
    apply nrows_after_drop. }
  split; [exact Hfo|]. split; [rewrite Hff, Hrows; f_equal; lia|].
  split; [lia|]. split; [|split; [exact Hdisj | exact Hobs]].
  intros name Hin.
  assert (Hcol : In name (List.map col_name (columns limpio))).
  { rewrite Himp in Hin. rewrite Hnames. apply List.in_map_iff in Hin.
    destruct Hin as [c [Hn Hc]]. apply List.filter_In in Hc.
    destruct Hc as [Hc _]. apply List.in_map_iff. eauto. }
  split; [|exact Hcol]. intros He. exact (Hdisj name He Hcol).
Qed.

Lemma limpiar_reporte_witness :
  List.NoDup (List.map col_name (columns df_orden))
  /\ forma_final (snd (limpiar_datos_categoricos df_orden (Fin (1 # 2)))) = (2%nat, 3%nat).
Proof.
  assert (Hnd : List.NoDup (List.map col_name (columns df_orden))).
  { cbn. repeat constructor; cbn; intuition discriminate. }
  split; [exact Hnd|].
  destruct (limpiar_reporte df_orden (Fin (1 # 2)) Hnd) as (_ & Hf & _).
  rewrite Hf. reflexivity.
Defined.

(** ** Weight repair: what is kept, and a second run *)

Lemma reparar_por_pasos (v0 : list float) :
  let v1 := if (0 <? List.length (List.filter Fl.is_nan v0))%nat
            then List.map fillna_1 v0 else v0 in
  (if (0 <? List.length (List.filter (fun x => Fl.leb x (Fin 0)) v1))%nat
   then List.map no_positivo_1 v1 else v1)
  = List.map reparar v0.
Proof.
  cbv zeta.
  assert (Hv1 : (if (0 <? List.length (List.filter Fl.is_nan v0))%nat
                 then List.map fillna_1 v0 else v0) = List.map fillna_1 v0).
  { rewrite (map_if_none Fl.is_nan fillna_1).
    - apply List.map_ext. intros x. destruct x; reflexivity.
    - intros x Hx. unfold fillna_1. rewrite Hx. reflexivity. }
  rewrite Hv1.
  rewrite (map_if_none (fun x => Fl.leb x (Fin 0)) no_positivo_1).
  - rewrite List.map_map. apply List.map_ext. intros x.
    unfold reparar, no_positivo_1.
    destruct (Fl.leb (fillna_1 x) (Fin 0)); reflexivity.
  - intros x Hx. unfold no_positivo_1. rewrite Hx. reflexivity.
Qed.

Lemma validar_factor_presente (str_to_float : string -> float) (df : DataFrame)
  (col0 : Column) :
  Pd.get_column df FACTOR_DE_EXPANSION = Ok col0 ->
  let v0 := List.map (to_numeric str_to_float) (col_values col0) in
  validar_factor_expansion str_to_float df
  = (Pd.set_column df FACTOR_DE_EXPANSION DNumeric
       (List.map Num (List.map reparar v0)),
     ((if (0 <? List.length (List.filter Fl.is_nan v0))%nat
       then [AvisoNoValidos (List.length (List.filter Fl.is_nan v0))] else [])
      ++ (if (0 <? List.length (List.filter (fun x => Fl.leb x (Fin 0)) v0))%nat
          then [AvisoNoPositivos
                  (List.length (List.filter (fun x => Fl.leb x (Fin 0)) v0))]
          else []))%list).
Proof.
  intros Hget v0. unfold validar_factor_expansion. rewrite Hget. cbv zeta.
  fold v0. pose proof (reparar_por_pasos v0) as Hrep. cbv zeta in Hrep.
  rewrite Hrep. f_equal. f_equal.
  assert (Hv1 : (if (0 <? List.length (List.filter Fl.is_nan v0))%nat
                 then List.map fillna_1 v0 else v0) = List.map fillna_1 v0).
  { rewrite (map_if_none Fl.is_nan fillna_1).
    - apply List.map_ext. intros x. destruct x; reflexivity.
    - intros x Hx. unfold fillna_1. rewrite Hx. reflexivity. }
  rewrite Hv1, filter_leb_fillna. reflexivity.
Qed.

Lemma validar_factor_ausente (str_to_float : string -> float) (df : DataFrame)
  (e : exn) :
  Pd.get_column df FACTOR_DE_EXPANSION = Raise e ->
  validar_factor_expansion str_to_float df
  = (Pd.set_column df FACTOR_DE_EXPANSION DNumeric
       (List.repeat (Num (Fin 1)) (nrows df)),
     [AvisoFactorAusente]).
Proof. intros Hget. unfold validar_factor_expansion. rewrite Hget. reflexivity. Qed.

Lemma reparar_reparar (x : float) : reparar (reparar x) = reparar x.
Proof.
  pose proof (ltb_0_reparar x) as H. unfold reparar at 1.
  destruct (reparar x) as [| |q|]; try discriminate H; try reflexivity.
  unfold fillna_1, no_positivo_1. cbn [Fl.is_nan].
  destruct (Fl.leb (Fin q) (Fin 0)) eqn:Hq; [|reflexivity].
  exfalso. cbn in H, Hq. apply Qltb_lt in H. apply Qle_bool_iff in Hq. lra.
Qed.

Lemma reparar_valido (x : float) : Fl.ltb (Fin 0) x = true -> reparar x = x.
Proof.
  intros H. unfold reparar, fillna_1, no_positivo_1.
  destruct x as [| |q|]; try discriminate H; try reflexivity.
  cbn [Fl.is_nan]. destruct (Fl.leb (Fin q) (Fin 0)) eqn:Hq; [|reflexivity].
  exfalso. cbn in H, Hq. apply Qltb_lt in H. apply Qle_bool_iff in Hq. lra.
Qed.

Lemma reparar_cambia (x : float) :
  Fl.ltb (Fin 0) x = false -> reparar x = Fin 1.
Proof.
  intros H. unfold reparar, fillna_1, no_positivo_1.
  destruct x as [| |q|]; try discriminate H; try reflexivity.
  cbn [Fl.is_nan]. destruct (Fl.leb (Fin q) (Fin 0)) eqn:Hq; [reflexivity|].
  exfalso. cbn in H, Hq. apply Qltb_ge in H.
  apply not_true_iff_false in Hq. apply Hq, Qle_bool_iff, H.
Qed.

Lemma set_column_twice (df : DataFrame) (name : string) (d : dtype)
  (values : list cell) :
  Pd.set_column (Pd.set_column df name d values) name d values
  = Pd.set_column df name d values.
Proof.
  assert (Hhas : Pd.has_column (Pd.set_column df name d values) name = true).
  { apply has_column_get. eexists. apply get_set_column. }
  unfold Pd.set_column at 1. rewrite Hhas.
  unfold Pd.set_column, Pd.has_column. cbn [nrows columns]. f_equal.
  destruct (existsb _ (columns df)) eqn:Hex.
  - rewrite List.map_map. apply List.map_ext. intros c.
    destruct (String.eqb (col_name c) name) eqn:Hc.
    + cbn [col_name]. rewrite String.eqb_refl. reflexivity.
    + rewrite Hc. reflexivity.
  - rewrite List.map_app. cbn [List.map col_name]. rewrite String.eqb_refl.
    f_equal. rewrite <- (List.map_id (columns df)) at 2.
    apply List.map_ext_in. intros c Hc.
    destruct (String.eqb (col_name c) name) eqn:Hn; [|reflexivity].
    exfalso. apply not_true_iff_false in Hex. apply Hex.
    apply List.existsb_exists. eauto.
Qed.

Lemma filter_nan_reparar (l : list float) :
  List.filter Fl.is_nan (List.map reparar l) = [].
Proof.
  induction l as [|x l IH]; [reflexivity|]. cbn [List.map List.filter].
  pose proof (ltb_0_reparar x) as H.
  destruct (reparar x); try discriminate H; exact IH.
Qed.

Lemma filter_leb_reparar (l : list float) :
  List.filter (fun x => Fl.leb x (Fin 0)) (List.map reparar l) = [].
Proof.
  induction l as [|x l IH]; [reflexivity|]. cbn [List.map List.filter].
  pose proof (ltb_0_reparar x) as H.
  destruct (reparar x) as [| |q|]; try discriminate H; try exact IH.
  destruct (Fl.leb (Fin q) (Fin 0)) eqn:Hq; [|exact IH].
  exfalso. cbn in H, Hq. apply Qltb_lt in H. apply Qle_bool_iff in Hq. lra.
Qed.

(** X4: the weight validation is idempotent.  Run on its own result it
    returns the same table and shows no warning, whatever the first table
    was (weight column absent, textual, missing, zero, negative or
    infinite). *)
Theorem validar_factor_idempotente (str_to_float : string -> float)
  (df : DataFrame) :
  validar_factor_expansion str_to_float
    (fst (validar_factor_expansion str_to_float df))
  = (fst (validar_factor_expansion str_to_float df), []).
Proof.
  assert (Hforma : exists l,
             fst (validar_factor_expansion str_to_float df)
             = Pd.set_column df FACTOR_DE_EXPANSION DNumeric
                 (List.map Num (List.map reparar l))).
  { destruct (Pd.get_column df FACTOR_DE_EXPANSION) as [col0|e] eqn:Hget.
    - eexists. rewrite (validar_factor_presente _ _ _ Hget). reflexivity.
    - exists (List.repeat (Fin 1) (nrows df)).
      rewrite (validar_factor_ausente _ _ _ Hget). cbn [fst].
      rewrite !List.map_repeat. reflexivity. }
  destruct Hforma as [l Hl]. rewrite Hl.
  rewrite (validar_factor_presente str_to_float _ _ (get_set_column _ _ _ _)).
  cbn [col_values].
  assert (Hnum : List.map (to_numeric str_to_float)
                          (List.map Num (List.map reparar l))
                 = List.map reparar l).
  { rewrite List.map_map. apply List.map_id. }
  rewrite Hnum, filter_nan_reparar, filter_leb_reparar. cbn [List.length Nat.ltb Nat.leb app].
  f_equal.
  assert (Hrr : List.map reparar (List.map reparar l) = List.map reparar l).
  { rewrite List.map_map. apply List.map_ext. intros x. apply reparar_reparar. }
  rewrite Hrr. apply set_column_twice.
Qed.

Lemma filter_nulos_invalidos (v0 : list float) :
  (List.length (List.filter Fl.is_nan v0)
   + List.length (List.filter (fun x => Fl.leb x (Fin 0)) v0)
   = List.length (List.filter (fun x => negb (Fl.ltb (Fin 0) x)) v0))%nat.
Proof.
  induction v0 as [|x l IH]; [reflexivity|]. cbn [List.filter].
  set (nulos := List.filter Fl.is_nan l) in *.
  set (invalidos := List.filter (fun x => Fl.leb x (Fin 0)) l) in *.
  set (cambiados := List.filter (fun x => negb (Fl.ltb (Fin 0) x)) l) in *.
  destruct x as [| |q|]; cbn [Fl.is_nan]; try (cbn; lia).
  assert (Hq : Fl.leb (Fin q) (Fin 0) = negb (Fl.ltb (Fin 0) (Fin q))).
  { cbn. destruct (Fl.Qltb 0 q) eqn:H.
    - apply Qltb_lt in H. apply not_true_iff_false. intros H'.
      apply Qle_bool_iff in H'. lra.
    - apply Qltb_ge in H. apply Qle_bool_iff, H. }
  rewrite Hq. destruct (negb _); cbn [List.length]; lia.
Qed.

(** X5: what the weight validation keeps, on a table that has the weight
    column.  The number of rows and every other column are as before; a
    weight that reads as a number above 0 is kept as that number and every
    other weight becomes 1; the counts of the two warnings add up to the
    number of replaced weights; no warning is shown exactly when every
    weight reads as a number above 0. *)
Theorem validar_factor_conserva (str_to_float : string -> float)
  (df : DataFrame) (col0 : Column)
  (Hcol : Pd.get_column df FACTOR_DE_EXPANSION = Ok col0) :
  let df' := fst (validar_factor_expansion str_to_float df) in
  let avisos := snd (validar_factor_expansion str_to_float df) in
  let valido := fun c => Fl.ltb (Fin 0) (to_numeric str_to_float c) in
  nrows df' = nrows df
  /\ List.map col_name (columns df') = List.map col_name (columns df)
  /\ (forall other, other <> FACTOR_DE_EXPANSION ->
                    Pd.get_column df' other = Pd.get_column df other)
  /\ Pd.get_column df' FACTOR_DE_EXPANSION
     = Ok {| col_name := FACTOR_DE_EXPANSION; col_dtype := DNumeric;
             col_values :=
               List.map (fun c => if valido c
                                  then Num (to_numeric str_to_float c)
                                  else Num (Fin 1))
                        (col_values col0) |}
  /\ (forall a, In a avisos ->
        a <> AvisoFactorAusente)
  /\ list_sum (List.map (fun a => match a with
                                  | AvisoNoValidos n => n
                                  | AvisoNoPositivos n => n
                                  | AvisoFactorAusente => 0%nat
                                  end) avisos)
     = List.length (List.filter (fun c => negb (valido c)) (col_values col0))
  /\ (avisos = [] <-> Forall (fun c => valido c = true) (col_values col0)).
Proof.
  intros df' avisos valido. subst df' avisos.
  rewrite (validar_factor_presente str_to_float _ _ Hcol). cbn [fst snd].
  set (v0 := List.map (to_numeric str_to_float) (col_values col0)).
  assert (Hsum : (List.length (List.filter Fl.is_nan v0)
                  + List.length (List.filter (fun x => Fl.leb x (Fin 0)) v0)
                  = List.length (List.filter (fun c => negb (valido c))
                                             (col_values col0)))%nat).
  { rewrite filter_nulos_invalidos. subst v0. clear.
    induction (col_values col0) as [|c l IH]; [reflexivity|].
    cbn [List.map List.filter]. unfold valido at 1.
    destruct (negb _); cbn [List.length]; rewrite IH; reflexivity. }
  split; [reflexivity|]. split.
  { assert (Hhas : Pd.has_column df FACTOR_DE_EXPANSION = true)
      by (apply has_column_get; eauto).
    unfold Pd.set_column. rewrite Hhas. cbn [columns].
    rewrite List.map_map. apply List.map_ext. intros c.
    destruct (String.eqb (col_name c) FACTOR_DE_EXPANSION) eqn:Hc; [|reflexivity].
    apply String.eqb_eq in Hc. rewrite Hc. reflexivity. }
  split; [intros other Hne; apply get_set_column_other, Hne|].
  split.
  { rewrite get_set_column. f_equal. f_equal. subst v0.
    rewrite !List.map_map. apply List.map_ext. intros c. unfold valido.
    destruct (Fl.ltb (Fin 0) (to_numeric str_to_float c)) eqn:Hv.
    - rewrite reparar_valido by exact Hv. reflexivity.
    - rewrite reparar_cambia by exact Hv. reflexivity. }
  split.
  { intros a Ha. apply List.in_app_or in Ha.
    destruct (0 <? List.length (List.filter Fl.is_nan v0))%nat;
      destruct (0 <? List.length (List.filter (fun x => Fl.leb x (Fin 0)) v0))%nat;
      cbn in Ha; intuition (subst; discriminate). }
  split.
  { rewrite <- Hsum.
    destruct (List.length (List.filter Fl.is_nan v0)) as [|a];
      destruct (List.length (List.filter (fun x => Fl.leb x (Fin 0)) v0)) as [|b];
      cbn; lia. }
  rewrite List.Forall_forall. split.
  - intros Hnil c Hc. destruct (valido c) eqn:Hv; [reflexivity|]. exfalso.
    assert (Hpos : (0 < List.length (List.filter (fun c => negb (valido c))
                                                 (col_values col0)))%nat).
    { assert (Hin : In c (List.filter (fun c => negb (valido c)) (col_values col0))).
      { apply List.filter_In. split; [exact Hc | rewrite Hv; reflexivity]. }
      destruct (List.filter _ (col_values col0)); [destruct Hin | cbn; lia]. }
    rewrite <- Hsum in Hpos.
    destruct (List.length (List.filter Fl.is_nan v0)) as [|a];
      destruct (List.length (List.filter (fun x => Fl.leb x (Fin 0)) v0)) as [|b];
      cbn in Hnil; try discriminate Hnil. lia.
  - intros Hall.
    assert (Hz : List.length (List.filter (fun c => negb (valido c))
                                          (col_values col0)) = 0%nat).
    { rewrite filter_none; [reflexivity|]. intros c Hc.
      rewrite (Hall c Hc). reflexivity. }
    rewrite <- Hsum in Hz.
    destruct (List.length (List.filter Fl.is_nan v0)) as [|a];
      destruct (List.length (List.filter (fun x => Fl.leb x (Fin 0)) v0)) as [|b];
      try lia. reflexivity.
Qed.

Lemma validar_factor_conserva_witness :
  Pd.get_column (fst (validar_factor_expansion parse_inf df_factor_inf))
                FACTOR_DE_EXPANSION
  = Ok {| col_name := FACTOR_DE_EXPANSION; col_dtype := DNumeric;
          col_values := [Num (Fin 2); Num PInf] |}.
Proof.
  destruct (validar_factor_conserva parse_inf df_factor_inf
              {| col_name := "FACTOR DE EXPANSION"; col_dtype := DObject;
                 col_values := [Num (Fin 2); Str "inf"] |} eq_refl)
    as (_ & _ & _ & H & _).
  rewrite H. reflexivity.
Defined.

(** ** Missing-value report: the three classes *)

Lemma permutation_filter {A : Type} (f : A -> bool) (l l' : list A) :
  Permutation l l' -> Permutation (List.filter f l) (List.filter f l').
Proof.
  induction 1 as [|x l l' _ IH|x y l|l l' l'' _ IH1 _ IH2].
  - constructor.
  - cbn. destruct (f x); [constructor|]; exact IH.
  - cbn. destruct (f x), (f y); try reflexivity. constructor.
  - etransitivity; eassumption.
Qed.

Lemma filter_filter {A : Type} (f g : A -> bool) (l : list A) :
  List.filter f (List.filter g l) = List.filter (fun x => g x && f x) l.
Proof.
  induction l as [|x l IH]; [reflexivity|]. cbn [List.filter].
  destruct (g x); cbn [List.filter andb]; [destruct (f x)|]; rewrite IH; reflexivity.
Qed.

Lemma insert_desc_perm (key : Column -> float) (c : Column) (l : list Column) :
  Permutation (insert_desc key c l) (c :: l).
Proof.
  induction l as [|d r IH]; [reflexivity|]. cbn [insert_desc].
  destruct (Fl.leb (key d) (key c)); [reflexivity|].
  rewrite IH. constructor.
Qed.

Lemma sort_desc_perm (key : Column -> float) (l : list Column) :
  Permutation (sort_desc key l) l.
Proof.
  induction l as [|c l IH]; [reflexivity|]. unfold sort_desc in *.
  cbn [fold_right]. rewrite insert_desc_perm. constructor. exact IH.
Qed.

(** how a percentage falls into the classes *)
Lemma clase_unica (p : float) :
  Fl.gtb p (Fin 0) = true ->
  (Fl.gtb p (Fin 50) = true
   /\ Fl.gtb p (Fin 20) && Fl.leb p (Fin 50) = false
   /\ Fl.leb p (Fin 20) = false)
  \/ (Fl.gtb p (Fin 50) = false
      /\ Fl.gtb p (Fin 20) && Fl.leb p (Fin 50) = true
      /\ Fl.leb p (Fin 20) = false)
  \/ (Fl.gtb p (Fin 50) = false
      /\ Fl.gtb p (Fin 20) && Fl.leb p (Fin 50) = false
      /\ Fl.leb p (Fin 20) = true).
Proof.
  unfold Fl.gtb. destruct p as [| |q|]; cbn; try discriminate; auto.
  intros _.
  destruct (Fl.Qltb 50 q) eqn:H50, (Fl.Qltb 20 q) eqn:H20,
           (Qle_bool q 50) eqn:L50, (Qle_bool q 20) eqn:L20; cbn; auto;
    exfalso;
    repeat match goal with
           | H : Fl.Qltb _ _ = true |- _ => apply Qltb_lt in H
           | H : Fl.Qltb _ _ = false |- _ => apply Qltb_ge in H
           | H : Qle_bool _ _ = true |- _ => apply Qle_bool_iff in H
           | H : Qle_bool _ _ = false |- _ =>
               apply not_true_iff_false in H; rewrite Qle_bool_iff in H
           end; lra.
Qed.

Lemma gtb_50_0 (p : float) : Fl.gtb p (Fin 50) = true -> Fl.gtb p (Fin 0) = true.
Proof.
  unfold Fl.gtb. destruct p as [| |q|]; cbn; try discriminate; auto.
  intros H. apply Qltb_lt in H. apply Qltb_lt. lra.
Qed.

Lemma porcentaje_positivo (df : DataFrame) (c : Column) :
  Fl.gtb (porcentaje_na df c) (Fin 0) = (0 <? Pd.count_na (col_values c))%nat.
Proof.
  change (Fin 0) with (Fl.mul (Fin 0) (Fin 100)) at 1.
  rewrite porcentaje_gtb. apply fraccion_gtb_0.
Qed.

(** X6: the missing-value report, for any sort that only reorders the rows.
    The filtered report lists exactly the columns that have a missing
    value; each of them falls into exactly one of the classes critical
    (above 50), moderate (above 20, at most 50) and light (at most 20), so
    the three counts shown add up to the number of listed columns; and the
    critical columns are the columns that the cleaning stage drops with the
    slider at 50. *)
Theorem clases_faltantes
  (sort_values : (Column -> float) -> list Column -> list Column)
  (Hperm : forall key l, Permutation (sort_values key l) l)
  (df : DataFrame) :
  let filtradas := missing_data_filtered sort_values df in
  let cri := criticas sort_values df in
  let mdr := moderadas sort_values df in
  let lev := leves sort_values df in
  (forall c, In c filtradas
             <-> In c (columns df) /\ (0 < Pd.count_na (col_values c))%nat)
  /\ (forall c, In c filtradas ->
        (In c cri /\ ~ In c mdr /\ ~ In c lev)
        \/ (~ In c cri /\ In c mdr /\ ~ In c lev)
        \/ (~ In c cri /\ ~ In c mdr /\ In c lev))
  /\ (List.length cri + List.length mdr + List.length lev
      = List.length filtradas)%nat
  /\ Permutation
       (List.map col_name cri)
       (columnas_eliminadas
          (snd (limpiar_datos_categoricos df (Fl.div (Fin 50) (Fin 100))))).
Proof.
  intros filtradas cri mdr lev. subst filtradas cri mdr lev.
  unfold criticas, moderadas, leves.
  set (filtradas := missing_data_filtered sort_values df).
  assert (Hin : forall c, In c filtradas
                          <-> In c (columns df)
                              /\ (0 < Pd.count_na (col_values c))%nat).
  { intros c. subst filtradas. unfold missing_data_filtered, missing_data.
    rewrite List.filter_In, porcentaje_positivo, Nat.ltb_lt.
    split; intros [H1 H2]; (split; [|exact H2]).
    - eapply Permutation_in; [apply Hperm | exact H1].
    - eapply Permutation_in; [symmetry; apply Hperm | exact H1]. }
  assert (Hpos : forall c, In c filtradas ->
                           Fl.gtb (porcentaje_na df c) (Fin 0) = true).
  { intros c Hc. subst filtradas. unfold missing_data_filtered in Hc.
    apply List.filter_In in Hc. apply Hc. }
  split; [exact Hin|]. split; [|split].
  - intros c Hc. rewrite !List.filter_In.
    destruct (clase_unica _ (Hpos c Hc)) as [(H1 & H2 & H3)|[(H1 & H2 & H3)|(H1 & H2 & H3)]];
      rewrite H1, H2, H3; [left | right; left | right; right];
      repeat split; auto; intros [_ H]; discriminate H.
  - clear Hin. induction filtradas as [|c l IH]; [reflexivity|].
    cbn [List.filter].
    assert (Hl : forall c, In c l -> Fl.gtb (porcentaje_na df c) (Fin 0) = true).
    { intros d Hd. apply Hpos. right. exact Hd. }
    specialize (IH Hl).
    destruct (clase_unica _ (Hpos c (or_introl eq_refl)))
      as [(H1 & H2 & H3)|[(H1 & H2 & H3)|(H1 & H2 & H3)]];
      rewrite H1, H2, H3; cbn [List.length]; lia.
  - rewrite limpiar_eliminadas. unfold columnas_a_eliminar.
    apply Permutation_map. subst filtradas.
    unfold missing_data_filtered, missing_data. rewrite filter_filter.
    change (Fl.mul (Fl.div (Fin 50) (Fin 100)) (Fin 100)) with (Fin 50).
    transitivity (List.filter
                    (fun c => Fl.gtb (porcentaje_na df c) (Fin 0)
                              && Fl.gtb (porcentaje_na df c) (Fin 50))
                    (columns df)).
    + apply permutation_filter, Hperm.
    + erewrite List.filter_ext; [reflexivity|]. intros c. cbv beta.
      destruct (Fl.gtb (porcentaje_na df c) (Fin 50)) eqn:H50.
      * rewrite (gtb_50_0 _ H50). reflexivity.
      * apply andb_false_r.
Qed.

Lemma clases_faltantes_witness :
  List.map col_name (criticas sort_desc df_orden) = ["B"]
  /\ List.map col_name (moderadas sort_desc df_orden) = ["A"; "C"]
  /\ (List.length (criticas sort_desc df_orden)
      + List.length (moderadas sort_desc df_orden)
      + List.length (leves sort_desc df_orden)
      = List.length (missing_data_filtered sort_desc df_orden))%nat.
Proof.
  split; [vm_compute; reflexivity|]. split; [vm_compute; reflexivity|].
  apply (clases_faltantes sort_desc sort_desc_perm df_orden).
Defined.

(** ** Duplicates *)

Lemma count_true_map_le {A : Type} (g h : A -> bool) (l : list A) :
  (forall x, In x l -> g x = true -> h x = true) ->
  (Pd.count_true (List.map g l) <= Pd.count_true (List.map h l))%nat.
Proof.
  unfold Pd.count_true. induction l as [|x l IH]; intros H; [reflexivity|].
  cbn [List.map List.filter].
  assert (IH' := IH (fun y Hy => H y (or_intror Hy))).
  pose proof (H x (or_introl eq_refl)) as Hx.
  destruct (g x); [rewrite Hx by reflexivity; cbn [List.length]; lia|].
  destruct (h x); cbn [List.length]; lia.
Qed.

Lemma count_true_le {A : Type} (g : A -> bool) (l : list A) :
  (Pd.count_true (List.map g l) <= List.length l)%nat.
Proof.
  unfold Pd.count_true. induction l as [|x l IH]; [reflexivity|].
  cbn [List.map List.filter]. destruct (g x); cbn [List.length]; lia.
Qed.

(** the marks of [duplicated] over the columns [cols] *)
Lemma marcas_primera (cols : list Column) (n : nat) :
  (Pd.count_true
     (List.map (fun i => existsb (fun j => fila_igual (fila cols j) (fila cols i))
                                 (seq 0 i))
               (seq 0 n))
   <= Nat.pred n)%nat.
Proof.
  destruct n as [|n]; [reflexivity|].
  cbn [seq List.map existsb Nat.pred]. unfold Pd.count_true.
  cbn [List.filter].
  pose proof (count_true_le
                (fun i => existsb (fun j => fila_igual (fila cols j) (fila cols i))
                                  (seq 0 i))
                (seq 1 n)) as H.
  unfold Pd.count_true in H. rewrite List.length_seq in H. exact H.
Qed.

Lemma fila_igual_filter (f : Column -> bool) (cols : list Column) (i j : nat) :
  fila_igual (fila cols j) (fila cols i) = true ->
  fila_igual (fila (List.filter f cols) j) (fila (List.filter f cols) i) = true.
Proof.
  induction cols as [|c cols IH]; [auto|].
  cbn [fila List.map fila_igual List.filter]. intros H.
  apply andb_true_iff in H. destruct H as [Hc H].
  destruct (f c); [|apply IH, H].
  cbn [fila List.map fila_igual]. rewrite Hc. apply IH, H.
Qed.

Lemma forallb_filter_id {A : Type} (f : A -> bool) (l : list A) :
  forallb f (List.filter f l) = true.
Proof.
  apply List.forallb_forall. intros x Hx. apply List.filter_In in Hx. apply Hx.
Qed.

(** X7: [analizar_duplicados] never raises, and its counts are consistent.
    Neither count reaches the number of rows (the first row is never a
    duplicate), so removing the complete duplicates leaves a row on a table
    that has one; a frame with no column has no duplicate; with two or more
    key variables found a complete duplicate is also a partial one; with
    fewer the partial count stays 0 and one recommendation is given instead
    of two; every key variable found is a column of the table; and the
    recommendation "no complete duplicates" is given exactly when the count
    of complete duplicates is 0. *)
Theorem analizar_duplicados_cuentas (df : DataFrame) :
  exists info,
    analizar_duplicados df = Ok info
    /\ (duplicados_completos info <= Nat.pred (nrows df))%nat
    /\ (duplicados_parciales info <= Nat.pred (nrows df))%nat
    /\ (columns df = [] -> duplicados_completos info = 0%nat)
    /\ (forall k, In k (variables_clave_encontradas info)
                  <-> In k variables_clave_posibles /\ Pd.has_column df k = true)
    /\ ((2 <= List.length (variables_clave_encontradas info))%nat ->
        (duplicados_completos info <= duplicados_parciales info)%nat
        /\ List.length (recomendaciones info) = 2%nat)
    /\ ((List.length (variables_clave_encontradas info) < 2)%nat ->
        duplicados_parciales info = 0%nat
        /\ List.length (recomendaciones info) = 1%nat)
    /\ (In RecSinCompletos (recomendaciones info)
        <-> duplicados_completos info = 0%nat).
Proof.
  unfold analizar_duplicados, duplicated.
  set (claves := List.filter (Pd.has_column df) variables_clave_posibles).
  assert (Hclaves : forallb (Pd.has_column df) claves = true)
    by apply forallb_filter_id.
  assert (Hin : forall k, In k claves
                          <-> In k variables_clave_posibles
                              /\ Pd.has_column df k = true).
  { intros k. apply List.filter_In. }
  assert (Hrec1 : forall n : nat,
             In RecSinCompletos
                (if (0 <? n)%nat then [RecCritico n (porcentaje_duplicados df n)]
                 else [RecSinCompletos])
             <-> n = 0%nat).
  { intros [|n]; cbn; [intuition auto | intuition (try discriminate; try lia)]. }
  assert (Hrec2 : forall (n : nat) (r2 : list recomendacion),
             ~ In RecSinCompletos r2 ->
             In RecSinCompletos
                ((if (0 <? n)%nat then [RecCritico n (porcentaje_duplicados df n)]
                  else [RecSinCompletos]) ++ r2)%list
             <-> n = 0%nat).
  { intros n r2 Hr2. rewrite List.in_app_iff, Hrec1. intuition auto. }
  destruct (Nat.eqb (nrows df) 0 || Nat.eqb (List.length (columns df)) 0) eqn:Hempty.
  - (* an empty frame *)
    destruct (2 <=? List.length claves)%nat eqn:H2.
    + apply Nat.leb_le in H2. eexists. split; [reflexivity|].
      cbn [duplicados_completos duplicados_parciales variables_clave_encontradas
           recomendaciones Pd.count_true List.filter List.length].
      change (0 <? 0)%nat with false. cbv iota.
      split; [lia|]. split; [lia|]. split; [intros _; reflexivity|].
      split; [exact Hin|]. split; [intros _; split; [lia | reflexivity]|].
      split; [intros Hlt; lia|].
      cbn. intuition auto.
    + apply Nat.leb_gt in H2. eexists. split; [reflexivity|].
      cbn [duplicados_completos duplicados_parciales variables_clave_encontradas
           recomendaciones Pd.count_true List.filter List.length].
      change (0 <? 0)%nat with false. cbv iota.
      split; [lia|]. split; [lia|]. split; [intros _; reflexivity|].
      split; [exact Hin|]. split; [intros Hge; lia|].
      split; [intros _; split; reflexivity|].
      cbn. intuition auto.
  - cbn [bind]. rewrite Hclaves.
    set (completos :=
           List.map (fun i => existsb (fun j => fila_igual (fila (columns df) j)
                                                           (fila (columns df) i))
                                      (seq 0 i))
                    (seq 0 (nrows df))).
    assert (Hcols : columns df <> []).
    { intros Hnil. rewrite Hnil in Hempty. cbn in Hempty.
      rewrite orb_true_r in Hempty. discriminate. }
    assert (Hc : (Pd.count_true completos <= Nat.pred (nrows df))%nat)
      by apply marcas_primera.
    destruct (2 <=? List.length claves)%nat eqn:H2.
    + apply Nat.leb_le in H2. cbn [bind].
      set (parciales := List.map _ (seq 0 (nrows df))).
      assert (Hp : (Pd.count_true parciales <= Nat.pred (nrows df))%nat)
        by apply marcas_primera.
      assert (Hcp : (Pd.count_true completos <= Pd.count_true parciales)%nat).
      { apply count_true_map_le. intros i _ Hi.
        apply List.existsb_exists in Hi. destruct Hi as [j [Hj Hij]].
        apply List.existsb_exists. exists j. split; [exact Hj|].
        apply fila_igual_filter, Hij. }
      eexists. split; [reflexivity|].
      cbn [duplicados_completos duplicados_parciales variables_clave_encontradas
           recomendaciones].
      split; [exact Hc|]. split; [exact Hp|].
      split; [intros Hnil; contradiction|]. split; [exact Hin|].
      split; [|split].
      * intros _. split; [exact Hcp|]. rewrite List.length_app.
        destruct (0 <? Pd.count_true completos)%nat,
                 (0 <? Pd.count_true parciales)%nat;
          try destruct (Fl.gtb _ _); reflexivity.
      * intros Hlt. lia.
      * apply Hrec2.
        destruct (0 <? Pd.count_true parciales)%nat;
          try destruct (Fl.gtb _ _); cbn; intuition discriminate.
    + apply Nat.leb_gt in H2. eexists. split; [reflexivity|].
      cbn [duplicados_completos duplicados_parciales variables_clave_encontradas
           recomendaciones].
      split; [exact Hc|]. split; [lia|].
      split; [intros Hnil; contradiction|]. split; [exact Hin|].
      split; [intros Hge; lia|]. split; [|apply Hrec1].
      intros _. split; [reflexivity|].
      destruct (0 <? Pd.count_true completos)%nat; reflexivity.
Qed.

Lemma analizar_duplicados_cuentas_witness :
  exists info,
    analizar_duplicados df_duplicados = Ok info
    /\ (duplicados_completos info <= duplicados_parciales info)%nat
    /\ List.length (recomendaciones info) = 2%nat.
Proof.
  destruct (analizar_duplicados_cuentas df_duplicados)
    as [info (Hinfo & _ & _ & _ & _ & H2 & _)].
  exists info. split; [exact Hinfo|]. apply H2.
  vm_compute in Hinfo. injection Hinfo as <-. cbn. lia.
Defined.

(** the report on three rows with ages and sexes alike: one complete and
    two partial duplicates *)
Lemma analizar_duplicados_ejemplo :
  analizar_duplicados df_duplicados
  = Ok {| duplicados_completos := 1;
          duplicados_parciales := 2;
          variables_clave_encontradas := ["EDAD"; "SEXO"];
          recomendaciones :=
            [RecCritico 1 (Fin (100 # 3)); RecAtencion 2 (Fin (200 # 3))] |}.
Proof. vm_compute. reflexivity. Qed.

(** ** Weighted figures of the pages *)

Lemma mask_filter_ninguna {A : Type} (mask : list bool) (l : list A) :
  Pd.count_true mask = 0%nat -> Pd.mask_filter mask l = [].
Proof.
  unfold Pd.count_true. revert l.
  induction mask as [|b mask IH]; intros [|x l] H; try reflexivity.
  destruct b; [discriminate H|]. cbn [Pd.mask_filter]. apply IH, H.
Qed.

Lemma producto_indicador_nil (value : string) (valores : list cell) :
  producto_indicador value valores [] = [].
Proof. destruct valores; reflexivity. Qed.

(** X9: the reading rate of the summary page against [weighted_percentage],
    on a well-formed table with the two columns and numeric weights.  When
    some row answers SI or NO the reading rate is 100 times the weighted
    rate.  When no row does, [weighted_percentage] returns 0 by its guard,
    but the page, which has no such guard, divides 0 by 0 and shows NaN. *)
Theorem reading_rate_sin_guarda (df : DataFrame) (col factor : Column)
  (pesos : list float)
  (Hwf : wf_df df)
  (Hcol : Pd.get_column df LECTURA_LIBROS = Ok col)
  (Hfactor : Pd.get_column df FACTOR_DE_EXPANSION = Ok factor)
  (Hnum : col_values factor = List.map Num pesos) :
  let elegible := List.map (Pd.isin ["SI"; "NO"]) (col_values col) in
  (Pd.count_true elegible <> 0%nat ->
   exists p, weighted_percentage df LECTURA_LIBROS "SI" = Ok p
             /\ reading_rate df = Ok (Fl.mul p (Fin 100)))
  /\ (Pd.count_true elegible = 0%nat ->
      weighted_percentage df LECTURA_LIBROS "SI" = Ok (Fin 0)
      /\ reading_rate df = Ok NaN).
Proof.
  intros elegible.
  pose proof (wf_length df _ _ Hwf Hcol) as Hlc.
  assert (Hn : nrows (Pd.loc_rows elegible df) = Pd.count_true elegible).
  { unfold Pd.loc_rows. cbn [nrows]. f_equal.
    apply List.firstn_all2. unfold elegible. rewrite List.length_map. lia. }
  unfold weighted_percentage, reading_rate. rewrite Hcol. cbn [bind].
  fold elegible. rewrite Hn, !get_column_loc_rows, Hcol, Hfactor.
  cbn [bind col_values]. rewrite Hnum, mask_filter_map, as_floats_map_Num.
  cbn [bind]. split.
  - intros Hne. apply Nat.eqb_neq in Hne. rewrite Hne.
    eexists. split; reflexivity.
  - intros Hz. rewrite Hz. split; [reflexivity|].
    rewrite (mask_filter_ninguna elegible pesos Hz), producto_indicador_nil.
    reflexivity.
Qed.

Lemma reading_rate_sin_guarda_witness :
  weighted_percentage (df_actividad [Str "NS"] [Num (Fin 1)]) LECTURA_LIBROS "SI"
  = Ok (Fin 0)
  /\ reading_rate (df_actividad [Str "NS"] [Num (Fin 1)]) = Ok NaN.
Proof.
  apply (reading_rate_sin_guarda
           (df_actividad [Str "NS"] [Num (Fin 1)])
           {| col_name := "LECTURA LIBROS"; col_dtype := DObject;
              col_values := [Str "NS"] |}
           {| col_name := "FACTOR DE EXPANSION"; col_dtype := DNumeric;
              col_values := [Num (Fin 1)] |}
           [Fin 1]).
  - repeat constructor.
  - reflexivity.
  - reflexivity.
  - reflexivity.
  - reflexivity.
Defined.

Lemma qsum_cons (q : Q) (l : list float) : qsum (Fin q :: l) = q + qsum l.
Proof. reflexivity. Qed.

Lemma fold_add_fin (l : list float) :
  Forall (fun w => Fl.is_finite w = true) l ->
  forall a, exists b, fold_left Fl.add l (Fin a) = Fin b /\ b == a + qsum l.
Proof.
  induction 1 as [|w l Hw _ IH]; intros a.
  - exists a. split; [reflexivity | cbn; ring].
  - destruct w as [| |q|]; try discriminate Hw. cbn [fold_left Fl.add].
    destruct (IH (Qred (a + q))) as [b [Hb Hq]]. exists b.
    split; [exact Hb|]. rewrite Hq, Qred_correct, qsum_cons. ring.
Qed.

Lemma filter_notnan_fin (l : list float) :
  Forall (fun w => Fl.is_finite w = true) l ->
  List.filter (fun x => negb (Fl.is_nan x)) l = l.
Proof.
  induction 1 as [|w l Hw _ IH]; [reflexivity|].
  cbn [List.filter]. destruct w; try discriminate Hw. cbn. rewrite IH. reflexivity.
Qed.

Lemma sum_fin (l : list float) :
  Forall (fun w => Fl.is_finite w = true) l ->
  exists b, Pd.sum l = Fin b /\ b == qsum l /\ Fl.sum l = Fin b.
Proof.
  intros Hl. unfold Pd.sum. rewrite filter_notnan_fin by exact Hl.
  unfold Fl.sum. destruct (fold_add_fin l Hl 0) as [b [Hb Hq]].
  exists b. split; [exact Hb|]. split; [rewrite Hq; ring | exact Hb].
Qed.

Lemma qsum_mask (mask : list bool) (l : list float) :
  Forall (fun w => exists q, w = Fin q /\ 0 <= q) l ->
  0 <= qsum (Pd.mask_filter mask l) /\ qsum (Pd.mask_filter mask l) <= qsum l.
Proof.
  intros Hl. revert mask. induction Hl as [|w l [q [-> Hq]] _ IH]; intros mask.
  - rewrite mask_filter_nil. cbn. lra.
  - assert (Hl0 : 0 <= qsum l).
    { destruct (IH []) as [_ H1]. exact H1. }
    destruct mask as [|b mask]; cbn [Pd.mask_filter].
    + rewrite qsum_cons. change (qsum []) with 0. split; lra.
    + destruct (IH mask) as [H0 H1].
      destruct b; rewrite ?qsum_cons; split; lra.
Qed.

Lemma no_negativos_finitos (l : list float) :
  Forall (fun w => exists q, w = Fin q /\ 0 <= q) l ->
  Forall (fun w => Fl.is_finite w = true) l.
Proof.
  apply List.Forall_impl. intros w [q [-> _]]. reflexivity.
Qed.

Lemma add_no_negativo (x y : float) :
  Fl.ltb x (Fin 0) = false /\ Fl.is_nan x = false ->
  Fl.ltb y (Fin 0) = false /\ Fl.is_nan y = false ->
  Fl.ltb (Fl.add x y) (Fin 0) = false /\ Fl.is_nan (Fl.add x y) = false.
Proof.
  destruct x as [| |a|], y as [| |b|]; cbn; intros [H1 H2] [H3 H4];
    try discriminate; try (split; reflexivity).
  split; [|reflexivity]. apply Qltb_ge in H1, H3. apply Qltb_ge.
  rewrite Qred_correct. lra.
Qed.

Lemma sum_no_negativa (l : list float) :
  Forall (fun w => Fl.ltb w (Fin 0) = false) l ->
  Fl.ltb (Pd.sum l) (Fin 0) = false /\ Fl.is_nan (Pd.sum l) = false.
Proof.
  intros Hl. unfold Pd.sum, Fl.sum.
  assert (H : forall acc,
             Fl.ltb acc (Fin 0) = false /\ Fl.is_nan acc = false ->
             Fl.ltb (fold_left Fl.add
                       (List.filter (fun x => negb (Fl.is_nan x)) l) acc)
                    (Fin 0) = false
             /\ Fl.is_nan (fold_left Fl.add
                             (List.filter (fun x => negb (Fl.is_nan x)) l) acc)
                = false).
  { induction Hl as [|w l Hw _ IH]; intros acc Hacc; [exact Hacc|].
    cbn [List.filter]. destruct (Fl.is_nan w) eqn:Hn; cbn [negb];
      [apply IH, Hacc|].
    cbn [fold_left]. apply IH, add_no_negativo; auto. }
  apply H. split; reflexivity.
Qed.

(** the rate of the pages, from the two sums *)
Lemma tasa_no_negativa (yes total : float) :
  Fl.ltb yes (Fin 0) = false /\ Fl.is_nan yes = false ->
  Fl.ltb total (Fin 0) = false /\ Fl.is_nan total = false ->
  Fl.ltb (if Fl.gtb total (Fin 0)
          then Fl.mul (Fl.div yes total) (Fin 100) else Fin 0)
         (Fin 0) = false.
Proof.
  unfold Fl.gtb.
  destruct yes as [| |a|], total as [| |t|]; cbn; intros [H1 H2] [H3 H4];
    try discriminate; try reflexivity.
  - destruct (Fl.Qltb 0 t) eqn:Ht; [|reflexivity].
    apply Qltb_lt in Ht. apply Qltb_ge in H1.
    assert (Hne : Qeq_bool t 0 = false).
    { apply Qeqb_false. intros E. rewrite E in Ht. apply (Qlt_irrefl 0), Ht. }
    rewrite Hne. cbn. apply Qltb_ge. rewrite !Qred_correct.
    assert (0 <= a / t) by (apply Qle_shift_div_l; lra). lra.
  - destruct (Fl.Qltb 0 t) eqn:Ht; [|reflexivity].
    apply Qltb_lt in Ht.
    assert (Fl.Qltb t 0 = false) as -> by (apply Qltb_ge; lra).
    reflexivity.
Qed.

Lemma tasa_sin_si (total : float) :
  (if Fl.gtb total (Fin 0)
   then Fl.mul (Fl.div (Fin 0) total) (Fin 100) else Fin 0) = Fin 0.
Proof.
  unfold Fl.gtb. destruct total as [| |t|]; try reflexivity.
  cbn [Fl.ltb]. destruct (Fl.Qltb 0 t) eqn:Ht; [|reflexivity].
  apply Qltb_lt in Ht.
  assert (Hne : Qeq_bool t 0 = false).
  { apply Qeqb_false. intros E. rewrite E in Ht. apply (Qlt_irrefl 0), Ht. }
  cbn [Fl.div]. rewrite Hne. reflexivity.
Qed.

Lemma tasa_signo (df : DataFrame) (activity_col : string)
  (col factor : Column) (pesos : list float) :
  Pd.get_column df activity_col = Ok col ->
  Pd.get_column df FACTOR_DE_EXPANSION = Ok factor ->
  col_values factor = List.map Num pesos ->
  Forall (fun w => Fl.ltb w (Fin 0) = false) pesos ->
  exists r,
    tasa_ponderada df activity_col = Ok r
    /\ Fl.ltb r (Fin 0) = false
    /\ (Fl.gtb (Pd.sum pesos) (Fin 0) = false -> r = Fin 0)
    /\ (Forall (fun c => Pd.cell_is "SI" c = false) (col_values col) ->
        r = Fin 0).
Proof.
  intros Hcol Hfactor Hnum Hpesos.
  set (si := List.map (Pd.cell_is "SI") (col_values col)).
  unfold tasa_ponderada. rewrite Hcol. cbn [bind]. fold si.
  rewrite get_column_loc_rows, Hfactor. cbn [bind col_values].
  rewrite Hnum, mask_filter_map, !as_floats_map_Num. cbn [bind].
  eexists. split; [reflexivity|]. split; [|split].
  - apply tasa_no_negativa; apply sum_no_negativa;
      [apply mask_filter_Forall|]; exact Hpesos.
  - intros Hgt. rewrite Hgt. reflexivity.
  - intros Hno.
    assert (Hz : Pd.count_true si = 0%nat).
    { unfold Pd.count_true, si. rewrite filter_none; [reflexivity|].
      intros b Hb. apply List.in_map_iff in Hb. destruct Hb as [c [<- Hc]].
      rewrite List.Forall_forall in Hno. apply Hno, Hc. }
    rewrite (mask_filter_ninguna si pesos Hz).
    change (Pd.sum []) with (Fin 0). apply tasa_sin_si.
Qed.

Lemma pct_signo (df : DataFrame) (activity_col : string)
  (col factor : Column) (pesos : list float) (grupo : string) (g : Column)
  (valor : cell) :
  Pd.get_column df activity_col = Ok col ->
  Pd.get_column df FACTOR_DE_EXPANSION = Ok factor ->
  col_values factor = List.map Num pesos ->
  Forall (fun w => Fl.ltb w (Fin 0) = false) pesos ->
  Pd.get_column df grupo = Ok g ->
  exists r, participation_pct df grupo valor activity_col = Ok r
            /\ Fl.ltb r (Fin 0) = false.
Proof.
  intros Hcol Hfactor Hnum Hpesos Hg.
  unfold participation_pct. rewrite Hg. cbn [bind].
  set (mask := List.map (cell_eqb valor) (col_values g)).
  destruct (tasa_signo (Pd.loc_rows mask df) activity_col
              {| col_name := col_name col; col_dtype := col_dtype col;
                 col_values := Pd.mask_filter mask (col_values col) |}
              {| col_name := col_name factor; col_dtype := col_dtype factor;
                 col_values := Pd.mask_filter mask (col_values factor) |}
              (Pd.mask_filter mask pesos))
    as [r (Hr & H0 & _)].
  - rewrite get_column_loc_rows, Hcol. reflexivity.
  - rewrite get_column_loc_rows, Hfactor. reflexivity.
  - cbn [col_values]. rewrite Hnum. apply mask_filter_map.
  - apply mask_filter_Forall, Hpesos.
  - exists r. auto.
Qed.

(** X10: the weighted share of SI answers that the pages show, on a table
    with numeric weights none of which is below 0 (a weight may be missing
    or infinite).  For the whole table and for the rows of any one group
    the computation does not raise and the share is never below 0; for the
    whole table it is 0 when the total weight is not above 0 (nothing is
    divided then) and when no row answers SI. *)
Theorem tasa_ponderada_signo (df : DataFrame) (activity_col : string)
  (col factor : Column) (pesos : list float)
  (Hcol : Pd.get_column df activity_col = Ok col)
  (Hfactor : Pd.get_column df FACTOR_DE_EXPANSION = Ok factor)
  (Hnum : col_values factor = List.map Num pesos)
  (Hpesos : Forall (fun w => Fl.ltb w (Fin 0) = false) pesos) :
  (exists r,
     tasa_ponderada df activity_col = Ok r
     /\ participation_rate df activity_col = Ok r
     /\ Fl.ltb r (Fin 0) = false
     /\ (Fl.gtb (Pd.sum pesos) (Fin 0) = false -> r = Fin 0)
     /\ (Forall (fun c => Pd.cell_is "SI" c = false) (col_values col) ->
         r = Fin 0))
  /\ (forall grupo g valor,
        Pd.get_column df grupo = Ok g ->
        exists r, participation_pct df grupo valor activity_col = Ok r
                  /\ Fl.ltb r (Fin 0) = false).
Proof.
  split.
  - destruct (tasa_signo df activity_col col factor pesos Hcol Hfactor Hnum Hpesos)
      as [r (Hr & H)].
    exists r. split; [exact Hr|]. split; [|exact H].
    unfold participation_rate.
    assert (Pd.has_column df FACTOR_DE_EXPANSION = true) as ->
      by (apply has_column_get; eauto).
    exact Hr.
  - intros grupo g valor Hg.
    apply (pct_signo df activity_col col factor pesos grupo g valor); assumption.
Qed.

Lemma tasa_ponderada_signo_witness :
  exists r, tasa_ponderada df_tres LECTURA_LIBROS = Ok r
            /\ Fl.ltb r (Fin 0) = false.
Proof.
  destruct (tasa_ponderada_signo df_tres LECTURA_LIBROS
              {| col_name := "LECTURA LIBROS"; col_dtype := DObject;
                 col_values := [Str "SI"; Str "SÍ"; Str "NO"] |}
              {| col_name := "FACTOR DE EXPANSION"; col_dtype := DNumeric;
                 col_values := [Num (Fin 2); Num (Fin 5); Num (Fin 3)] |}
              [Fin 2; Fin 5; Fin 3] eq_refl eq_refl eq_refl)
    as [[r (Hr & _ & H0 & _)] _].
  - repeat constructor.
  - exists r. auto.
Defined.

(** the share on the table with the answers SI, SÍ and NO of weights 2, 5
    and 3: only the plain SI counts, over the weight of all three rows *)
Lemma tasa_ponderada_ejemplo :
  tasa_ponderada df_tres LECTURA_LIBROS = Ok (Fin 20)
  /\ weighted_percentage df_tres LECTURA_LIBROS "SI" = Ok (Fin (2 # 5)).
Proof. split; vm_compute; reflexivity. Qed.

Lemma multiply_elegibles (a w : list float) :
  Forall (fun x => Fl.is_finite x = true \/ x = NaN) a ->
  Forall (fun x => Fl.is_finite x = true) w ->
  List.filter (fun x => negb (Fl.is_nan x)) (Np.multiply a w)
  = List.map (fun f => Fl.mul (fst f) (snd f)) (filas_elegibles a w).
Proof.
  intros Ha. revert w. induction Ha as [|x a Hx _ IH]; intros w Hw; [reflexivity|].
  destruct Hw as [|y w Hy Hw]; [reflexivity|].
  cbn [Np.multiply filas_elegibles List.filter].
  destruct Hx as [Hx | ->].
  - destruct x as [| |p|]; try discriminate Hx.
    destruct y as [| |q|]; try discriminate Hy.
    cbn [Fl.mul Fl.is_nan negb List.map fst snd]. rewrite IH by exact Hw.
    reflexivity.
  - cbn [Fl.mul Fl.is_nan negb]. apply IH, Hw.
Qed.

Lemma multiply_finite (a w : list float) :
  Forall (fun x => Fl.is_finite x = true) a ->
  Forall (fun x => Fl.is_finite x = true) w ->
  Forall (fun x => Fl.is_finite x = true) (Np.multiply a w).
Proof.
  intros Ha. revert w. induction Ha as [|x a Hx _ IH]; intros w Hw; [constructor|].
  destruct Hw as [|y w Hy Hw]; [constructor|].
  cbn [Np.multiply]. constructor; [|apply IH, Hw].
  destruct x; try discriminate Hx. destruct y; try discriminate Hy. reflexivity.
Qed.

(** X11: the weighted mean age of the summary page, on a well-formed table
    with numeric ages (some may be missing) and finite weights.  It never
    raises.  A row without an age adds nothing to the numerator, but its
    weight stays in the denominator, which is the weight of all rows; so
    the figure is the weighted mean of the known ages only when no age is
    missing, and then it is the value that the [np.average] of the
    ethnicity analysis gives for the same column. *)
Theorem avg_age_edad_faltante (df : DataFrame) (edad factor : Column)
  (a w : list float)
  (Hwf : wf_df df)
  (Hedad : Pd.get_column df EDAD = Ok edad)
  (Hfactor : Pd.get_column df FACTOR_DE_EXPANSION = Ok factor)
  (Ha : col_values edad = List.map Num a)
  (Hw : col_values factor = List.map Num w)
  (Hfa : Forall (fun x => Fl.is_finite x = true \/ x = NaN) a)
  (Hfw : Forall (fun x => Fl.is_finite x = true) w) :
  avg_age df
  = Ok (Fl.div (Fl.sum (List.map (fun f => Fl.mul (fst f) (snd f))
                                 (filas_elegibles a w)))
               (Fl.sum w))
  /\ (Forall (fun x => Fl.is_finite x = true) a -> a <> [] ->
      Fl.eqb (Fl.sum w) (Fin 0) = false ->
      weighted_mean df EDAD = avg_age df
      /\ weighted_mean_spec a w = Some (Fl.div (Pd.sum (Np.multiply a w)) (Pd.sum w))).
Proof.
  assert (Havg : avg_age df = Ok (Fl.div (Pd.sum (Np.multiply a w)) (Pd.sum w))).
  { unfold avg_age. rewrite Hedad, Hfactor. cbn [bind].
    rewrite Ha, Hw, !as_floats_map_Num. reflexivity. }
  assert (Hsw : Pd.sum w = Fl.sum w).
  { unfold Pd.sum. rewrite filter_notnan_fin by exact Hfw. reflexivity. }
  split.
  - rewrite Havg, Hsw. unfold Pd.sum at 1.
    rewrite multiply_elegibles by assumption. reflexivity.
  - intros Hfin Hne Hsum.
    assert (Hlen : List.length a = List.length w).
    { pose proof (wf_length df _ _ Hwf Hedad) as H1.
      pose proof (wf_length df _ _ Hwf Hfactor) as H2.
      rewrite Ha, List.length_map in H1. rewrite Hw, List.length_map in H2. lia. }
    assert (Hna : Forall (fun x => Fl.is_nan x = false) a).
    { eapply List.Forall_impl; [|exact Hfin]. intros x Hx.
      destruct x; try discriminate Hx; reflexivity. }
    assert (Hnw : Forall (fun x => Fl.is_nan x = false) w).
    { eapply List.Forall_impl; [|exact Hfw]. intros x Hx.
      destruct x; try discriminate Hx; reflexivity. }
    assert (Hsm : Pd.sum (Np.multiply a w) = Fl.sum (Np.multiply a w)).
    { unfold Pd.sum. rewrite filter_notnan_fin; [reflexivity|].
      apply multiply_finite; assumption. }
    split.
    + rewrite Havg, Hsm, Hsw. unfold weighted_mean. rewrite Hedad, Hfactor.
      cbn [bind]. rewrite Ha, Hw, !dropna_no_null by assumption.
      rewrite List.length_map.
      destruct a as [|x a']; [congruence|]. cbn [List.length Nat.eqb].
      rewrite !as_floats_map_Num. cbn [bind]. unfold Np.average.
      rewrite Hlen, Nat.eqb_refl. cbn [negb]. rewrite Hsum. reflexivity.
    + unfold weighted_mean_spec.
      destruct (filas_elegibles_no_null a w Hna Hlen) as (H1 & H2 & H3).
      specialize (H3 Hne). destruct (filas_elegibles a w) as [|f fs] eqn:Hf;
        [congruence|].
      rewrite H1, H2, Hsm, Hsw. reflexivity.
Qed.

(** ages 30 and missing with weights 1 and 1: the page shows 15, the
    weighted mean of the known ages is 30 *)
Lemma avg_age_edad_faltante_witness :
  avg_age df_edad_faltante = Ok (Fin 15)
  /\ weighted_mean_spec [Fin 30; NaN] [Fin 1; Fin 1] = Some (Fin 30).
Proof.
  split; [|reflexivity].
  destruct (avg_age_edad_faltante df_edad_faltante
              {| col_name := "EDAD"; col_dtype := DNumeric;
                 col_values := [Num (Fin 30); Num NaN] |}
              {| col_name := "FACTOR DE EXPANSION"; col_dtype := DNumeric;
                 col_values := [Num (Fin 1); Num (Fin 1)] |}
              [Fin 30; NaN] [Fin 1; Fin 1]) as [H _].
  - repeat constructor.
  - reflexivity.
  - reflexivity.
  - reflexivity.
  - reflexivity.
  - constructor; [left; reflexivity|]. constructor; [right; reflexivity|].
    constructor.
  - repeat constructor.
  - rewrite H. reflexivity.
Defined.

(** ** Strong associations *)

Lemma for_each_o_app {A B : Type} (body : list B -> A -> option (list B))
  (g : A -> list B) (l : list A) :
  (forall x acc, In x l -> body acc x = Some (acc ++ g x)%list) ->
  forall acc, for_each_o body l acc = Some (acc ++ flat_map g l)%list.
Proof.
  induction l as [|x l IH]; intros Hbody acc.
  - cbn. rewrite List.app_nil_r. reflexivity.
  - cbn [for_each_o flat_map]. rewrite Hbody by (left; reflexivity).
    rewrite IH by (intros y acc' Hy; apply Hbody; right; exact Hy).
    rewrite List.app_assoc. reflexivity.
Qed.

Lemma entry_triu (m : matrix) (i j : nat) :
  entry (triu m) i j
  = match entry m i j with
    | Some v => Some (if (i <? j)%nat then v else Fin 0)
    | None => None
    end.
Proof.
  unfold entry, triu. rewrite list_lookup_imap.
  destruct (m !! i) as [row|]; [|reflexivity]. cbn [fmap option_fmap option_map].
  rewrite list_lookup_imap. destruct (row !! j); reflexivity.
Qed.

Lemma asociacion_valor (df : DataFrame) (var1 var2 : string)
  (weights : option string) (v : float) :
  asociacion df var1 var2 weights = Ok (Some v) ->
  v = NaN \/ exists q, v = Fin q /\ 0 <= q /\ q <= 1.
Proof.
  unfold asociacion.
  destruct (Pd.get_column df var1) as [c1|]; [|discriminate].
  destruct (Pd.get_column df var2) as [c2|]; [|discriminate]. cbn [bind].
  destruct weights as [w|].
  - destruct (Pd.get_column df w) as [c|]; [|discriminate]. cbn [bind].
    destruct (0 <? _)%nat; [|discriminate]. intros [= <-].
    apply cramers_v_nan_or_range.
  - cbn [bind]. destruct (0 <? _)%nat; [|discriminate]. intros [= <-].
    apply cramers_v_nan_or_range.
Qed.

Lemma valor_par_rango (df : DataFrame) (variables : list string)
  (weights : option string) (i j : nat) :
  valor_par df variables weights i j = NaN
  \/ exists q, valor_par df variables weights i j = Fin q /\ 0 <= q /\ q <= 1.
Proof.
  assert (H0 : exists q, Fin 0 = Fin q /\ 0 <= q /\ q <= 1).
  { exists 0. split; [reflexivity|]. split; discriminate. }
  unfold valor_par.
  destruct (variables !! i) as [var1|]; [|auto].
  destruct (variables !! j) as [var2|]; [|auto].
  destruct (asociacion df var1 var2 weights) as [[v|]|e] eqn:Ha; [|auto|auto].
  eapply asociacion_valor, Ha.
Qed.

(** X12: the list of strong associations, for the matrix that
    [calculate_association_matrix] returns on variables that are columns of
    the table and a list of as many names.  The loops never fail on an
    index; an entry is listed exactly for the pairs [i < j] whose pairwise
    value is above 0.3, with the names and the value of the pair, each pair
    once at most; a pair whose value is NaN is never listed, and every
    listed value is a number above 0.3 and at most 1. *)
Theorem asociaciones_fuertes (df : DataFrame) (variables : list string)
  (weights : option string) (readable_names : list string)
  (Hpresentes : columnas_presentes df variables weights)
  (Hnames : List.length readable_names = List.length variables) :
  exists m fuertes,
    calculate_association_matrix df variables weights = Ok m
    /\ strong_associations (List.length variables) readable_names m = Some fuertes
    /\ (forall a, In a fuertes
                  <-> exists i j name1 name2,
                        (i < j)%nat
                        /\ readable_names !! i = Some name1
                        /\ readable_names !! j = Some name2
                        /\ Fl.gtb (valor_par df variables weights i j)
                                  UMBRAL_FUERTE = true
                        /\ a = {| variable_1 := name1; variable_2 := name2;
                                  valor_cramers :=
                                    valor_par df variables weights i j |})
    /\ (forall a, In a fuertes ->
                  exists q, valor_cramers a = Fin q
                            /\ 5404319552844595 # 18014398509481984 < q
                            /\ q <= 1).
Proof.
  destruct (matriz_estado df variables weights Hpresentes) as [m [Hm [Hsq Hent]]].
  set (n := List.length variables) in *.
  assert (Hupper : forall i j, (i < j)%nat -> (j < n)%nat ->
                     entry (triu m) i j
                     = Some (valor_par df variables weights i j)).
  { intros i j Hij Hj. rewrite entry_triu, Hent by lia.
    rewrite (parcial_final df variables weights n) by lia.
    unfold entrada_esperada. nat_cases; reflexivity. }
  set (nombre := fun i => nth i readable_names "").
  assert (Hnombre : forall i, (i < n)%nat ->
                              readable_names !! i = Some (nombre i)).
  { intros i Hi. unfold nombre.
    destruct (lookup_lt_is_Some_2 readable_names i) as [x Hx];
      [rewrite Hnames; exact Hi|].
    rewrite nth_lookup, Hx. reflexivity. }
  set (g := fun i j =>
              if Fl.gtb (valor_par df variables weights i j) UMBRAL_FUERTE
              then [ {| variable_1 := nombre i; variable_2 := nombre j;
                        valor_cramers := valor_par df variables weights i j |} ]
              else []).
  assert (Hloops : strong_associations n readable_names m
                   = Some (flat_map (fun i => flat_map (g i) (seq (S i) (n - S i)))
                                    (seq 0 n))).
  { unfold strong_associations.
    rewrite (for_each_o_app _ (fun i => flat_map (g i) (seq (S i) (n - S i))));
      [reflexivity|].
    intros i acc Hi. apply List.in_seq in Hi.
    apply for_each_o_app. intros j acc' Hj. apply List.in_seq in Hj.
    rewrite Hupper by lia. unfold g.
    destruct (Fl.gtb _ _); [|rewrite List.app_nil_r; reflexivity].
    rewrite !Hnombre by lia. reflexivity. }
  assert (Hin : forall a,
             In a (flat_map (fun i => flat_map (g i) (seq (S i) (n - S i)))
                            (seq 0 n))
             <-> exists i j,
                   (i < j)%nat /\ (j < n)%nat
                   /\ Fl.gtb (valor_par df variables weights i j)
                             UMBRAL_FUERTE = true
                   /\ a = {| variable_1 := nombre i; variable_2 := nombre j;
                             valor_cramers :=
                               valor_par df variables weights i j |}).
  { intros a. rewrite List.in_flat_map. split.
    - intros [i [Hi Ha]]. apply List.in_flat_map in Ha.
      destruct Ha as [j [Hj Ha]]. apply List.in_seq in Hi, Hj.
      exists i, j. unfold g in Ha.
      destruct (Fl.gtb _ _) eqn:Hgt; [|destruct Ha].
      destruct Ha as [<-|[]]. repeat split; try lia; reflexivity.
    - intros (i & j & Hij & Hj & Hgt & ->). exists i.
      split; [apply List.in_seq; lia|]. apply List.in_flat_map. exists j.
      split; [apply List.in_seq; lia|]. unfold g. rewrite Hgt. left. reflexivity. }
  exists m. eexists. split; [exact Hm|]. split; [exact Hloops|]. split.
  - intros a. rewrite Hin. split.
    + intros (i & j & Hij & Hj & Hgt & ->).
      exists i, j, (nombre i), (nombre j).
      repeat split; try assumption; apply Hnombre; lia.
    + intros (i & j & name1 & name2 & Hij & H1 & H2 & Hgt & ->).
      assert (Hj : (j < n)%nat).
      { apply lookup_lt_Some in H2. rewrite Hnames in H2. exact H2. }
      exists i, j. rewrite Hnombre in H1, H2 by lia.
      injection H1 as <-. injection H2 as <-. auto.
  - intros a Ha. apply Hin in Ha. destruct Ha as (i & j & _ & _ & Hgt & ->).
    cbn [valor_cramers].
    destruct (valor_par_rango df variables weights i j) as [Hnan|[q (Hq & H0 & H1)]].
    + rewrite Hnan in Hgt. discriminate Hgt.
    + exists q. split; [exact Hq|]. split; [|exact H1].
      rewrite Hq in Hgt. unfold Fl.gtb, UMBRAL_FUERTE in Hgt. cbn [Fl.ltb] in Hgt.
      apply Qltb_lt in Hgt. exact Hgt.
Qed.

Lemma asociaciones_fuertes_witness :
  exists m,
    calculate_association_matrix df_asociacion ["P3"; "P4"; "P5"]
                                 (Some FACTOR_DE_EXPANSION) = Ok m
    /\ strong_associations 3 ["Teatro/Danza"; "Conciertos"; "Música en Bares"] m
       = Some [ {| variable_1 := "Teatro/Danza"; variable_2 := "Conciertos";
                   valor_cramers :=
                     Fin (1637672591771089 # 2251799813685248) |} ].
Proof.
  destruct (asociaciones_fuertes df_asociacion ["P3"; "P4"; "P5"]
              (Some FACTOR_DE_EXPANSION)
              ["Teatro/Danza"; "Conciertos"; "Música en Bares"]
              columnas_presentes_ejemplo eq_refl)
    as (m & fuertes & Hm & Hf & _).
  exists m. split; [exact Hm|].
  pose proof association_matrix_ejemplo as [He _].
  rewrite He in Hm. injection Hm as <-. vm_compute. reflexivity.
Defined.

(** ** The cap on the variables *)

Lemma insert_reverse_perm {A : Type} (key : A -> nat) (x : A) (l : list A) :
  Permutation (insert_reverse key x l) (x :: l).
Proof.
  induction l as [|y r IH]; [reflexivity|]. cbn [insert_reverse].
  destruct (key x <? key y)%nat; [|reflexivity].
  rewrite IH. constructor.
Qed.

Lemma sort_reverse_perm {A : Type} (key : A -> nat) (l : list A) :
  Permutation (sort_reverse key l) l.
Proof.
  induction l as [|x l IH]; [reflexivity|]. unfold sort_reverse in *.
  cbn [fold_right]. rewrite insert_reverse_perm. constructor. exact IH.
Qed.

Lemma insert_reverse_sorted {A : Type} (key : A -> nat) (x : A) (l : list A) :
  StronglySorted (fun a b => (key b <= key a)%nat) l ->
  StronglySorted (fun a b => (key b <= key a)%nat) (insert_reverse key x l).
Proof.
  induction 1 as [|y r Hr IH Hy]; cbn [insert_reverse].
  - repeat constructor.
  - destruct (Nat.ltb_spec (key x) (key y)) as [Hlt|Hge].
    + constructor; [exact IH|].
      apply List.Forall_forall. intros z Hz.
      apply (Permutation_in _ (insert_reverse_perm key x r)) in Hz.
      destruct Hz as [<-|Hz]; [lia|].
      rewrite List.Forall_forall in Hy. apply Hy, Hz.
    + constructor; [constructor; assumption|].
      constructor; [exact Hge|].
      eapply List.Forall_impl; [|exact Hy]. cbv beta. intros z Hz. lia.
Qed.

Lemma sort_reverse_sorted {A : Type} (key : A -> nat) (l : list A) :
  StronglySorted (fun a b => (key b <= key a)%nat) (sort_reverse key l).
Proof.
  induction l as [|x l IH]; [constructor|]. unfold sort_reverse in *.
  cbn [fold_right]. apply insert_reverse_sorted, IH.
Qed.

Lemma sorted_app_le {A : Type} (R : A -> A -> Prop) (l1 l2 : list A) :
  StronglySorted R (l1 ++ l2) ->
  forall a b, In a l1 -> In b l2 -> R a b.
Proof.
  induction l1 as [|x l1 IH]; intros Hs a b Ha Hb; [destruct Ha|].
  cbn [app] in Hs. apply StronglySorted_inv in Hs. destruct Hs as [Hs Hx].
  destruct Ha as [<-|Ha].
  - rewrite List.Forall_forall in Hx. apply Hx, List.in_or_app. auto.
  - apply IH; assumption.
Qed.

Lemma var_info_presentes (df : DataFrame) (valid_vars : list string) :
  Forall (fun v => Pd.has_column df v = true) valid_vars ->
  var_info df valid_vars
  = Ok (List.map (fun v => (v, nunique_de df v)) valid_vars).
Proof.
  induction 1 as [|v l Hv _ IH]; [reflexivity|].
  cbn [var_info List.map]. unfold nunique_de at 1.
  apply has_column_get in Hv. destruct Hv as [c Hc].
  rewrite Hc, IH. reflexivity.
Qed.

(** X13: the cap on the variables of the association matrix, for variables
    that are columns of the table.  It never raises and returns at most ten
    variables, all of the given ones when they are ten or fewer; beyond
    ten, the variables kept and the variables left out are together the
    given ones, and no variable left out has more distinct values than a
    variable kept. *)
Theorem limitar_variables_top (df : DataFrame) (valid_vars : list string)
  (Hcols : Forall (fun v => Pd.has_column df v = true) valid_vars) :
  exists elegidas resto,
    limitar_variables df valid_vars = Ok elegidas
    /\ List.length elegidas = Nat.min 10 (List.length valid_vars)
    /\ ((List.length valid_vars <= 10)%nat -> elegidas = valid_vars)
    /\ Permutation (elegidas ++ resto) valid_vars
    /\ (forall e r, In e elegidas -> In r resto ->
                    (nunique_de df r <= nunique_de df e)%nat).
Proof.
  unfold limitar_variables.
  destruct (Nat.ltb_spec 10 (List.length valid_vars)) as [Hgt|Hle].
  - rewrite (var_info_presentes df valid_vars Hcols). cbn [bind].
    set (info := List.map (fun v => (v, nunique_de df v)) valid_vars).
    set (orden := sort_reverse snd info).
    assert (Hinfo : forall p, In p orden -> snd p = nunique_de df (fst p)).
    { intros p Hp. apply (Permutation_in _ (sort_reverse_perm snd info)) in Hp.
      apply List.in_map_iff in Hp. destruct Hp as [v [<- _]]. reflexivity. }
    assert (Hlen : List.length orden = List.length valid_vars).
    { unfold orden. rewrite (Permutation_length (sort_reverse_perm snd info)).
      unfold info. apply List.length_map. }
    exists (List.map fst (firstn 10 orden)), (List.map fst (skipn 10 orden)).
    split; [reflexivity|]. split; [|split; [|split]].
    + rewrite List.length_map, List.length_firstn, Hlen. reflexivity.
    + intros Hle. lia.
    + rewrite <- List.map_app, List.firstn_skipn. unfold orden.
      rewrite (sort_reverse_perm snd info). unfold info.
      rewrite List.map_map. cbn [fst]. rewrite List.map_id. reflexivity.
    + intros e r He Hr. apply List.in_map_iff in He, Hr.
      destruct He as [pe [<- He]], Hr as [pr [<- Hr]].
      rewrite <- (Hinfo pe), <- (Hinfo pr).
      * apply (sorted_app_le (fun a b : string * nat => (snd b <= snd a)%nat)
                 (firstn 10 orden) (skipn 10 orden)); [|exact He | exact Hr].
        rewrite List.firstn_skipn. apply sort_reverse_sorted.
      * rewrite <- (List.firstn_skipn 10 orden). apply List.in_or_app. auto.
      * rewrite <- (List.firstn_skipn 10 orden). apply List.in_or_app. auto.
  - exists valid_vars, []. split; [reflexivity|]. split; [lia|].
    split; [reflexivity|]. split; [rewrite List.app_nil_r; reflexivity|].
    intros e r _ [].
Qed.

Lemma limitar_variables_top_witness :
  limitar_variables df_doce
    ["V01"; "V02"; "V03"; "V04"; "V05"; "V06"; "V07"; "V08"; "V09"; "V10";
     "V11"; "V12"]
  = Ok ["V01"; "V02"; "V04"; "V05"; "V06"; "V08"; "V09"; "V10"; "V11"; "V12"].
Proof.
  destruct (limitar_variables_top df_doce
              ["V01"; "V02"; "V03"; "V04"; "V05"; "V06"; "V07"; "V08"; "V09";
               "V10"; "V11"; "V12"]) as (elegidas & resto & H & _).
  - repeat constructor.
  - rewrite H. vm_compute in H. injection H as <-. reflexivity.
Defined.

(** ** Unique readable names *)

Lemma length_append (s t : string) :
  String.length (s ++ t) = (String.length s + String.length t)%nat.
Proof. induction s as [|c s IH]; [reflexivity|]. cbn. rewrite IH. reflexivity. Qed.

Lemma append_inj_l (s t u : string) : (s ++ t = s ++ u)%string -> t = u.
Proof.
  induction s as [|c s IH]; [auto|]. cbn. intros [= H]. apply IH, H.
Qed.

Lemma append_inj_r (s t : string) (c : ascii) :
  (s ++ String c "" = t ++ String c "")%string -> s = t.
Proof.
  revert t. induction s as [|a s IH]; intros [|b t]; cbn; intros H.
  - reflexivity.
  - exfalso. injection H as _ H. destruct t; discriminate H.
  - exfalso. injection H as _ H. destruct s; discriminate H.
  - injection H as -> H. f_equal. apply IH, H.
Qed.

Lemma str_nat_inj (n m : nat) : str_nat n = str_nat m -> n = m.
Proof.
  unfold str_nat. intros H.
  assert (Hu : Some (Nat.to_uint n) = Some (Nat.to_uint m)).
  { rewrite <- !NilEmpty.usu, H. reflexivity. }
  injection Hu as Hu. rewrite <- (Unsigned.of_to n), <- (Unsigned.of_to m), Hu.
  reflexivity.
Qed.

Lemma candidato_inj (original_name : string) (i j : nat) :
  candidato original_name i = candidato original_name j -> i = j.
Proof.
  assert (Hlen : forall k, String.length (nombre_numerado original_name k)
                           <> String.length original_name).
  { intros k. unfold nombre_numerado. rewrite !length_append. cbn. lia. }
  destruct i as [|i], j as [|j]; cbn [candidato]; intros H.
  - reflexivity.
  - exfalso. apply (Hlen (S j)). rewrite <- H. reflexivity.
  - exfalso. apply (Hlen (S i)). rewrite H. reflexivity.
  - unfold nombre_numerado in H. apply append_inj_l in H.
    apply (append_inj_l " (") in H. apply append_inj_r in H.
    apply str_nat_inj, H.
Qed.

(** as many names tried and taken as there are names *)
Lemma candidatos_tomados (original_name : string) (name_counts : list string)
  (k : nat) :
  (forall i, (i < k)%nat -> In (candidato original_name i) name_counts) ->
  (k <= List.length name_counts)%nat.
Proof.
  intros Htomados.
  assert (Hk : List.length (List.map (candidato original_name) (seq 0 k)) = k).
  { rewrite List.length_map. apply List.length_seq. }
  rewrite <- Hk. clear Hk. apply List.NoDup_incl_length.
  - apply Finite.Injective_map_NoDup; [|apply List.seq_NoDup].
    intros i j. apply candidato_inj.
  - intros name Hname. apply List.in_map_iff in Hname.
    destruct Hname as [i [<- Hi]]. apply List.in_seq in Hi. apply Htomados. lia.
Qed.

(** the [while] loop ends, on the first name that is not taken *)
Lemma nombre_libre_termina (fuel : nat) (name_counts : list string)
  (original_name : string) :
  forall k,
    (forall i, (i < k)%nat -> In (candidato original_name i) name_counts) ->
    (List.length name_counts < fuel + k)%nat ->
    exists j,
      nombre_libre fuel name_counts original_name
                   (candidato original_name k) (S k)
      = Some (candidato original_name j)
      /\ (forall i, (i < j)%nat -> In (candidato original_name i) name_counts)
      /\ ~ In (candidato original_name j) name_counts.
Proof.
  induction fuel as [|fuel IH]; intros k Htomados Hfuel.
  - exfalso. pose proof (candidatos_tomados _ _ _ Htomados). lia.
  - cbn [nombre_libre].
    destruct (existsb (String.eqb (candidato original_name k)) name_counts) eqn:He.
    + assert (Hk : In (candidato original_name k) name_counts).
      { apply List.existsb_exists in He. destruct He as [x [Hx Heq]].
        apply String.eqb_eq in Heq. subst x. exact Hx. }
      assert (Htomados' : forall i, (i < S k)%nat ->
                                    In (candidato original_name i) name_counts).
      { intros i Hi. destruct (Nat.eq_dec i k) as [->|Hne]; [exact Hk|].
        apply Htomados. lia. }
      pose proof (candidatos_tomados _ _ _ Htomados') as Hle.
      destruct fuel as [|fuel']; [lia|].
      apply (IH (S k) Htomados'). lia.
    + exists k. split; [reflexivity|]. split; [exact Htomados|].
      intros Hin. apply not_true_iff_false in He. apply He.
      apply List.existsb_exists. exists (candidato original_name k).
      split; [exact Hin | apply String.eqb_refl].
Qed.

Lemma asegurar_unicos_estado (fuel : nat) (nombres : list string) :
  forall name_counts readable_names,
    (List.length name_counts + List.length nombres <= fuel)%nat ->
    List.NoDup name_counts ->
    exists nuevos,
      asegurar_unicos fuel nombres name_counts readable_names
      = Some (readable_names ++ nuevos)%list
      /\ List.length nuevos = List.length nombres
      /\ List.NoDup (name_counts ++ nuevos)
      /\ forall i original_name,
           nombres !! i = Some original_name ->
           exists k,
             nuevos !! i = Some (candidato original_name k)
             /\ (forall k', (k' < k)%nat ->
                   In (candidato original_name k')
                      (name_counts ++ firstn i nuevos))
             /\ ~ In (candidato original_name k)
                     (name_counts ++ firstn i nuevos).
Proof.
  induction nombres as [|o resto IH]; intros sc rn Hfuel Hnd.
  - exists []. rewrite !List.app_nil_r. split; [reflexivity|].
    split; [reflexivity|]. split; [exact Hnd|]. intros i x Hx. discriminate Hx.
  - cbn [List.length] in Hfuel. cbn [asegurar_unicos].
    destruct (nombre_libre_termina fuel sc o 0) as [j (Hj & Hantes & Hlibre)].
    { intros i Hi. lia. }
    { lia. }
    cbn [candidato] in Hj. rewrite Hj.
    destruct (IH (sc ++ [candidato o j])%list (rn ++ [candidato o j])%list)
      as [nuevos (Hn & Hlen & Hnd' & Hpos)].
    { rewrite List.length_app. cbn [List.length]. lia. }
    { apply List.NoDup_app; [exact Hnd | repeat constructor; intros [] |].
      intros x Hx [<-|[]]. apply Hlibre, Hx. }
    exists (candidato o j :: nuevos). rewrite Hn, <- !List.app_assoc.
    split; [reflexivity|]. split; [cbn [List.length]; lia|].
    split; [rewrite <- List.app_assoc in Hnd'; exact Hnd'|].
    intros [|i] x Hx.
    + injection Hx as <-. exists j. cbn [firstn]. rewrite List.app_nil_r.
      split; [reflexivity|]. split; [exact Hantes | exact Hlibre].
    + destruct (Hpos i x Hx) as [k (Hk & Hantes' & Hlibre')]. exists k.
      cbn [firstn]. rewrite <- List.app_assoc in Hantes', Hlibre'.
      split; [exact Hk|]. split; [exact Hantes' | exact Hlibre'].
Qed.

(** X14: the loop that makes the readable names unique.  With as many
    turns allowed as there are variables, no [while] loop runs out: the
    loop ends and gives one name per variable, no name twice; the name of
    a variable is the first among its proposed name and that name followed
    by (1), (2), ... that no earlier variable got, so a proposed name that
    is new is kept as it is. *)
Theorem nombres_unicos (fuel : nat) (nombres : list string)
  (Hfuel : (List.length nombres <= fuel)%nat) :
  exists readable_names,
    asegurar_unicos fuel nombres [] [] = Some readable_names
    /\ List.length readable_names = List.length nombres
    /\ List.NoDup readable_names
    /\ forall i original_name,
         nombres !! i = Some original_name ->
         exists k,
           readable_names !! i = Some (candidato original_name k)
           /\ (forall k', (k' < k)%nat ->
                 In (candidato original_name k') (firstn i readable_names))
           /\ ~ In (candidato original_name k) (firstn i readable_names).
Proof.
  destruct (asegurar_unicos_estado fuel nombres [] []) as [nuevos H].
  - cbn [List.length]. lia.
  - constructor.
  - exists nuevos. exact H.
Qed.

Lemma nombres_unicos_witness :
  asegurar_unicos 4 ["Museos"; "Museos (1)"; "Museos"; "Museos"] [] []
  = Some ["Museos"; "Museos (1)"; "Museos (2)"; "Museos (3)"].
Proof.
  destruct (nombres_unicos 4 ["Museos"; "Museos (1)"; "Museos"; "Museos"])
    as [readable_names (H & _)].
  - cbn. lia.
  - rewrite H. vm_compute in H. injection H as <-. reflexivity.
Defined.

(** ** SI/NO columns *)

Lemma valor_num_binario (c : cell) :
  valor_num c = Num (Fin 0) \/ valor_num c = Num (Fin 1).
Proof.
  unfold valor_num. destruct (texto_normalizado c) as [t|]; [|auto].
  destruct (_ || _); auto.
Qed.

Lemma nrows_set_column (df : DataFrame) (name : string) (d : dtype)
  (values : list cell) :
  nrows (Pd.set_column df name d values) = nrows df.
Proof. reflexivity. Qed.

(** the state of the conversion loop: the rows are those of the table, and
    every column reported so far is there, numeric, with 0 and 1 only *)
Lemma convertir_si_no_estado (cols : list Column) :
  forall (st : DataFrame * list (string * string)) (n : nat),
    nrows (fst st) = n ->
    (forall par, In par (snd st) ->
       snd par = col_num (fst par)
       /\ exists c, Pd.get_column (fst st) (snd par) = Ok c
                    /\ col_dtype c = DNumeric
                    /\ Forall (fun v => v = Num (Fin 0) \/ v = Num (Fin 1))
                              (col_values c)) ->
    let st' :=
      fold_left
        (fun (st : DataFrame * list (string * string)) (c : Column) =>
           let (df', convertidas) := st in
           match Pd.get_column df' (col_name c) with
           | Ok col =>
               if es_si_no col then
                 (Pd.set_column df' (col_num (col_name c)) DNumeric
                    (List.map valor_num (col_values col)),
                  (convertidas ++ [(col_name c, col_num (col_name c))])%list)
               else st
           | Raise _ => st
           end)
        cols st in
    nrows (fst st') = n
    /\ (forall par, In par (snd st') ->
          snd par = col_num (fst par)
          /\ exists c, Pd.get_column (fst st') (snd par) = Ok c
                       /\ col_dtype c = DNumeric
                       /\ Forall (fun v => v = Num (Fin 0) \/ v = Num (Fin 1))
                                 (col_values c)).
Proof.
  induction cols as [|c cols IH]; intros [df' convertidas] n Hn Hinv;
    [split; assumption|].
  cbn [fold_left]. cbn [fst snd] in Hn, Hinv.
  destruct (Pd.get_column df' (col_name c)) as [col|e] eqn:Hget;
    [|apply IH; assumption].
  destruct (es_si_no col) eqn:Hsi; [|apply IH; assumption].
  apply IH; cbn [fst snd]; [exact Hn|].
  intros par Hpar. apply List.in_app_or in Hpar.
  assert (Hnueva : exists c0,
             Pd.get_column
               (Pd.set_column df' (col_num (col_name c)) DNumeric
                  (List.map valor_num (col_values col)))
               (col_num (col_name c)) = Ok c0
             /\ col_dtype c0 = DNumeric
             /\ Forall (fun v => v = Num (Fin 0) \/ v = Num (Fin 1))
                       (col_values c0)).
  { rewrite get_set_column. eexists. split; [reflexivity|].
    split; [reflexivity|]. cbn [col_values]. apply List.Forall_forall.
    intros v Hv. apply List.in_map_iff in Hv. destruct Hv as [x [<- _]].
    apply valor_num_binario. }
  destruct Hpar as [Hpar|[<-|[]]].
  - destruct (Hinv par Hpar) as [Hname [c0 Hc0]]. split; [exact Hname|].
    destruct (String.eqb_spec (snd par) (col_num (col_name c))) as [Heq|Hne].
    + rewrite Heq. exact Hnueva.
    + rewrite get_set_column_other by exact Hne. eauto.
  - cbn [fst snd]. split; [reflexivity | exact Hnueva].
Qed.

(** X15: the conversion of the SI/NO columns.  It keeps the number of rows;
    every pair it reports names a column and its numeric twin
    ([..._num]), and after the whole loop that twin is a column of the
    table, numeric, and holds only 0 and 1 (a missing answer has become
    0), even when two columns share one twin name. *)
Theorem convertir_si_no_binario (df : DataFrame) :
  nrows (fst (convertir_si_no df)) = nrows df
  /\ forall col col_n,
       In (col, col_n) (snd (convertir_si_no df)) ->
       col_n = col_num col
       /\ exists c, Pd.get_column (fst (convertir_si_no df)) col_n = Ok c
                    /\ col_dtype c = DNumeric
                    /\ Forall (fun v => v = Num (Fin 0) \/ v = Num (Fin 1))
                              (col_values c).
Proof.
  destruct (convertir_si_no_estado (columns df) (df, []) (nrows df) eq_refl)
    as [Hn Hinv].
  - intros par [].
  - split; [exact Hn|]. intros col col_n Hin. apply (Hinv (col, col_n) Hin).
Qed.

Lemma convertir_si_no_binario_witness :
  exists c,
    Pd.get_column (fst (convertir_si_no df_respuestas)) "lectura_libros_num" = Ok c
    /\ col_dtype c = DNumeric
    /\ Forall (fun v => v = Num (Fin 0) \/ v = Num (Fin 1)) (col_values c).
Proof.
  destruct (convertir_si_no_binario df_respuestas) as [_ H].
  destruct (H "LECTURA LIBROS" "lectura_libros_num") as [_ Hc].
  - left. reflexivity.
  - exact Hc.
Defined.

(** the missing answer becomes 0, the padded and the accented one 1 *)
Lemma convertir_si_no_ejemplo :
  convertir_si_no df_respuestas
  = ({| nrows := 3;
        columns := [ {| col_name := "LECTURA LIBROS"; col_dtype := DObject;
                        col_values := [Str " si "; Num NaN; Str "SÍ"] |};
                     {| col_name := "lectura_libros_num"; col_dtype := DNumeric;
                        col_values := [Num (Fin 1); Num (Fin 0); Num (Fin 1)] |} ] |},
     [("LECTURA LIBROS", "lectura_libros_num")]).
Proof. vm_compute. reflexivity. Qed.

(** ** Cultural index and participation level *)

Lemma cut_tres (q a b c d : Q) (l1 l2 l3 : string) :
  a < b -> b < c -> c < d ->
  Pd.cut (Fin q) [Fin a; Fin b; Fin c; Fin d] [l1; l2; l3] true
  = if Qle_bool a q && Qle_bool q b then Some l1
    else if Fl.Qltb b q && Qle_bool q c then Some l2
    else if Fl.Qltb c q && Qle_bool q d then Some l3
    else None.
Proof.
  intros Hab Hbc Hcd.
  unfold Pd.cut, Pd.searchsorted_left.
  cbn [List.hd List.filter Fl.is_nan Fl.eqb Fl.ltb andb orb].
  decide_q; reflexivity.
Qed.

Lemma tercio_le (M q : Q) : Qle_bool q (Qred (M / 3)) = Qle_bool (3 * q) M.
Proof.
  apply eq_iff_eq_true. rewrite !Qle_bool_iff, Qred_correct.
  unfold Qdiv. change (/ 3) with (1 # 3).
  split; intros H; lra.
Qed.

Lemma tercio_lt (M q : Q) : Fl.Qltb (Qred (M / 3)) q = Fl.Qltb M (3 * q).
Proof.
  apply eq_iff_eq_true. rewrite !Qltb_lt, Qred_correct.
  unfold Qdiv. change (/ 3) with (1 # 3).
  split; intros H; lra.
Qed.

Lemma nivel_tercios (m : nat) (q : Q) :
  (3 <= m)%nat ->
  nivel_participacion m (Fin q)
  = if Qle_bool (-3602879701896397 # 36028797018963968) q
       && Qle_bool (3 * q) (inject_Z (Z.of_nat m))
    then Str "Bajo"
    else if Fl.Qltb (inject_Z (Z.of_nat m)) (3 * q)
            && Qle_bool (3 * q) (2 * inject_Z (Z.of_nat m))
    then Str "Medio"
    else if Fl.Qltb (2 * inject_Z (Z.of_nat m)) (3 * q)
            && Qle_bool q (inject_Z (Z.of_nat m))
    then Str "Alto"
    else Num NaN.
Proof.
  intros Hm. unfold nivel_participacion.
  assert (Nat.eqb m 0 = false) as -> by (apply Nat.eqb_neq; lia).
  assert ((3 <=? m)%nat = true) as -> by (apply Nat.leb_le; lia).
  assert (Hpos : 0 < inject_Z (Z.of_nat m)) by (apply of_nat_pos; lia).
  unfold Fl.of_nat, MENOS_0_1.
  set (M := inject_Z (Z.of_nat m)) in *.
  cbn [Fl.mul Fl.div]. change (Qeq_bool 3 0) with false. cbv iota.
  assert (H2 : Qred (Qred (2 * M) / 3) == (2 * M) / 3).
  { rewrite Qred_correct. unfold Qdiv. rewrite Qred_correct. reflexivity. }
  rewrite cut_tres.
  - rewrite tercio_le, tercio_lt.
    assert (Qle_bool q (Qred (Qred (2 * M) / 3)) = Qle_bool (3 * q) (2 * M)) as ->.
    { apply eq_iff_eq_true. rewrite !Qle_bool_iff, H2.
      unfold Qdiv. change (/ 3) with (1 # 3). split; intros H; lra. }
    assert (Fl.Qltb (Qred (Qred (2 * M) / 3)) q = Fl.Qltb (2 * M) (3 * q)) as ->.
    { apply eq_iff_eq_true. rewrite !Qltb_lt, H2.
      unfold Qdiv. change (/ 3) with (1 # 3). split; intros H; lra. }
    destruct (_ && _); [reflexivity|].
    destruct (_ && _); [reflexivity|].
    destruct (_ && _); reflexivity.
  - rewrite Qred_correct. unfold Qdiv. change (/ 3) with (1 # 3). lra.
  - rewrite H2, Qred_correct. unfold Qdiv. change (/ 3) with (1 # 3). lra.
  - rewrite H2. unfold Qdiv. change (/ 3) with (1 # 3). lra.
Qed.

Lemma le_entero (z : Z) :
  Qle_bool (-3602879701896397 # 36028797018963968) (inject_Z z) = (0 <=? z)%Z.
Proof.
  apply eq_iff_eq_true. rewrite Qle_bool_iff, Z.leb_le. split.
  - intros H. destruct (Z.le_gt_cases 0 z) as [Hz|Hz]; [exact Hz|]. exfalso.
    assert (Hq : inject_Z z <= inject_Z (-1)) by (rewrite <- Zle_Qle; lia).
    change (inject_Z (-1)) with (-1 # 1) in Hq. lra.
  - intros Hz. assert (Hq : inject_Z 0 <= inject_Z z) by (rewrite <- Zle_Qle; lia).
    change (inject_Z 0) with 0 in Hq. lra.
Qed.

Lemma tres_entero (z : Z) : 3 * inject_Z z == inject_Z (3 * z).
Proof. rewrite inject_Z_mult. reflexivity. Qed.

Lemma dos_entero (m : nat) :
  2 * inject_Z (Z.of_nat m) == inject_Z (2 * Z.of_nat m).
Proof. rewrite inject_Z_mult. reflexivity. Qed.

(** X16: the participation level of a whole-number index (a count of yes
    answers) when the index has three variables or more, of the twelve
    that it can have ([pd.cut] into thirds, right-inclusive, lowest edge
    included).  With [m] variables the
    count [z] is Bajo when [0 <= z] and [3 z <= m], Medio when
    [m < 3 z <= 2 m], Alto when [2 m < 3 z] and [z <= m], and has no level
    below 0 and above [m]; a missing index has no level.  On whole numbers
    the thirds [m/3] and [2m/3] and their doubles separate the same counts,
    so the edges are those of the source. *)
Theorem nivel_participacion_tercios (m : nat) (z : Z)
  (Hm : (3 <= m)%nat) (Hbase : (m <= List.length cultural_vars_base)%nat) :
  nivel_participacion m (Fin (inject_Z z))
  = (if (0 <=? z)%Z && (3 * z <=? Z.of_nat m)%Z then Str "Bajo"
     else if (Z.of_nat m <? 3 * z)%Z && (3 * z <=? 2 * Z.of_nat m)%Z
     then Str "Medio"
     else if (2 * Z.of_nat m <? 3 * z)%Z && (z <=? Z.of_nat m)%Z
     then Str "Alto"
     else Num NaN)
  /\ nivel_participacion m NaN = Num NaN.
Proof.
  split.
  - rewrite (nivel_tercios m (inject_Z z) Hm), le_entero.
    assert (H1 : Qle_bool (3 * inject_Z z) (inject_Z (Z.of_nat m))
                 = (3 * z <=? Z.of_nat m)%Z).
    { apply eq_iff_eq_true.
      rewrite Qle_bool_iff, Z.leb_le, tres_entero, <- Zle_Qle. reflexivity. }
    assert (H2 : Fl.Qltb (inject_Z (Z.of_nat m)) (3 * inject_Z z)
                 = (Z.of_nat m <? 3 * z)%Z).
    { apply eq_iff_eq_true.
      rewrite Qltb_lt, Z.ltb_lt, tres_entero, <- Zlt_Qlt. reflexivity. }
    assert (H3 : Qle_bool (3 * inject_Z z) (2 * inject_Z (Z.of_nat m))
                 = (3 * z <=? 2 * Z.of_nat m)%Z).
    { apply eq_iff_eq_true.
      rewrite Qle_bool_iff, Z.leb_le, tres_entero, dos_entero, <- Zle_Qle.
      reflexivity. }
    assert (H4 : Fl.Qltb (2 * inject_Z (Z.of_nat m)) (3 * inject_Z z)
                 = (2 * Z.of_nat m <? 3 * z)%Z).
    { apply eq_iff_eq_true.
      rewrite Qltb_lt, Z.ltb_lt, tres_entero, dos_entero, <- Zlt_Qlt.
      reflexivity. }
    assert (H5 : Qle_bool (inject_Z z) (inject_Z (Z.of_nat m))
                 = (z <=? Z.of_nat m)%Z).
    { apply eq_iff_eq_true. rewrite Qle_bool_iff, Z.leb_le, <- Zle_Qle.
      reflexivity. }
    rewrite H1, H2, H3, H4, H5. reflexivity.
  - unfold nivel_participacion.
    assert (Nat.eqb m 0 = false) as -> by (apply Nat.eqb_neq; lia).
    assert ((3 <=? m)%nat = true) as -> by (apply Nat.leb_le; lia).
    reflexivity.
Qed.

(** with twelve variables: 4 is still Bajo, 8 still Medio, 9 Alto *)
Lemma nivel_participacion_tercios_witness :
  nivel_participacion 12 (Fin 4) = Str "Bajo"
  /\ nivel_participacion 12 (Fin 8) = Str "Medio"
  /\ nivel_participacion 12 (Fin 9) = Str "Alto"
  /\ nivel_participacion 12 (Fin 13) = Num NaN.
Proof.
  assert (H3 : (3 <= 12)%nat) by lia.
  assert (H12 : (12 <= List.length cultural_vars_base)%nat) by (cbn; lia).
  split; [|split; [|split]].
  - exact (proj1 (nivel_participacion_tercios 12 4 H3 H12)).
  - exact (proj1 (nivel_participacion_tercios 12 8 H3 H12)).
  - exact (proj1 (nivel_participacion_tercios 12 9 H3 H12)).
  - exact (proj1 (nivel_participacion_tercios 12 13 H3 H12)).
Defined.

Lemma qsum_unidades (l : list float) :
  Forall (fun w => exists q, w = Fin q /\ 0 <= q /\ q <= 1) l ->
  0 <= qsum l /\ qsum l <= inject_Z (Z.of_nat (List.length l)).
Proof.
  induction 1 as [|w l [q (-> & H0 & H1)] _ [IH0 IH1]];
    [cbn; split; discriminate|].
  rewrite qsum_cons. cbn [List.length].
  rewrite Nat2Z.inj_succ, <- Z.add_1_r, inject_Z_plus.
  change (inject_Z 1) with 1. split; lra.
Qed.

(** X17: the cultural index of a row and its level.  When every variable
    of the index reads as a number between 0 and 1 or is missing (as the
    numeric twins of the SI/NO columns do), the index is a number between
    0 and the number of variables, a missing answer counting as 0; and
    with at least one variable the level of the row is one of Bajo, Medio
    and Alto, never missing. *)
Theorem indice_cultural_rango (str_to_float : string -> float)
  (fila : list cell)
  (Hfila : Forall (fun c => to_numeric str_to_float c = NaN
                            \/ exists q, to_numeric str_to_float c = Fin q
                                         /\ 0 <= q /\ q <= 1) fila) :
  exists q,
    indice_cultural_fila str_to_float fila = Fin q
    /\ 0 <= q /\ q <= inject_Z (Z.of_nat (List.length fila))
    /\ (fila <> [] ->
        exists nivel, nivel_fila str_to_float fila = Str nivel
                      /\ In nivel ["Bajo"; "Medio"; "Alto"]).
Proof.
  assert (Hco : Forall (fun w => exists q, w = Fin q /\ 0 <= q /\ q <= 1)
                       (List.map (coercion_0 str_to_float) fila)).
  { apply List.Forall_map. eapply List.Forall_impl; [|exact Hfila].
    intros c [Hc | [q (Hc & H0 & H1)]]; unfold coercion_0; rewrite Hc; cbn.
    - exists 0. split; [reflexivity|]. split; lra.
    - exists q. auto. }
  assert (Hfin : Forall (fun w => Fl.is_finite w = true)
                        (List.map (coercion_0 str_to_float) fila)).
  { eapply List.Forall_impl; [|exact Hco]. intros w [q [-> _]]. reflexivity. }
  destruct (sum_fin _ Hfin) as [s (Hs & Hsq & _)].
  destruct (qsum_unidades _ Hco) as [Hq0 Hq1].
  rewrite List.length_map in Hq1. rewrite <- Hsq in Hq0, Hq1.
  destruct fila as [|c fila'] eqn:Hf.
  - exists 0. split; [reflexivity|]. split; [apply Qle_refl|].
    split; [apply Qle_refl|]. intros H. contradiction.
  - rewrite <- Hf in *. clear Hfila Hco Hfin.
    assert (Hi : indice_cultural_fila str_to_float fila = Fin s).
    { rewrite Hf. rewrite Hf in Hs. exact Hs. }
    exists s. split; [exact Hi|]. split; [exact Hq0|]. split; [exact Hq1|].
    intros _. unfold nivel_fila. rewrite Hi.
    assert (Hlen : (1 <= List.length fila)%nat) by (rewrite Hf; cbn; lia).
    destruct (Nat.le_gt_cases 3 (List.length fila)) as [H3|H3].
    + rewrite (nivel_tercios _ s H3).
      set (M := inject_Z (Z.of_nat (List.length fila))) in *.
      decide_q; cbn [andb]; eexists; (split; [reflexivity|]); cbn; auto.
    + unfold nivel_participacion.
      assert (Nat.eqb (List.length fila) 0 = false) as ->
        by (apply Nat.eqb_neq; lia).
      assert ((3 <=? List.length fila)%nat = false) as ->
        by (apply Nat.leb_gt; lia).
      destruct (Fl.geb _ _); [eexists; split; [reflexivity|]; cbn; auto|].
      destruct (Fl.geb _ _); eexists; (split; [reflexivity|]); cbn; auto.
Qed.

(** a row of four variables: a yes, a missing answer, a text that is no
    number, a yes; the index is 2 of 4 *)
Lemma indice_cultural_rango_witness :
  indice_cultural_fila parse_inf [Num (Fin 1); Num NaN; Str "x"; Num (Fin 1)]
  = Fin 2
  /\ exists nivel,
       nivel_fila parse_inf [Num (Fin 1); Num NaN; Str "x"; Num (Fin 1)]
       = Str nivel
       /\ In nivel ["Bajo"; "Medio"; "Alto"].
Proof.
  split; [reflexivity|].
  destruct (indice_cultural_rango parse_inf
              [Num (Fin 1); Num NaN; Str "x"; Num (Fin 1)])
    as [q (_ & _ & _ & H)].
  - constructor; [right; exists 1; split; [reflexivity | split; discriminate]|].
    constructor; [left; reflexivity|].
    constructor; [left; reflexivity|].
    constructor; [right; exists 1; split; [reflexivity | split; discriminate]|].
    constructor.
  - apply H. discriminate.
Defined.

(** X18: the variables of the cultural index are columns of the table, at
    most one for each of the twelve base variables; so selecting them from
    the table cannot fail. *)
Theorem cultural_vars_numeric_presentes (df : DataFrame) :
  Forall (fun v => Pd.has_column df v = true) (cultural_vars_numeric df)
  /\ (List.length (cultural_vars_numeric df) <= 12)%nat
  /\ forall v, In v (cultural_vars_numeric df) ->
       exists base, In base cultural_vars_base
                    /\ Pd.has_column df base = true
                    /\ (v = base \/ v = col_num base).
Proof.
  assert (Hin : forall v, In v (cultural_vars_numeric df) ->
                  Pd.has_column df v = true
                  /\ exists base, In base cultural_vars_base
                                  /\ Pd.has_column df base = true
                                  /\ (v = base \/ v = col_num base)).
  { intros v Hv. unfold cultural_vars_numeric in Hv.
    apply List.in_flat_map in Hv. destruct Hv as [base [Hbase Hv]].
    destruct (Pd.get_column df base) as [c|e] eqn:Hc; [|destruct Hv].
    assert (Hhas : Pd.has_column df base = true)
      by (apply has_column_get; eauto).
    destruct (is_numeric_dtype c).
    - destruct Hv as [<-|[]]. split; [exact Hhas|]. exists base. auto.
    - destruct (Pd.has_column df (col_num base)) eqn:Hn; [|destruct Hv].
      destruct Hv as [<-|[]]. split; [exact Hn|]. exists base. auto. }
  split; [|split].
  - apply List.Forall_forall. intros v Hv. apply Hin, Hv.
  - unfold cultural_vars_numeric.
    assert (Hlen : forall l : list string,
               (List.length
                  (flat_map
                     (fun var =>
                        match Pd.get_column df var with
                        | Ok c =>
                            if is_numeric_dtype c then [var]
                            else if Pd.has_column df (col_num var)
                                 then [col_num var] else []
                        | Raise _ => []
                        end) l)
                <= List.length l)%nat).
    { induction l as [|x l IH]; [reflexivity|].
      cbn [flat_map]. rewrite List.length_app. cbn [List.length].
      destruct (Pd.get_column df x) as [c|e]; [|cbn; lia].
      destruct (is_numeric_dtype c); [cbn; lia|].
      destruct (Pd.has_column df (col_num x)); cbn; lia. }
    apply (Hlen cultural_vars_base).
  - intros v Hv. apply Hin, Hv.
Qed.

(** ** Box plots: the expanded data *)

Lemma scaled_weight_uno (w : float) (n : Z) :
  scaled_weight w = Some n -> (1 <= n)%Z /\ Fl.is_finite w = true.
Proof.
  unfold scaled_weight. destruct (Fl.div w (Fin 10)) as [| |q|] eqn:Hd;
    try discriminate. intros [= <-]. split; [lia|].
  destruct w as [| |a|]; try reflexivity; cbn in Hd; discriminate Hd.
Qed.

Lemma expanded_data_pares (data : list cell) (ws : list float) :
  forall out,
    expanded_data data ws = Some out ->
    (Nat.min (List.length data) (List.length ws) <= List.length out)%nat
    /\ (forall v, In v out -> In v data)
    /\ Forall (fun vw => exists n, scaled_weight (snd vw) = Some n
                                   /\ (1 <= n <= MAXSIZE)%Z
                                   /\ Fl.is_finite (snd vw) = true)
              (List.combine data ws)
    /\ out = flat_map (fun vw => List.repeat (fst vw)
                                   (match scaled_weight (snd vw) with
                                    | Some n => Z.to_nat n
                                    | None => 0
                                    end))
                      (List.combine data ws).
Proof.
  revert ws. induction data as [|val data IH]; intros ws out Hout.
  - cbn in Hout. injection Hout as <-. cbn.
    split; [lia|]. split; [intros v []|]. split; [constructor | reflexivity].
  - destruct ws as [|w ws].
    { cbn in Hout. injection Hout as <-. cbn.
      split; [lia|]. split; [intros v []|]. split; [constructor | reflexivity]. }
    cbn [expanded_data] in Hout.
    destruct (scaled_weight w) as [n|] eqn:Hn; [|discriminate Hout].
    unfold repetir in Hout.
    destruct (MAXSIZE <? n)%Z eqn:Hmax; [discriminate Hout|].
    destruct (expanded_data data ws) as [resto|] eqn:Hr; [|discriminate Hout].
    injection Hout as <-. apply Z.ltb_ge in Hmax.
    destruct (scaled_weight_uno w n Hn) as [Hn1 Hfin].
    destruct (IH ws resto Hr) as (Hlen & Hin & Hall & Heq).
    split; [|split; [|split]].
    + rewrite List.length_app, List.repeat_length. cbn [List.length]. lia.
    + intros v Hv. apply List.in_app_or in Hv. destruct Hv as [Hv|Hv].
      * apply List.repeat_spec in Hv. left. auto.
      * right. apply Hin, Hv.
    + cbn [List.combine]. constructor; [|exact Hall].
      exists n. cbn [snd]. auto.
    + cbn [List.combine flat_map fst snd]. rewrite Hn, <- Heq. reflexivity.
Qed.

Lemma dropna_map_Num (ws : list float) :
  Pd.dropna (List.map Num ws)
  = List.map Num (List.filter (fun x => negb (Fl.is_nan x)) ws).
Proof.
  unfold Pd.dropna. induction ws as [|w ws IH]; [reflexivity|].
  cbn [List.map List.filter]. rewrite IH. destruct w; reflexivity.
Qed.

(** X19: the data of one box of the income plots, whenever the expansion
    returns.  Every value of the result is a present value of the group
    and every paired value is there once at least; the values and the
    weights are stripped of missing entries separately and paired by
    position, so that the k-th present value is repeated by the scaled
    weight of the k-th present weight, whatever rows the two come from;
    and each weight used is finite with a count that a list can have (an
    infinite weight makes [round] fail, a count beyond [sys.maxsize] the
    repetition). *)
Theorem datos_caja_pares (valores : list cell) (ws : list float)
  (out : list cell)
  (Hout : datos_caja valores (List.map Num ws) = Some out) :
  let data := Pd.dropna valores in
  let weights := List.filter (fun x => negb (Fl.is_nan x)) ws in
  (forall v, In v out -> In v valores /\ Pd.notna v = true)
  /\ (weights <> [] ->
      (Nat.min (List.length data) (List.length weights) <= List.length out)%nat)
  /\ (data <> [] ->
      Forall (fun vw => exists n, scaled_weight (snd vw) = Some n
                                  /\ (1 <= n <= MAXSIZE)%Z
                                  /\ Fl.is_finite (snd vw) = true)
             (List.combine data weights)
      /\ out = flat_map (fun vw => List.repeat (fst vw)
                                     (match scaled_weight (snd vw) with
                                      | Some n => Z.to_nat n
                                      | None => 0
                                      end))
                        (List.combine data weights)).
Proof.
  intros data weights. unfold datos_caja in Hout.
  rewrite dropna_map_Num, List.length_map in Hout. fold data weights in Hout.
  destruct (Nat.eqb (List.length data) 0 || Nat.eqb (List.length weights) 0)
    eqn:Hvacio.
  - injection Hout as <-. split; [intros v []|].
    apply orb_true_iff in Hvacio. split.
    + intros Hw. destruct Hvacio as [H|H]; apply Nat.eqb_eq in H.
      * rewrite H. cbn. lia.
      * destruct weights; [contradiction | discriminate H].
    + intros Hd. destruct Hvacio as [H|H]; apply Nat.eqb_eq in H.
      * destruct data; [contradiction | discriminate H].
      * destruct weights; [|discriminate H].
        destruct data; cbn; split; auto.
  - rewrite as_floats_map_Num in Hout.
    destruct (expanded_data_pares data weights out Hout)
      as (Hlen & Hin & Hall & Heq).
    split; [|split; [intros _; exact Hlen | intros _; split; assumption]].
    intros v Hv. apply Hin in Hv. unfold data, Pd.dropna in Hv.
    apply List.filter_In in Hv. exact Hv.
Qed.

(** incomes 1 and 3 around a missing one, weights 10, 20 and 30: the
    income 3 of the third row is repeated by the weight of the second *)
Lemma datos_caja_pares_witness :
  datos_caja [Num (Fin 1); Num NaN; Num (Fin 3)] [Num (Fin 10); Num (Fin 20); Num (Fin 30)]
  = Some [Num (Fin 1); Num (Fin 3); Num (Fin 3)]
  /\ [Num (Fin 1); Num (Fin 3); Num (Fin 3)]
     = flat_map (fun vw => List.repeat (fst vw)
                             (match scaled_weight (snd vw) with
                              | Some n => Z.to_nat n
                              | None => 0
                              end))
                (List.combine [Num (Fin 1); Num (Fin 3)] [Fin 10; Fin 20; Fin 30]).
Proof.
  assert (H : datos_caja [Num (Fin 1); Num NaN; Num (Fin 3)]
                         (List.map Num [Fin 10; Fin 20; Fin 30])
              = Some [Num (Fin 1); Num (Fin 3); Num (Fin 3)])
    by (vm_compute; reflexivity).
  split; [exact H|].
  destruct (datos_caja_pares _ _ _ H) as (_ & _ & Hd).
  apply Hd. discriminate.
Defined.

(** a weight that makes the expansion fail: an infinite one, and one whose
    count is beyond [sys.maxsize] *)
Lemma datos_caja_falla :
  datos_caja [Num (Fin 1)] [Num PInf] = None
  /\ datos_caja [Num (Fin 1)] [Num (Fin (10 * inject_Z (MAXSIZE + 1)))] = None.
Proof. split; [reflexivity | vm_compute; reflexivity]. Qed.

(** ** What the cleaning achieves *)

Lemma porcentaje_gtb_filled (a n : nat) (t : float) :
  Fl.gtb (Fl.mul (Fl.div (Fl.of_nat a) (Fl.of_nat n)) (Fin 100)) t = false ->
  Fl.gtb (Fl.mul (Fl.div (Fl.of_nat 0) (Fl.of_nat n)) (Fin 100)) t = false.
Proof.
  unfold Fl.gtb, Fl.div, Fl.of_nat. rewrite !of_nat_eq0.
  destruct (Nat.eqb_spec n 0) as [Hn|Hn]; cbn [Nat.eqb].
  - intros _. destruct t; reflexivity.
  - destruct (Nat.eqb_spec a 0) as [Ha|Ha]; [subst; tauto|].
    destruct t as [| |t|]; cbn [Fl.mul Fl.ltb]; try tauto.
    rewrite !Qltb_ge, !Qred_correct. intros H.
    apply Qle_trans with (2 := H).
    assert (Hdiv : 0 <= inject_Z (Z.of_nat a) / inject_Z (Z.of_nat n)).
    { apply Qle_shift_div_l; [apply of_nat_pos; lia|].
      rewrite Qmult_0_l. apply of_nat_nonneg. }
    unfold Qdiv at 1. rewrite Qmult_0_l. lra.
Qed.

Lemma limpiar_columna (df : DataFrame) (umbral_na : float) (c : Column) :
  In c (columns (fst (limpiar_datos_categoricos df umbral_na))) ->
  exists d, In d (columns df)
            /\ Fl.gtb (porcentaje_na df d) (Fl.mul umbral_na (Fin 100)) = false
            /\ c = (if pendiente d then imputar d else d).
Proof.
  rewrite limpiar_columns, List.in_map_iff. intros [d [Hd Hin]].
  apply List.filter_In in Hin. destruct Hin as [Hin Hk].
  apply no_eliminada in Hk. exists d. split; [exact Hin|]. split; [|auto].
  destruct (Fl.gtb _ _) eqn:Hg; [|reflexivity]. exfalso. apply Hk.
  unfold columnas_a_eliminar. apply List.in_map, List.filter_In. auto.
Qed.

(** X20: what the cleaning achieves, for every table and threshold.  In
    the table it returns no column has a missing percentage above the
    threshold (by the test of the function itself, on the returned table),
    and a column that still has a missing value is not of object or
    category type and is a column of the input, kept as it was. *)
Theorem limpiar_postcondicion (df : DataFrame) (umbral_na : float) (c : Column)
  (Hc : In c (columns (fst (limpiar_datos_categoricos df umbral_na)))) :
  Fl.gtb (porcentaje_na (fst (limpiar_datos_categoricos df umbral_na)) c)
         (Fl.mul umbral_na (Fin 100)) = false
  /\ ((0 < Pd.count_na (col_values c))%nat ->
      es_categorica c = false /\ In c (columns df)).
Proof.
  assert (Hrows : nrows (fst (limpiar_datos_categoricos df umbral_na)) = nrows df).
  { rewrite limpiar_fst. cbv zeta. cbn [nrows]. apply nrows_after_drop. }
  destruct (limpiar_columna df umbral_na c Hc) as [d (Hd & Hgt & ->)].
  unfold porcentaje_na in *. rewrite Hrows.
  destruct (pendiente d) eqn:Hp.
  - rewrite imputar_sin_na. split.
    + eapply porcentaje_gtb_filled, Hgt.
    + intros H. lia.
  - split; [exact Hgt|]. intros Hna. split; [|exact Hd].
    unfold pendiente in Hp. apply andb_false_iff in Hp.
    destruct Hp as [Hp|Hp]; [exact Hp|]. apply Nat.ltb_ge in Hp. lia.
Qed.

Lemma limpiar_postcondicion_witness :
  Fl.gtb (porcentaje_na (fst (limpiar_datos_categoricos df_orden (Fin (1 # 2))))
            {| col_name := "C"; col_dtype := DNumeric;
               col_values := [Num (Fin 1); Num NaN] |})
         (Fl.mul (Fin (1 # 2)) (Fin 100)) = false
  /\ ((0 < Pd.count_na [Num (Fin 1); Num NaN])%nat ->
      es_categorica {| col_name := "C"; col_dtype := DNumeric;
                       col_values := [Num (Fin 1); Num NaN] |} = false
      /\ In {| col_name := "C"; col_dtype := DNumeric;
               col_values := [Num (Fin 1); Num NaN] |} (columns df_orden)).
Proof.
  apply (limpiar_postcondicion df_orden (Fin (1 # 2))
           {| col_name := "C"; col_dtype := DNumeric;
              col_values := [Num (Fin 1); Num NaN] |}).
  vm_compute. auto.
Defined.

(** ** Age groups in the table, and the shares by age group *)

Lemma crear_grupos_edad_columnas (str_to_float : string -> float)
  (df : DataFrame) (col : Column) :
  Pd.get_column df EDAD = Ok col ->
  let df' := crear_grupos_edad str_to_float df in
  nrows df' = nrows df
  /\ Pd.get_column df' GRUPO_EDAD
     = Ok {| col_name := GRUPO_EDAD; col_dtype := DCategory labels_edad;
             col_values :=
               List.map (fun c => Pd.categoria
                                    (grupo_edad (to_numeric str_to_float c)))
                        (col_values col) |}
  /\ Pd.get_column df' EDAD
     = Ok {| col_name := EDAD; col_dtype := DNumeric;
             col_values := List.map (fun c => Num (to_numeric str_to_float c))
                                    (col_values col) |}
  /\ (forall other, other <> EDAD -> other <> GRUPO_EDAD ->
                    Pd.get_column df' other = Pd.get_column df other).
Proof.
  intros Hcol df'. subst df'. unfold crear_grupos_edad. rewrite Hcol.
  cbv zeta. split; [reflexivity|]. split; [|split].
  - rewrite get_set_column, List.map_map. reflexivity.
  - rewrite get_set_column_other by discriminate.
    rewrite get_set_column, List.map_map. reflexivity.
  - intros other H1 H2. rewrite !get_set_column_other by assumption. reflexivity.
Qed.

(** X21: the age groups in the table.  On a table with an age column the
    derivation keeps the rows and every other column, makes the ages
    numeric, and adds the group of each row's own age, row by row; a group
    is missing or one of the six labels.  A table without an age column is
    returned as it is. *)
Theorem crear_grupos_edad_tabla (str_to_float : string -> float)
  (df : DataFrame) :
  (forall col,
     Pd.get_column df EDAD = Ok col ->
     let df' := crear_grupos_edad str_to_float df in
     nrows df' = nrows df
     /\ (forall other, other <> EDAD -> other <> GRUPO_EDAD ->
                       Pd.get_column df' other = Pd.get_column df other)
     /\ exists edad grupo,
          Pd.get_column df' EDAD = Ok edad
          /\ Pd.get_column df' GRUPO_EDAD = Ok grupo
          /\ col_dtype edad = DNumeric
          /\ List.length (col_values grupo) = List.length (col_values col)
          /\ (forall i c,
                col_values col !! i = Some c ->
                col_values edad !! i = Some (Num (to_numeric str_to_float c))
                /\ col_values grupo !! i
                   = Some (Pd.categoria (grupo_edad (to_numeric str_to_float c))))
          /\ Forall (fun v => v = Num NaN
                              \/ exists l, v = Str l /\ In l labels_edad)
                    (col_values grupo))
  /\ (Pd.has_column df EDAD = false -> crear_grupos_edad str_to_float df = df).
Proof.
  split.
  - intros col Hcol df'.
    destruct (crear_grupos_edad_columnas str_to_float df col Hcol)
      as (Hn & Hg & He & Ho).
    split; [exact Hn|]. split; [exact Ho|].
    eexists. eexists. split; [exact He|]. split; [exact Hg|].
    cbn [col_dtype col_values]. split; [reflexivity|].
    split; [apply List.length_map|]. split.
    + intros i c Hi. rewrite !list_lookup_fmap, Hi. split; reflexivity.
    + apply List.Forall_forall. intros v Hv. apply List.in_map_iff in Hv.
      destruct Hv as [c [<- _]].
      destruct (grupo_edad (to_numeric str_to_float c)) as [l|] eqn:Hl;
        cbn [Pd.categoria]; [right | left; reflexivity].
      exists l. split; [reflexivity|].
      unfold grupo_edad, Pd.cut in Hl.
      destruct (_ || _ || _); [discriminate|]. eapply List.nth_error_In, Hl.
  - intros Hno. unfold crear_grupos_edad.
    destruct (Pd.get_column df EDAD) as [col|e] eqn:Hcol; [|reflexivity].
    exfalso. assert (Pd.has_column df EDAD = true)
      by (apply has_column_get; eauto). congruence.
Qed.

Lemma crear_grupos_edad_tabla_witness :
  Pd.get_column (crear_grupos_edad parse_inf df_edad_actividad) "P3"
  = Pd.get_column df_edad_actividad "P3"
  /\ crear_grupos_edad parse_inf df_seis = df_seis.
Proof.
  destruct (crear_grupos_edad_tabla parse_inf df_edad_actividad) as [H _].
  destruct (H _ eq_refl) as (_ & Ho & _).
  split; [apply Ho; discriminate|].
  apply (crear_grupos_edad_tabla parse_inf df_seis). reflexivity.
Defined.

Lemma unique_In (values : list cell) (v : cell) :
  In v (unique values) -> In v values.
Proof.
  induction values as [|c l IH]; [auto|]. cbn [unique].
  intros [<-|H]; [left; reflexivity|]. right. apply IH.
  apply List.filter_In in H. apply H.
Qed.

Lemma tasas_por_grupo_signo (df : DataFrame) (activity_col : string)
  (col factor : Column) (pesos : list float) (grupo : string) (g : Column)
  (valores : list cell) :
  Pd.get_column df activity_col = Ok col ->
  Pd.get_column df FACTOR_DE_EXPANSION = Ok factor ->
  col_values factor = List.map Num pesos ->
  Forall (fun w => Fl.ltb w (Fin 0) = false) pesos ->
  Pd.get_column df grupo = Ok g ->
  exists tasas,
    tasas_por_grupo df grupo activity_col valores = Ok tasas
    /\ List.map fst tasas = valores
    /\ Forall (fun t => Fl.ltb (snd t) (Fin 0) = false) tasas.
Proof.
  intros Hcol Hfactor Hnum Hpesos Hg.
  induction valores as [|v resto IH].
  - exists []. split; [reflexivity|]. split; [reflexivity | constructor].
  - destruct IH as [tail (Ht & Hk & Hr)].
    destruct (pct_signo df activity_col col factor pesos grupo g v
                Hcol Hfactor Hnum Hpesos Hg) as [q (Hq & H0)].
    cbn [tasas_por_grupo]. rewrite Hq, Ht. cbn [bind].
    eexists. split; [reflexivity|]. cbn [List.map fst]. rewrite Hk.
    split; [reflexivity|]. constructor; [exact H0 | exact Hr].
Qed.

(** X22: the shares by age group of the activity page, after the
    derivation of the age groups.  On a table with ages, the activity and
    numeric weights none of which is below 0 the loop does not raise; it
    gives one share for each age group that occurs, in order of first
    occurrence, each group one of the six labels and no share below 0.
    On a table with neither an age nor an age-group column the loop raises
    [KeyError], as nothing on the page tests for the column. *)
Theorem age_participation_tras_derivacion (str_to_float : string -> float)
  (df : DataFrame) (activity_col : string) :
  (forall edad col factor pesos,
     Pd.get_column df EDAD = Ok edad ->
     Pd.get_column df activity_col = Ok col ->
     activity_col <> EDAD -> activity_col <> GRUPO_EDAD ->
     Pd.get_column df FACTOR_DE_EXPANSION = Ok factor ->
     col_values factor = List.map Num pesos ->
     Forall (fun w => Fl.ltb w (Fin 0) = false) pesos ->
     exists tasas,
       age_participation (crear_grupos_edad str_to_float df) activity_col
       = Ok tasas
       /\ List.map fst tasas
          = unique (Pd.dropna
                      (List.map (fun c => Pd.categoria
                                            (grupo_edad (to_numeric str_to_float c)))
                                (col_values edad)))
       /\ Forall (fun t => (exists l, fst t = Str l /\ In l labels_edad)
                           /\ Fl.ltb (snd t) (Fin 0) = false)
                 tasas)
  /\ (Pd.has_column df EDAD = false -> Pd.has_column df GRUPO_EDAD = false ->
      age_participation (crear_grupos_edad str_to_float df) activity_col
      = Raise KeyError).
Proof.
  split.
  - intros edad col factor pesos Hedad Hcol Hne1 Hne2 Hfactor Hnum Hpesos.
    destruct (crear_grupos_edad_columnas str_to_float df edad Hedad)
      as (_ & Hg & _ & Ho).
    assert (Hcol' : Pd.get_column (crear_grupos_edad str_to_float df) activity_col
                    = Ok col) by (rewrite Ho by assumption; exact Hcol).
    assert (Hfactor' : Pd.get_column (crear_grupos_edad str_to_float df)
                                     FACTOR_DE_EXPANSION = Ok factor)
      by (rewrite Ho by discriminate; exact Hfactor).
    unfold age_participation. rewrite Hg. cbn [bind col_values].
    destruct (tasas_por_grupo_signo (crear_grupos_edad str_to_float df)
                activity_col col factor pesos GRUPO_EDAD _
                (unique (Pd.dropna
                           (List.map (fun c => Pd.categoria
                                                 (grupo_edad
                                                    (to_numeric str_to_float c)))
                                     (col_values edad))))
                Hcol' Hfactor' Hnum Hpesos Hg)
      as [tasas (Ht & Hk & Hr)].
    exists tasas. split; [exact Ht|]. split; [exact Hk|].
    apply List.Forall_forall. intros t Ht'. split.
    + assert (Hin : In (fst t) (List.map fst tasas)) by (apply List.in_map, Ht').
        rewrite Hk in Hin. apply unique_In in Hin.
        unfold Pd.dropna in Hin. apply List.filter_In in Hin.
        destruct Hin as [Hin Hnotna]. apply List.in_map_iff in Hin.
        destruct Hin as [c [Hc _]]. rewrite <- Hc in *.
        destruct (grupo_edad (to_numeric str_to_float c)) as [l|] eqn:Hl;
          [|discriminate Hnotna].
        exists l. split; [reflexivity|].
        unfold grupo_edad, Pd.cut in Hl.
        destruct (_ || _ || _); [discriminate|]. eapply List.nth_error_In, Hl.
    + rewrite List.Forall_forall in Hr. apply Hr, Ht'.
  - intros Hno Hng. unfold crear_grupos_edad, age_participation.
    destruct (Pd.get_column df EDAD) as [c|e] eqn:Hc.
    + exfalso. assert (Pd.has_column df EDAD = true)
        by (apply has_column_get; eauto). congruence.
    + destruct (Pd.get_column df GRUPO_EDAD) as [g|e'] eqn:Hg.
      * exfalso. assert (Pd.has_column df GRUPO_EDAD = true)
          by (apply has_column_get; eauto). congruence.
      * unfold Pd.get_column in Hg.
        destruct (List.find _ (columns df)); [discriminate|].
        injection Hg as <-. reflexivity.
Qed.

(** ages 10, 25, 11 and a missing one, answers SI, NO, NO, SI: half of the
    children take part, none of the young; the fourth row is in no group *)
Lemma age_participation_tras_derivacion_witness :
  age_participation (crear_grupos_edad parse_inf df_edad_actividad) "P3"
  = Ok [(Str "Niñez (0-12)", Fin 50); (Str "Juventud (19-28)", Fin 0)]
  /\ age_participation (crear_grupos_edad parse_inf df_seis) "LECTURA LIBROS"
     = Raise KeyError.
Proof.
  destruct (age_participation_tras_derivacion parse_inf df_seis "LECTURA LIBROS")
    as [_ Hkey].
  split; [vm_compute; reflexivity|].
  apply Hkey; reflexivity.
Defined.

(** ** The weighted rate as a share *)

Lemma div_cero (t : Q) : 0 < t -> Fl.div (Fin 0) (Fin t) = Fin 0.
Proof.
  intros Ht.
  assert (Hne : Qeq_bool t 0 = false).
  { apply Qeqb_false. intros E. rewrite E in Ht. apply (Qlt_irrefl 0), Ht. }
  cbn [Fl.div]. rewrite Hne. reflexivity.
Qed.

Lemma mask_ninguna {A : Type} (f : A -> bool) (l : list A) :
  Forall (fun x => f x = false) l -> Pd.count_true (List.map f l) = 0%nat.
Proof.
  intros Hno. unfold Pd.count_true. rewrite filter_none; [reflexivity|].
  intros b Hb. apply List.in_map_iff in Hb. destruct Hb as [c [<- Hc]].
  rewrite List.Forall_forall in Hno. apply Hno, Hc.
Qed.

(** X23: the weighted rate is a share.  On a well-formed table with the
    column and strictly positive finite weights, the rates of SI and of NO
    are computed without an exception, neither is below 0 nor above 1 (the
    two sums of the quotient run over the same rows in the same order, the
    terms of the numerator being a weight or 0); both are 0 when no row
    answers SI or NO, and each is 0 when no row gives its answer. *)
Theorem weighted_percentage_rango (df : DataFrame) (column : string)
  (col factor : Column) (pesos : list float)
  (Hwf : wf_df df)
  (Hcol : Pd.get_column df column = Ok col)
  (Hfactor : Pd.get_column df FACTOR_DE_EXPANSION = Ok factor)
  (Hnum : col_values factor = List.map Num pesos)
  (Hpesos : Forall (fun w => exists q, w = Fin q /\ 0 < q) pesos) :
  exists si no,
    weighted_percentage df column "SI" = Ok si
    /\ weighted_percentage df column "NO" = Ok no
    /\ Fl.ltb si (Fin 0) = false /\ Fl.gtb si (Fin 1) = false
    /\ Fl.ltb no (Fin 0) = false /\ Fl.gtb no (Fin 1) = false
    /\ (Forall (fun c => Pd.isin ["SI"; "NO"] c = false) (col_values col) ->
        si = Fin 0 /\ no = Fin 0)
    /\ (Forall (fun c => Pd.cell_is "SI" c = false) (col_values col) ->
        si = Fin 0)
    /\ (Forall (fun c => Pd.cell_is "NO" c = false) (col_values col) ->
        no = Fin 0).
Proof.
  set (elegible := List.map (Pd.isin ["SI"; "NO"]) (col_values col)).
  set (valores_e := Pd.mask_filter elegible (col_values col)).
  set (pesos_e := Pd.mask_filter elegible pesos).
  pose proof (wf_length df _ _ Hwf Hcol) as Hlc.
  pose proof (wf_length df _ _ Hwf Hfactor) as Hlf.
  rewrite Hnum, List.length_map in Hlf.
  assert (Hmask : List.length elegible = nrows df).
  { unfold elegible. rewrite List.length_map. exact Hlc. }
  assert (Hn : nrows (Pd.loc_rows elegible df) = Pd.count_true elegible).
  { unfold Pd.loc_rows. cbn [nrows]. f_equal. apply List.firstn_all2. lia. }
  assert (Hlpe : List.length pesos_e = Pd.count_true elegible).
  { unfold pesos_e. apply length_mask_filter. lia. }
  assert (Hnn : Forall (fun w => exists q, w = Fin q /\ 0 <= q) pesos_e).
  { apply mask_filter_Forall. eapply List.Forall_impl; [|exact Hpesos].
    intros w [q [-> Hq]]. exists q. split; [reflexivity | lra]. }
  assert (Hforma : forall value,
             weighted_percentage df column value
             = if Nat.eqb (Pd.count_true elegible) 0 then Ok (Fin 0)
               else Ok (Fl.div
                          (Pd.sum (Pd.mask_filter
                                     (List.map (Pd.cell_is value) valores_e)
                                     pesos_e))
                          (Pd.sum pesos_e))).
  { intros value. unfold weighted_percentage. rewrite Hcol. cbn [bind].
    fold elegible. rewrite Hn. destruct (Nat.eqb _ 0); [reflexivity|].
    rewrite !get_column_loc_rows, Hcol, Hfactor. cbn [bind col_values].
    rewrite Hnum, mask_filter_map, as_floats_map_Num. cbn [bind].
    rewrite sum_producto_indicador. reflexivity. }
  rewrite !Hforma.
  destruct (Nat.eqb_spec (Pd.count_true elegible) 0) as [Hz|Hnz].
  - exists (Fin 0), (Fin 0).
    split; [reflexivity|]. split; [reflexivity|].
    split; [reflexivity|]. split; [reflexivity|].
    split; [reflexivity|]. split; [reflexivity|].
    split; [intros _; split; reflexivity|].
    split; intros _; reflexivity.
  - destruct (sum_fin pesos_e (no_negativos_finitos _ Hnn)) as [t (Ht & Htq & _)].
    destruct (sum_fin _ (no_negativos_finitos _
                           (mask_filter_Forall _
                              (List.map (Pd.cell_is "SI") valores_e) _ Hnn)))
      as [y1 (Hy1 & Hy1q & _)].
    destruct (sum_fin _ (no_negativos_finitos _
                           (mask_filter_Forall _
                              (List.map (Pd.cell_is "NO") valores_e) _ Hnn)))
      as [y2 (Hy2 & Hy2q & _)].
    destruct (qsum_mask (List.map (Pd.cell_is "SI") valores_e) pesos_e Hnn)
      as [H10 H1t].
    destruct (qsum_mask (List.map (Pd.cell_is "NO") valores_e) pesos_e Hnn)
      as [H20 H2t].
    rewrite <- Hy1q in H10, H1t. rewrite <- Hy2q in H20, H2t.
    rewrite <- Htq in H1t, H2t.
    assert (Htpos : 0 < t).
    { assert (Hgt : Fl.ltb (Fin 0) (Pd.sum pesos_e) = true).
      { apply sum_pos.
        - apply mask_filter_Forall. eapply List.Forall_impl; [|exact Hpesos].
          intros w [q [-> Hq]]. cbn. apply Qltb_lt, Hq.
        - intros Hnil. rewrite Hnil in Hlpe. cbn in Hlpe. lia. }
      rewrite Ht in Hgt. cbn in Hgt. apply Qltb_lt, Hgt. }
    assert (Hne : Qeq_bool t 0 = false).
    { apply Qeqb_false. intros E. rewrite E in Htpos.
      apply (Qlt_irrefl 0), Htpos. }
    assert (Hd10 : 0 <= y1 / t) by (apply Qle_shift_div_l; lra).
    assert (Hd11 : y1 / t <= 1) by (apply Qle_shift_div_r; lra).
    assert (Hd20 : 0 <= y2 / t) by (apply Qle_shift_div_l; lra).
    assert (Hd21 : y2 / t <= 1) by (apply Qle_shift_div_r; lra).
    eexists. eexists. split; [reflexivity|]. split; [reflexivity|].
    split; [|split; [|split; [|split; [|split; [|split]]]]].
    + rewrite Hy1, Ht. cbn [Fl.div]. rewrite Hne. cbn [Fl.ltb].
      apply Qltb_ge. rewrite Qred_correct. exact Hd10.
    + rewrite Hy1, Ht. cbn [Fl.div]. rewrite Hne. unfold Fl.gtb. cbn [Fl.ltb].
      apply Qltb_ge. rewrite Qred_correct. exact Hd11.
    + rewrite Hy2, Ht. cbn [Fl.div]. rewrite Hne. cbn [Fl.ltb].
      apply Qltb_ge. rewrite Qred_correct. exact Hd20.
    + rewrite Hy2, Ht. cbn [Fl.div]. rewrite Hne. unfold Fl.gtb. cbn [Fl.ltb].
      apply Qltb_ge. rewrite Qred_correct. exact Hd21.
    + intros Hno. exfalso. apply Hnz. unfold elegible.
      apply mask_ninguna, Hno.
    + intros Hno.
      rewrite (mask_filter_ninguna _ pesos_e
                 (mask_ninguna (Pd.cell_is "SI") valores_e
                    (mask_filter_Forall _ elegible _ Hno))).
      change (Pd.sum []) with (Fin 0). rewrite Ht. apply div_cero, Htpos.
    + intros Hno.
      rewrite (mask_filter_ninguna _ pesos_e
                 (mask_ninguna (Pd.cell_is "NO") valores_e
                    (mask_filter_Forall _ elegible _ Hno))).
      change (Pd.sum []) with (Fin 0). rewrite Ht. apply div_cero, Htpos.
Qed.

(** weights 2, 5, 3 and answers SI, SÍ (not an answer of the rate), NO:
    the rates are 2/5 and 3/5 *)
Lemma weighted_percentage_rango_witness :
  exists si no,
    weighted_percentage df_tres LECTURA_LIBROS "SI" = Ok si
    /\ weighted_percentage df_tres LECTURA_LIBROS "NO" = Ok no
    /\ Fl.ltb si (Fin 0) = false /\ Fl.gtb si (Fin 1) = false
    /\ Fl.ltb no (Fin 0) = false /\ Fl.gtb no (Fin 1) = false.
Proof.
  destruct (weighted_percentage_rango df_tres LECTURA_LIBROS
              {| col_name := "LECTURA LIBROS"; col_dtype := DObject;
                 col_values := [Str "SI"; Str "SÍ"; Str "NO"] |}
              {| col_name := "FACTOR DE EXPANSION"; col_dtype := DNumeric;
                 col_values := [Num (Fin 2); Num (Fin 5); Num (Fin 3)] |}
              [Fin 2; Fin 5; Fin 3])
    as (si & no & Hsi & Hno & H1 & H2 & H3 & H4 & _).
  - repeat constructor.
  - reflexivity.
  - reflexivity.
  - reflexivity.
  - repeat constructor; eexists; (split; [reflexivity | reflexivity]).
  - exists si, no. auto 10.
Defined.
